(** * user-service: the authentication and token-lifecycle core

    A shallow embedding of [src/services/jwt-service.ts],
    [src/services/user-service.ts], the user repository (the SQL of each
    repository function read against the schema of the migrations file),
    the authentication middleware and the routes, followed by the
    properties of the register / login / refresh / reset flows.

    Conventions.
    - A JavaScript string is a [string], a sequence of code units below
      256; its [length] is the number of code units.  Regular expressions
      are modelled on sequences of 16-bit code units.
    - A [Date] and a Postgres TIMESTAMP are a [Z], in milliseconds.  The
      token codec reads the clock of the jsonwebtoken library, which counts
      whole seconds; that reading is the [clock] argument of the codec.
    - Everything an operation draws from outside (random salts, generated
      identifiers, clock readings, whether the database answers a
      statement) is an explicit argument of its model.
    - A thrown [ServiceError] is the [Throw] result; the store reached when
      the exception left the function is returned with it (nothing is
      rolled back).
    - A statement fails, with [DATABASE_ERROR], when the database does not
      answer it (no connection, a parameter that cannot be sent), when a
      value does not fit its column (VARCHAR width, INTEGER range, UUID
      syntax) or when it violates a key constraint.
      A bcrypt digest is 60 characters and fits its column.  What the
      service writes to the console is outside the model. *)

From Stdlib Require Import String Ascii List ZArith NArith Bool Lia DecimalString.
Import ListNotations.

Local Open Scope string_scope.
Local Open Scope Z_scope.

(* ------------------------------------------------------------------ *)
(** ** types/errors.ts *)

(** The keys of the [ErrorCodes] object; each key is bound to the string of
    its own name. *)
Inductive ErrorCodes : Type :=
  | INVALID_EMAIL | WEAK_PASSWORD | USER_EXISTS | EMAIL_TAKEN | USERNAME_TAKEN
  | INVALID_CREDENTIALS | USER_NOT_FOUND | EXPIRED_TOKEN | INVALID_TOKEN
  | UNAUTHORIZED | DATABASE_ERROR | INTERNAL_ERROR
  | INVALID_RESET_TOKEN | RESET_TOKEN_EXPIRED.

(** [class ServiceError extends Error], constructed as
    [new ServiceError(code, message, statusCode)]. *)
Record ServiceError : Type := mkServiceError {
  code : ErrorCodes;
  message : string;
  statusCode : Z
}.

Inductive Result (A : Type) : Type :=
  | Ok (a : A)
  | Throw (e : ServiceError).
Arguments Ok {A} a.
Arguments Throw {A} e.

Definition succeeded {A} (r : Result A) : bool :=
  match r with Ok _ => true | Throw _ => false end.

Definition failsWith {A} (r : Result A) (c : ErrorCodes) : Prop :=
  exists e, r = Throw e /\ code e = c.

(* ------------------------------------------------------------------ *)
(** ** types/user-types.ts *)

(** A bcrypt digest string [$2b$<cost>$<salt><hash>], by its parts. *)
Record Digest : Type := mkDigest {
  dg_rounds : Z;
  dg_salt : string;
  dg_hash : string
}.

Definition Digest_eqb (a b : Digest) : bool :=
  (dg_rounds a =? dg_rounds b) &&
  String.eqb (dg_salt a) (dg_salt b) &&
  String.eqb (dg_hash a) (dg_hash b).

Inductive TokenType : Type := access | refresh.

Record TokenPayload : Type := mkTokenPayload {
  tp_userId : string;
  tp_email : string;
  tp_username : string;
  tp_type : TokenType
}.

Record ValidationResponse : Type := mkValidationResponse {
  valid : bool;
  vr_userId : option string;
  vr_email : option string;
  vr_username : option string
}.

Record User : Type := mkUser {
  user_id : string;
  user_email : string;
  user_username : string;
  user_created_at : Z;
  user_updated_at : Z;
  user_is_active : bool
}.

Record UserProfile : Type := mkUserProfile {
  profile_id : string;
  profile_user_id : string;
  avatar_url : option string;
  level : Z;
  experience : Z;
  stats_wins : Z;
  stats_losses : Z;
  profile_created_at : Z;
  profile_updated_at : Z
}.

Record UserPreferences : Type := mkUserPreferences {
  preferences_id : string;
  preferences_user_id : string;
  notifications_enabled : bool;
  language : string;
  theme : string;
  preferences_created_at : Z;
  preferences_updated_at : Z
}.

Record UserWithProfile : Type := mkUserWithProfile {
  uwp_user : User;
  uwp_profile : UserProfile;
  uwp_preferences : UserPreferences
}.

Record RegisterRequest : Type := mkRegisterRequest {
  reg_email : string;
  reg_password : string;
  reg_username : string
}.

Record LoginRequest : Type := mkLoginRequest {
  login_email : string;
  login_password : string
}.

(** A JavaScript [number], as far as an INTEGER column tells numbers
    apart: an integer, or a number that is none (a fraction, NaN, an
    infinity). *)
Inductive JsNumber : Type :=
  | Integer (z : Z)
  | NotInteger.

(** An absent ([undefined]) field of a partial update is [None]. *)
Record UpdateProfileRequest : Type := mkUpdateProfileRequest {
  upd_avatar_url : option string;
  upd_level : option JsNumber;
  upd_experience : option JsNumber;
  upd_stats_wins : option JsNumber;
  upd_stats_losses : option JsNumber
}.

Record UpdatePreferencesRequest : Type := mkUpdatePreferencesRequest {
  upd_notifications_enabled : option bool;
  upd_language : option string;
  upd_theme : option string
}.

Record PasswordResetRequest : Type := mkPasswordResetRequest {
  prr_email : string
}.

Record PasswordResetConfirm : Type := mkPasswordResetConfirm {
  prc_token : string;
  prc_newPassword : string
}.

Record PasswordResetToken : Type := mkPasswordResetToken {
  prt_id : string;
  prt_user_id : string;
  token_hash : Digest;
  expires_at : Z;
  prt_created_at : Z
}.

(* ------------------------------------------------------------------ *)
(** ** The token codec: jsonwebtoken as jwt-service.ts uses it

    A compact token string is either a signed claim set (header, claims,
    signature) or anything else, which the library rejects as malformed
    before it looks at a signature. *)

Record JwtClaims : Type := mkJwtClaims {
  claims_payload : TokenPayload;
  iat : Z;
  exp : Z
}.

Inductive Token : Type :=
  | Malformed (raw : string)
  | Jws (claims : JwtClaims) (signature : string).

(* ------------------------------------------------------------------ *)
(** ** The external primitives

    bcrypt and the HS256 signature of jsonwebtoken are libraries, not code
    of the repository.  Their key derivation and their MAC are left
    abstract; what the model fixes is what the libraries document: a bcrypt
    digest string carries its cost and its salt next to the derived hash,
    [bcrypt.hash(data, rounds)] draws a fresh salt, and [bcrypt.compare]
    re-derives with the salt found in the digest. *)

Class Primitives : Type := {
  bcrypt_kdf : Z -> string -> string -> string;   (* cost, salt, data *)
  hs256 : string -> JwtClaims -> string           (* secret, claims *)
}.

Definition bcrypt_hash `{Primitives} (data : string) (rounds : Z) (salt : string)
  : Digest :=
  {| dg_rounds := rounds; dg_salt := salt;
     dg_hash := bcrypt_kdf rounds salt data |}.

Definition bcrypt_compare `{Primitives} (data : string) (encrypted : Digest)
  : bool :=
  String.eqb (bcrypt_kdf (dg_rounds encrypted) (dg_salt encrypted) data)
             (dg_hash encrypted).

(** [jwt.sign(payload, secret, { expiresIn })]: [iat] is the clock reading,
    [exp] is [iat] plus the time span in seconds. *)
Definition jwt_sign `{Primitives} (p : TokenPayload) (secret : string)
    (expiresIn : Z) (clock : Z) : Token :=
  let c := {| claims_payload := p; iat := clock; exp := clock + expiresIn |} in
  Jws c (hs256 secret c).

Inductive JwtError : Type := TokenExpiredError | JsonWebTokenError.

(** [jwt.verify(token, secret)]: structure first, then the signature, then
    the expiry ([clockTimestamp >= payload.exp] is expired). *)
Definition jwt_verify `{Primitives} (token : Token) (secret : string) (clock : Z)
  : JwtClaims + JwtError :=
  match token with
  | Malformed _ => inr JsonWebTokenError
  | Jws c sig =>
      if String.eqb sig (hs256 secret c) then
        if exp c <=? clock then inr TokenExpiredError else inl c
      else inr JsonWebTokenError
  end.

(** The process-wide configuration read from the environment at start-up;
    the two expiries are the parsed time spans, in seconds. *)
Class Config : Type := {
  JWT_SECRET : string;
  JWT_EXPIRY : Z;
  JWT_REFRESH_EXPIRY : Z
}.

Definition default_config : Config := {|
  JWT_SECRET := "your-super-secret-jwt-key-change-in-production";
  JWT_EXPIRY := 86400;
  JWT_REFRESH_EXPIRY := 604800
|}.

Definition generateAccessToken `{Primitives} `{Config} (clock : Z)
    (userId email username : string) : Token :=
  let payload := {| tp_userId := userId; tp_email := email;
                    tp_username := username; tp_type := access |} in
  jwt_sign payload JWT_SECRET JWT_EXPIRY clock.

Definition generateRefreshToken `{Primitives} `{Config} (clock : Z)
    (userId email username : string) : Token :=
  let payload := {| tp_userId := userId; tp_email := email;
                    tp_username := username; tp_type := refresh |} in
  jwt_sign payload JWT_SECRET JWT_REFRESH_EXPIRY clock.

Definition expired_token_error : ServiceError :=
  mkServiceError EXPIRED_TOKEN "Token has expired" 401.

Definition invalid_token_error : ServiceError :=
  mkServiceError INVALID_TOKEN "Invalid token" 401.

Definition validateToken `{Primitives} `{Config} (clock : Z) (token : Token)
  : Result ValidationResponse :=
  match jwt_verify token JWT_SECRET clock with
  | inl decoded =>
      Ok {| valid := true;
            vr_userId := Some (tp_userId (claims_payload decoded));
            vr_email := Some (tp_email (claims_payload decoded));
            vr_username := Some (tp_username (claims_payload decoded)) |}
  | inr TokenExpiredError => Throw expired_token_error
  | inr JsonWebTokenError => Throw invalid_token_error
  end.

(* ------------------------------------------------------------------ *)
(** ** The record store

    The four relations of the migrations file, each a list of rows in
    insertion order.  A row of [users] is the [User] a query returns plus
    the [password_hash] column. *)

Record UserRow : Type := mkUserRow {
  row_user : User;
  password_hash : Digest
}.

Record Store : Type := mkStore {
  users : list UserRow;
  user_profiles : list UserProfile;
  user_preferences : list UserPreferences;
  password_reset_tokens : list PasswordResetToken
}.

Definition set_users (db : Store) (l : list UserRow) : Store :=
  {| users := l; user_profiles := user_profiles db;
     user_preferences := user_preferences db;
     password_reset_tokens := password_reset_tokens db |}.

Definition set_user_profiles (db : Store) (l : list UserProfile) : Store :=
  {| users := users db; user_profiles := l;
     user_preferences := user_preferences db;
     password_reset_tokens := password_reset_tokens db |}.

Definition set_user_preferences (db : Store) (l : list UserPreferences) : Store :=
  {| users := users db; user_profiles := user_profiles db;
     user_preferences := l;
     password_reset_tokens := password_reset_tokens db |}.

Definition set_password_reset_tokens (db : Store) (l : list PasswordResetToken)
  : Store :=
  {| users := users db; user_profiles := user_profiles db;
     user_preferences := user_preferences db;
     password_reset_tokens := l |}.

(** An asynchronous operation on the store: it returns the store it leaves
    behind and either a value or the [ServiceError] it threw. *)
Definition M (A : Type) : Type := Store -> Store * Result A.

Definition ret {A} (a : A) : M A := fun db => (db, Ok a).

Definition throw {A} (e : ServiceError) : M A := fun db => (db, Throw e).

Definition bind {A B} (m : M A) (k : A -> M B) : M B :=
  fun db =>
    match m db with
    | (db', Ok a) => k a db'
    | (db', Throw e) => (db', Throw e)
    end.

Notation "x <- m ;; k" := (bind m (fun x => k))
  (at level 61, m at next level, right associativity).

(* ------------------------------------------------------------------ *)
(** ** db/database.ts *)

Definition database_error : ServiceError :=
  mkServiceError DATABASE_ERROR "Database operation failed" 500.

(** [query(text, params)]: [pool.query] either runs the statement and
    resolves, or rejects, and every rejection is rethrown as
    [DATABASE_ERROR].  [answered] says whether the database takes the
    statement and answers it (the connection holds and the parameters can
    be sent as text, which a string with a NUL character cannot); a
    statement that is answered can still be rejected, for a value that
    does not fit its column or for a key constraint, which its model
    returns as [Throw database_error]. *)
Definition query {A} (answered : bool) (statement : M A) : M A :=
  fun db => if answered then statement db else (db, Throw database_error).

(** Which of the statements an operation sends are answered: the n-th
    statement of the operation is, when the pool maps n to [true]. *)
Definition Pool : Type := nat -> bool.

(* ------------------------------------------------------------------ *)
(** ** The column types of the schema *)

(** [VARCHAR(n)]: a longer value is rejected. *)
Definition varchar (n : nat) (s : string) : bool :=
  (String.length s <=? n)%nat.

(** [INTEGER]: an integer of 32 bits, signed. *)
Definition int4 (n : JsNumber) : bool :=
  match n with
  | Integer z => (-2147483648 <=? z) && (z <=? 2147483647)
  | NotInteger => false
  end.

(** A parameter that is [undefined] is not sent. *)
Definition fits {A} (column : A -> bool) (v : option A) : bool :=
  match v with
  | Some x => column x
  | None => true
  end.

(** [UUID].  The input text of a value is 32 hexadecimal digits of either
    case, with an optional hyphen after each group of four and optional
    braces around the whole; the value is the sequence of the digits.
    Two texts of one value are equal as UUIDs. *)
Definition is_xdigit (c : ascii) : bool :=
  let n := nat_of_ascii c in
  ((48 <=? n) && (n <=? 57))%nat || ((97 <=? n) && (n <=? 102))%nat
  || ((65 <=? n) && (n <=? 70))%nat.

Definition to_lower (c : ascii) : ascii :=
  let n := nat_of_ascii c in
  if ((65 <=? n) && (n <=? 90))%nat then ascii_of_nat (n + 32) else c.

(** After the byte of index [i], one hyphen is skipped when [i] is odd and
    the byte is not the last. *)
Definition skip_hyphen (i : nat) (src : list ascii) : list ascii :=
  match src with
  | c :: rest =>
      if Ascii.eqb c "-" && Nat.odd i && (i <? 15)%nat then rest else src
  | [] => src
  end.

(** [n] bytes from the byte of index [i] on: the digits read, and the text
    left. *)
Fixpoint uuid_bytes (n i : nat) (src : list ascii)
  : option (list ascii * list ascii) :=
  match n with
  | O => Some ([], src)
  | S n' =>
      match src with
      | a :: b :: rest =>
          if is_xdigit a && is_xdigit b then
            match uuid_bytes n' (S i) (skip_hyphen i rest) with
            | Some (digits, remaining) =>
                Some (to_lower a :: to_lower b :: digits, remaining)
            | None => None
            end
          else None
      | _ => None
      end
  end.

Definition parse_uuid (text : string) : option (list ascii) :=
  let src := list_ascii_of_string text in
  let braces := match src with c :: _ => Ascii.eqb c "{" | [] => false end in
  match uuid_bytes 16 0 (if braces then tl src else src) with
  | Some (digits, remaining) =>
      if braces then
        match remaining with
        | [c] => if Ascii.eqb c "}" then Some digits else None
        | _ => None
        end
      else
        match remaining with
        | [] => Some digits
        | _ => None
        end
  | None => None
  end.

(** The text a UUID column is read back as: the digits in lower case,
    grouped 8-4-4-4-12. *)
Definition uuid_groups (digits : list ascii) : list ascii :=
  (firstn 8 digits ++ "-"%char :: firstn 4 (skipn 8 digits)
   ++ "-"%char :: firstn 4 (skipn 12 digits)
   ++ "-"%char :: firstn 4 (skipn 16 digits)
   ++ "-"%char :: skipn 20 digits)%list.

Definition uuid_text (digits : list ascii) : string :=
  string_of_list_ascii (uuid_groups digits).

Fixpoint digits_eqb (a b : list ascii) : bool :=
  match a, b with
  | [], [] => true
  | x :: a', y :: b' => Ascii.eqb x y && digits_eqb a' b'
  | _, _ => false
  end.

(** [column = $n] on a UUID column, for a row whose stored value reads back
    as [stored] and a parameter that is UUID text. *)
Definition uuid_eqb (stored parameter : string) : bool :=
  match parse_uuid stored, parse_uuid parameter with
  | Some a, Some b => digits_eqb a b
  | _, _ => false
  end.

Definition is_uuid_text (parameter : string) : bool :=
  match parse_uuid parameter with Some _ => true | None => false end.

(** The value as the column reads it back. *)
Definition uuid_canonical (parameter : string) : string :=
  match parse_uuid parameter with
  | Some digits => uuid_text digits
  | None => parameter
  end.

(* ------------------------------------------------------------------ *)
(** ** The user repository *)

Definition has_user_id (userId : string) (r : UserRow) : bool :=
  uuid_eqb (user_id (row_user r)) userId.

Definition has_email (email : string) (r : UserRow) : bool :=
  String.eqb (user_email (row_user r)) email.

Definition has_username (username : string) (r : UserRow) : bool :=
  String.eqb (user_username (row_user r)) username.

(** [INSERT INTO users ... RETURNING ...]: [id] is the generated primary
    key, [now] the CURRENT_TIMESTAMP of the two defaults; [email] is a
    VARCHAR(255) and [username] a VARCHAR(100); [id], [email] and
    [username] are unique. *)
Definition createUser (answered : bool) (id : string) (now : Z)
    (email : string) (passwordHash : Digest) (username : string) : M User :=
  query answered (fun db =>
    if negb (varchar 255 email) || negb (varchar 100 username)
       || existsb (fun r => has_user_id id r || has_email email r
                            || has_username username r) (users db)
    then (db, Throw database_error)
    else
      let u := {| user_id := id; user_email := email;
                  user_username := username; user_created_at := now;
                  user_updated_at := now; user_is_active := true |} in
      (set_users db (users db ++ [ {| row_user := u;
                                      password_hash := passwordHash |} ]),
       Ok u)).

Definition of_user (userId : string) (p : UserProfile) : bool :=
  uuid_eqb (profile_user_id p) userId.

Definition prefs_of_user (userId : string) (p : UserPreferences) : bool :=
  uuid_eqb (preferences_user_id p) userId.

(** [INSERT INTO user_profiles (user_id)]: the other columns take their
    defaults; [user_id] is a UUID that references [users]; [id] and
    [user_id] are unique.  [id] is the generated primary key, in the text
    the database reads it back as, and is compared as that text. *)
Definition createUserProfile (answered : bool) (id : string) (now : Z)
    (userId : string) : M UserProfile :=
  query answered (fun db =>
    if negb (is_uuid_text userId)
       || existsb (fun p => String.eqb (profile_id p) id || of_user userId p)
                  (user_profiles db)
       || negb (existsb (has_user_id userId) (users db))
    then (db, Throw database_error)
    else
      let p := {| profile_id := id; profile_user_id := uuid_canonical userId;
                  avatar_url := None; level := 1; experience := 0;
                  stats_wins := 0; stats_losses := 0;
                  profile_created_at := now; profile_updated_at := now |} in
      (set_user_profiles db (user_profiles db ++ [p]), Ok p)).

Definition createUserPreferences (answered : bool) (id : string) (now : Z)
    (userId : string) : M UserPreferences :=
  query answered (fun db =>
    if negb (is_uuid_text userId)
       || existsb (fun p => String.eqb (preferences_id p) id
                            || prefs_of_user userId p)
                  (user_preferences db)
       || negb (existsb (has_user_id userId) (users db))
    then (db, Throw database_error)
    else
      let p := {| preferences_id := id;
                  preferences_user_id := uuid_canonical userId;
                  notifications_enabled := true; language := "en";
                  theme := "light";
                  preferences_created_at := now;
                  preferences_updated_at := now |} in
      (set_user_preferences db (user_preferences db ++ [p]), Ok p)).

(** The SELECTs: [rows[0]] of the matching rows, or [null]. *)
Definition findUserByEmail (answered : bool) (email : string)
  : M (option User) :=
  query answered (fun db =>
    (db, Ok (option_map row_user (find (has_email email) (users db))))).

Definition findUserByUsername (answered : bool) (username : string)
  : M (option User) :=
  query answered (fun db =>
    (db, Ok (option_map row_user (find (has_username username) (users db))))).

(** [WHERE id = $1]: the parameter has to be UUID text. *)
Definition findUserById (answered : bool) (userId : string)
  : M (option User) :=
  query answered (fun db =>
    if negb (is_uuid_text userId) then (db, Throw database_error)
    else (db, Ok (option_map row_user
                    (find (has_user_id userId) (users db))))).

Definition findUserWithPassword (answered : bool) (email : string)
  : M (option UserRow) :=
  query answered (fun db => (db, Ok (find (has_email email) (users db)))).

Definition findUserProfile (answered : bool) (userId : string)
  : M (option UserProfile) :=
  query answered (fun db =>
    if negb (is_uuid_text userId) then (db, Throw database_error)
    else (db, Ok (find (of_user userId) (user_profiles db)))).

Definition findUserPreferences (answered : bool) (userId : string)
  : M (option UserPreferences) :=
  query answered (fun db =>
    if negb (is_uuid_text userId) then (db, Throw database_error)
    else (db, Ok (find (prefs_of_user userId) (user_preferences db)))).

Definition present {A} (update : option A) (old : A) : A :=
  match update with Some v => v | None => old end.

(** The value of an INTEGER column after [column = $n]; the statement is
    rejected before any row is written when the parameter is no
    integer. *)
Definition assigned (update : option JsNumber) (old : Z) : Z :=
  match update with
  | Some (Integer z) => z
  | Some NotInteger => old
  | None => old
  end.

(** The SET list [updateUserProfile] builds: one assignment per field that
    is not [undefined], then [updated_at = CURRENT_TIMESTAMP]. *)
Definition set_profile_fields (now : Z) (updates : UpdateProfileRequest)
    (p : UserProfile) : UserProfile :=
  {| profile_id := profile_id p;
     profile_user_id := profile_user_id p;
     avatar_url := match upd_avatar_url updates with
                   | Some a => Some a
                   | None => avatar_url p
                   end;
     level := assigned (upd_level updates) (level p);
     experience := assigned (upd_experience updates) (experience p);
     stats_wins := assigned (upd_stats_wins updates) (stats_wins p);
     stats_losses := assigned (upd_stats_losses updates) (stats_losses p);
     profile_created_at := profile_created_at p;
     profile_updated_at := now |}.

(** The values of the request fit the columns they are assigned to:
    [avatar_url] VARCHAR(500), the four counters INTEGER. *)
Definition profile_request_fits (updates : UpdateProfileRequest) : bool :=
  fits (varchar 500) (upd_avatar_url updates)
  && fits int4 (upd_level updates)
  && fits int4 (upd_experience updates)
  && fits int4 (upd_stats_wins updates)
  && fits int4 (upd_stats_losses updates).

Definition profile_not_found : ServiceError :=
  mkServiceError USER_NOT_FOUND "User profile not found" 404.

Definition preferences_not_found : ServiceError :=
  mkServiceError USER_NOT_FOUND "User preferences not found" 404.

(** [UPDATE user_profiles SET ... WHERE user_id = $n RETURNING ...]. *)
Definition updateUserProfile (answered : bool) (now : Z) (userId : string)
    (updates : UpdateProfileRequest) : M UserProfile :=
  bind
    (query answered (fun db =>
       if negb (is_uuid_text userId) || negb (profile_request_fits updates)
       then (db, Throw database_error)
       else
         (set_user_profiles db
            (map (fun p => if of_user userId p
                           then set_profile_fields now updates p else p)
                 (user_profiles db)),
          Ok (map (set_profile_fields now updates)
                  (filter (of_user userId) (user_profiles db))))))
    (fun rows =>
       match rows with
       | [] => throw profile_not_found
       | row :: _ => ret row
       end).

Definition set_preferences_fields (now : Z) (updates : UpdatePreferencesRequest)
    (p : UserPreferences) : UserPreferences :=
  {| preferences_id := preferences_id p;
     preferences_user_id := preferences_user_id p;
     notifications_enabled :=
       present (upd_notifications_enabled updates) (notifications_enabled p);
     language := present (upd_language updates) (language p);
     theme := present (upd_theme updates) (theme p);
     preferences_created_at := preferences_created_at p;
     preferences_updated_at := now |}.

(** [language] VARCHAR(10), [theme] VARCHAR(20). *)
Definition preferences_request_fits (updates : UpdatePreferencesRequest)
  : bool :=
  fits (varchar 10) (upd_language updates)
  && fits (varchar 20) (upd_theme updates).

Definition updateUserPreferences (answered : bool) (now : Z) (userId : string)
    (updates : UpdatePreferencesRequest) : M UserPreferences :=
  bind
    (query answered (fun db =>
       if negb (is_uuid_text userId)
          || negb (preferences_request_fits updates)
       then (db, Throw database_error)
       else
         (set_user_preferences db
            (map (fun p => if prefs_of_user userId p
                           then set_preferences_fields now updates p
                           else p)
                 (user_preferences db)),
          Ok (map (set_preferences_fields now updates)
                  (filter (prefs_of_user userId) (user_preferences db))))))
    (fun rows =>
       match rows with
       | [] => throw preferences_not_found
       | row :: _ => ret row
       end).

(** [INSERT INTO password_reset_tokens (user_id, token_hash, expires_at)]:
    [id] unique, [user_id] a UUID that references [users]. *)
Definition createPasswordResetToken (answered : bool) (id : string) (now : Z)
    (userId : string) (tokenHash : Digest) (expiresAt : Z)
  : M PasswordResetToken :=
  query answered (fun db =>
    if negb (is_uuid_text userId)
       || existsb (fun t => String.eqb (prt_id t) id)
                  (password_reset_tokens db)
       || negb (existsb (has_user_id userId) (users db))
    then (db, Throw database_error)
    else
      let t := {| prt_id := id; prt_user_id := uuid_canonical userId;
                  token_hash := tokenHash; expires_at := expiresAt;
                  prt_created_at := now |} in
      (set_password_reset_tokens db (password_reset_tokens db ++ [t]), Ok t)).

(** [ORDER BY created_at DESC LIMIT 1]: a row no other row is newer than
    (among equally new rows, the one stored first). *)
Fixpoint most_recent (rows : list PasswordResetToken)
  : option PasswordResetToken :=
  match rows with
  | [] => None
  | t :: rest =>
      match most_recent rest with
      | Some t' => if prt_created_at t <? prt_created_at t'
                   then Some t' else Some t
      | None => Some t
      end
  end.

Definition live_ticket (now : Z) (tokenHash : Digest) (t : PasswordResetToken)
  : bool :=
  Digest_eqb (token_hash t) tokenHash && (now <? expires_at t).

(** [WHERE token_hash = $1 AND expires_at > CURRENT_TIMESTAMP]. *)
Definition findPasswordResetToken (answered : bool) (now : Z)
    (tokenHash : Digest) : M (option PasswordResetToken) :=
  query answered (fun db =>
    (db, Ok (most_recent (filter (live_ticket now tokenHash)
                                 (password_reset_tokens db))))).

(** [DELETE FROM password_reset_tokens WHERE token_hash = $1]. *)
Definition deletePasswordResetToken (answered : bool) (tokenHash : Digest)
  : M unit :=
  query answered (fun db =>
    (set_password_reset_tokens db
       (filter (fun t => negb (Digest_eqb (token_hash t) tokenHash))
               (password_reset_tokens db)),
     Ok tt)).

(** [UPDATE users SET password_hash = $1, updated_at = CURRENT_TIMESTAMP
    WHERE id = $2]. *)
Definition set_password (now : Z) (passwordHash : Digest) (r : UserRow)
  : UserRow :=
  {| row_user := {| user_id := user_id (row_user r);
                    user_email := user_email (row_user r);
                    user_username := user_username (row_user r);
                    user_created_at := user_created_at (row_user r);
                    user_updated_at := now;
                    user_is_active := user_is_active (row_user r) |};
     password_hash := passwordHash |}.

Definition updateUserPassword (answered : bool) (now : Z) (userId : string)
    (passwordHash : Digest) : M unit :=
  query answered (fun db =>
    if negb (is_uuid_text userId) then (db, Throw database_error)
    else
      (set_users db
         (map (fun r => if has_user_id userId r
                        then set_password now passwordHash r else r)
              (users db)),
       Ok tt)).

(* ------------------------------------------------------------------ *)
(** ** services/user-service.ts *)

Definition SALT_ROUNDS : Z := 10.

Definition PASSWORD_MIN_LENGTH : nat := 8.

(** The fragment of regular expressions [EMAIL_REGEX] is written in: a
    sequence of literals and of [[^...]+] items, anchored at both ends,
    tested on the code units of the string. *)
Inductive RegexItem : Type :=
  | Lit (c : N)
  | PlusNot (excluded : N -> bool).

Fixpoint regex_test (re : list RegexItem) : list N -> bool :=
  match re with
  | [] => fun s => match s with [] => true | _ :: _ => false end
  | Lit c :: rest =>
      fun s =>
        match s with
        | x :: s' => N.eqb x c && regex_test rest s'
        | [] => false
        end
  | PlusNot excluded :: rest =>
      fun s =>
        match s with
        | x :: s' =>
            negb (excluded x) &&
            (fix more (s : list N) : bool :=
               regex_test rest s ||
               match s with
               | y :: s'' => negb (excluded y) && more s''
               | [] => false
               end) s'
        | [] => false
        end
  end.

(** [\s]: the white space and the line terminators of ECMAScript. *)
Definition is_whitespace (c : N) : bool :=
  ((9 <=? c) && (c <=? 13) || (c =? 32) || (c =? 160) || (c =? 5760)
   || (8192 <=? c) && (c <=? 8202) || (c =? 8232) || (c =? 8233)
   || (c =? 8239) || (c =? 8287) || (c =? 12288) || (c =? 65279))%N.

Definition space_or_at (c : N) : bool :=
  is_whitespace c || (c =? 64)%N.

(** [/^[^\s@]+@[^\s@]+\.[^\s@]+$/] *)
Definition EMAIL_REGEX : list RegexItem :=
  [PlusNot space_or_at; Lit 64; PlusNot space_or_at; Lit 46;
   PlusNot space_or_at]%N.

Definition code_units (s : string) : list N :=
  map N_of_ascii (list_ascii_of_string s).

Definition validateEmail (email : string) : bool :=
  regex_test EMAIL_REGEX (code_units email).

Definition validatePassword (password : string) : bool :=
  (PASSWORD_MIN_LENGTH <=? String.length password)%nat.

Record AuthResponse : Type := mkAuthResponse {
  auth_user : User;
  auth_token : Token;
  auth_refreshToken : Token
}.

Definition invalid_email_error : ServiceError :=
  mkServiceError INVALID_EMAIL "Invalid email format" 400.

Definition weak_password_error : ServiceError :=
  mkServiceError WEAK_PASSWORD
                 "Password must be at least 8 characters long" 400.

Definition email_taken_error : ServiceError :=
  mkServiceError EMAIL_TAKEN "Email is already registered" 409.

Definition username_taken_error : ServiceError :=
  mkServiceError USERNAME_TAKEN "Username is already taken" 409.

Definition invalid_credentials_error : ServiceError :=
  mkServiceError INVALID_CREDENTIALS "Invalid email or password" 401.

Definition invalid_refresh_token_error : ServiceError :=
  mkServiceError INVALID_TOKEN "Invalid refresh token" 401.

Definition user_not_found_error : ServiceError :=
  mkServiceError USER_NOT_FOUND "User not found" 404.

Definition invalid_reset_token_error : ServiceError :=
  mkServiceError INVALID_RESET_TOKEN "Invalid or expired reset token" 400.

Definition reset_token_expired_error : ServiceError :=
  mkServiceError RESET_TOKEN_EXPIRED "Reset token has expired" 400.

(** What one run of [registerUser] draws: the salt of [bcrypt.hash], the
    three generated primary keys with the timestamps of their inserts, and
    the clock readings of the two [jwt.sign] calls. *)
Record RegisterDraws : Type := mkRegisterDraws {
  rd_salt : string;
  rd_user_id : string;
  rd_user_now : Z;
  rd_profile_id : string;
  rd_profile_now : Z;
  rd_preferences_id : string;
  rd_preferences_now : Z;
  rd_clock : Z;
  rd_clock_refresh : Z
}.

Definition registerUser `{Primitives} `{Config} (pool : Pool)
    (d : RegisterDraws) (data : RegisterRequest) : M AuthResponse :=
  if negb (validateEmail (reg_email data)) then throw invalid_email_error
  else if negb (validatePassword (reg_password data))
  then throw weak_password_error
  else
    existingUserByEmail <- findUserByEmail (pool 0%nat) (reg_email data) ;;
    match existingUserByEmail with
    | Some _ => throw email_taken_error
    | None =>
        existingUserByUsername <-
          findUserByUsername (pool 1%nat) (reg_username data) ;;
        match existingUserByUsername with
        | Some _ => throw username_taken_error
        | None =>
            let passwordHash :=
              bcrypt_hash (reg_password data) SALT_ROUNDS (rd_salt d) in
            user <- createUser (pool 2%nat) (rd_user_id d) (rd_user_now d)
                      (reg_email data) passwordHash (reg_username data) ;;
            _ <- createUserProfile (pool 3%nat) (rd_profile_id d)
                   (rd_profile_now d) (user_id user) ;;
            _ <- createUserPreferences (pool 4%nat) (rd_preferences_id d)
                   (rd_preferences_now d) (user_id user) ;;
            let token := generateAccessToken (rd_clock d) (user_id user)
                           (user_email user) (user_username user) in
            let refreshToken := generateRefreshToken (rd_clock_refresh d)
                                  (user_id user) (user_email user)
                                  (user_username user) in
            ret {| auth_user := user; auth_token := token;
                   auth_refreshToken := refreshToken |}
        end
    end.

(** [clock] and [clock_refresh] are the clock readings of the two
    [jwt.sign] calls. *)
Definition loginUser `{Primitives} `{Config} (pool : Pool)
    (clock clock_refresh : Z) (data : LoginRequest) : M AuthResponse :=
  if negb (validateEmail (login_email data)) then throw invalid_email_error
  else
    userWithPassword <- findUserWithPassword (pool 0%nat) (login_email data) ;;
    match userWithPassword with
    | None => throw invalid_credentials_error
    | Some userWithPassword =>
        let isPasswordValid :=
          bcrypt_compare (login_password data)
                         (password_hash userWithPassword) in
        if negb isPasswordValid then throw invalid_credentials_error
        else
          let user := row_user userWithPassword in
          let token := generateAccessToken clock (user_id user)
                         (user_email user) (user_username user) in
          let refreshToken := generateRefreshToken clock_refresh (user_id user)
                                (user_email user) (user_username user) in
          ret {| auth_user := user; auth_token := token;
                 auth_refreshToken := refreshToken |}
    end.

(** JavaScript truthiness of an optional string: [undefined] and the empty
    string are falsy. *)
Definition truthy (s : option string) : bool :=
  match s with
  | Some s => negb (String.eqb s "")
  | None => false
  end.

Definition unwrap (s : option string) : string :=
  match s with Some s => s | None => "" end.

(** [validateToken] throws on a token it rejects, and the exception leaves
    [refreshAccessToken] as it is: there is no [try] around the call.
    [clock_verify] and [clock_sign] are the clock readings of [jwt.verify]
    and of the later [jwt.sign]. *)
Definition refreshAccessToken `{Primitives} `{Config} (pool : Pool)
    (clock_verify clock_sign : Z) (refreshToken : Token) : M Token :=
  match validateToken clock_verify refreshToken with
  | Throw e => throw e
  | Ok validation =>
      if negb (valid validation) || negb (truthy (vr_userId validation))
      then throw invalid_refresh_token_error
      else
        user <- findUserById (pool 0%nat) (unwrap (vr_userId validation)) ;;
        match user with
        | None => throw user_not_found_error
        | Some user =>
            let token := generateAccessToken clock_sign (user_id user)
                           (user_email user) (user_username user) in
            ret token
        end
  end.

Definition validateUserToken `{Primitives} `{Config} (clock : Z) (token : Token)
  : Result ValidationResponse :=
  validateToken clock token.

Definition getUserWithProfile (pool : Pool) (userId : string)
  : M UserWithProfile :=
  user <- findUserById (pool 0%nat) userId ;;
  match user with
  | None => throw user_not_found_error
  | Some user =>
      profile <- findUserProfile (pool 1%nat) userId ;;
      match profile with
      | None => throw profile_not_found
      | Some profile =>
          preferences <- findUserPreferences (pool 2%nat) userId ;;
          match preferences with
          | None => throw preferences_not_found
          | Some preferences =>
              ret {| uwp_user := user; uwp_profile := profile;
                     uwp_preferences := preferences |}
          end
      end
  end.

Definition updateProfile (pool : Pool) (now : Z) (userId : string)
    (updates : UpdateProfileRequest) : M UserWithProfile :=
  user <- findUserById (pool 0%nat) userId ;;
  match user with
  | None => throw user_not_found_error
  | Some user =>
      profile <- updateUserProfile (pool 1%nat) now userId updates ;;
      preferences <- findUserPreferences (pool 2%nat) userId ;;
      match preferences with
      | None => throw preferences_not_found
      | Some preferences =>
          ret {| uwp_user := user; uwp_profile := profile;
                 uwp_preferences := preferences |}
      end
  end.

Definition updatePreferences (pool : Pool) (now : Z) (userId : string)
    (updates : UpdatePreferencesRequest) : M UserWithProfile :=
  user <- findUserById (pool 0%nat) userId ;;
  match user with
  | None => throw user_not_found_error
  | Some user =>
      preferences <- updateUserPreferences (pool 1%nat) now userId updates ;;
      profile <- findUserProfile (pool 2%nat) userId ;;
      match profile with
      | None => throw profile_not_found
      | Some profile =>
          ret {| uwp_user := user; uwp_profile := profile;
                 uwp_preferences := preferences |}
      end
  end.

Definition reset_message_sent : string :=
  "If the email exists, a password reset link has been sent".

(** What one run of [requestPasswordReset] draws: the [uuidv4()] secret,
    the salt of [bcrypt.hash], [Date.now()], and the primary key and
    timestamp of the insert. *)
Record RequestDraws : Type := mkRequestDraws {
  qd_resetToken : string;
  qd_salt : string;
  qd_date_now : Z;
  qd_ticket_id : string;
  qd_ticket_now : Z
}.

Definition requestPasswordReset `{Primitives} (pool : Pool) (d : RequestDraws)
    (data : PasswordResetRequest) : M string :=
  user <- findUserByEmail (pool 0%nat) (prr_email data) ;;
  match user with
  | None => ret reset_message_sent
  | Some user =>
      let resetToken := qd_resetToken d in
      let tokenHash := bcrypt_hash resetToken SALT_ROUNDS (qd_salt d) in
      let expiresAt := qd_date_now d + 60 * 60 * 1000 in
      _ <- createPasswordResetToken (pool 1%nat) (qd_ticket_id d)
             (qd_ticket_now d) (user_id user) tokenHash expiresAt ;;
      ret reset_message_sent
  end.

Definition reset_message_done : string :=
  "Password has been reset successfully".

(** What one run of [resetPassword] draws: the salts of its two
    [bcrypt.hash] calls, the CURRENT_TIMESTAMP of the lookup, the
    [new Date()] of the re-check and the CURRENT_TIMESTAMP of the update. *)
Record ResetDraws : Type := mkResetDraws {
  sd_token_salt : string;
  sd_lookup_now : Z;
  sd_date_now : Z;
  sd_password_salt : string;
  sd_update_now : Z
}.

Definition resetPassword `{Primitives} (pool : Pool) (d : ResetDraws)
    (data : PasswordResetConfirm) : M string :=
  if negb (validatePassword (prc_newPassword data))
  then throw weak_password_error
  else
    let tokenHash := bcrypt_hash (prc_token data) SALT_ROUNDS (sd_token_salt d) in
    resetToken <- findPasswordResetToken (pool 0%nat) (sd_lookup_now d)
                    tokenHash ;;
    match resetToken with
    | None => throw invalid_reset_token_error
    | Some resetToken =>
        if expires_at resetToken <? sd_date_now d
        then throw reset_token_expired_error
        else
          let newPasswordHash :=
            bcrypt_hash (prc_newPassword data) SALT_ROUNDS
                        (sd_password_salt d) in
          _ <- updateUserPassword (pool 1%nat) (sd_update_now d)
                 (prt_user_id resetToken) newPasswordHash ;;
          _ <- deletePasswordResetToken (pool 2%nat) tokenHash ;;
          ret reset_message_done
    end.

(* ------------------------------------------------------------------ *)
(** ** What the schema guarantees of a stored state *)

Definition is_hex (c : ascii) : bool :=
  let n := nat_of_ascii c in
  ((48 <=? n) && (n <=? 57))%nat || ((97 <=? n) && (n <=? 102))%nat.

Fixpoint hex_run (n : nat) (s : list ascii) : option (list ascii) :=
  match n with
  | O => Some s
  | S n' =>
      match s with
      | c :: s' => if is_hex c then hex_run n' s' else None
      | [] => None
      end
  end.

Definition dash_then (n : nat) (s : option (list ascii)) : option (list ascii) :=
  match s with
  | Some (c :: s') => if Ascii.eqb c "-" then hex_run n s' else None
  | _ => None
  end.

(** The text a UUID column is read back as: 8-4-4-4-12 hexadecimal digits in
    lower case. *)
Definition is_uuid (s : string) : bool :=
  match dash_then 12 (dash_then 4 (dash_then 4 (dash_then 4
          (hex_run 8 (list_ascii_of_string s))))) with
  | Some [] => true
  | _ => false
  end.

(** [id UUID PRIMARY KEY] on [users], and [user_id ... REFERENCES users(id)]
    on the two one-to-one relations. *)
Definition schema_ok (db : Store) : Prop :=
  Forall (fun r => is_uuid (user_id (row_user r)) = true) (users db) /\
  Forall (fun p => existsb (has_user_id (profile_user_id p)) (users db) = true)
         (user_profiles db) /\
  Forall (fun p => existsb (has_user_id (preferences_user_id p)) (users db)
                   = true)
         (user_preferences db).

(** The generated keys of a [registerUser] run are new, and the account's
    is the text of a UUID. *)
Definition fresh_keys (d : RegisterDraws) (db : Store) : Prop :=
  is_uuid (rd_user_id d) = true /\
  existsb (has_user_id (rd_user_id d)) (users db) = false /\
  existsb (fun p => String.eqb (profile_id p) (rd_profile_id d))
          (user_profiles db) = false /\
  existsb (fun p => String.eqb (preferences_id p) (rd_preferences_id d))
          (user_preferences db) = false.

(* ------------------------------------------------------------------ *)
(** ** A transparent instance of the primitives and sample data

    The properties below hold for every key derivation and every MAC; to
    run the operations on concrete inputs the primitives are instantiated
    with functions that keep their inputs readable. *)

Definition decimal (z : Z) : string :=
  DecimalString.NilZero.string_of_int (Z.to_int z).

Definition sample_primitives : Primitives := {|
  bcrypt_kdf := fun rounds salt data => decimal rounds ++ "$" ++ salt ++ "$" ++ data;
  hs256 := fun secret c =>
    secret ++ "|" ++ tp_userId (claims_payload c)
           ++ "|" ++ tp_email (claims_payload c)
           ++ "|" ++ tp_username (claims_payload c)
           ++ "|" ++ match tp_type (claims_payload c) with
                     | access => "access"
                     | refresh => "refresh"
                     end
           ++ "|" ++ decimal (iat c) ++ "|" ++ decimal (exp c)
|}.

(** The database answers every statement, or none. *)
Definition all_answered : Pool := fun _ => true.

Definition none_answered : Pool := fun _ => false.

Definition alice_id : string := "6f1c2a34-0b7d-4e2a-9c41-5d8e7f603b12".

Definition alice : UserRow := {|
  row_user := {| user_id := alice_id; user_email := "alice@example.com";
                 user_username := "alice"; user_created_at := 1000;
                 user_updated_at := 1000; user_is_active := true |};
  password_hash := @bcrypt_hash sample_primitives "password123" SALT_ROUNDS "salt-0"
|}.

Definition alice_profile : UserProfile := {|
  profile_id := "0a4b7c1e-2f3d-4a5b-8c6d-7e8f9a0b1c2d";
  profile_user_id := alice_id; avatar_url := None; level := 1;
  experience := 0; stats_wins := 0; stats_losses := 0;
  profile_created_at := 1000; profile_updated_at := 1000
|}.

Definition alice_preferences : UserPreferences := {|
  preferences_id := "1b5c8d2f-3a4e-4b6c-9d7e-8f9a0b1c2d3e";
  preferences_user_id := alice_id; notifications_enabled := true;
  language := "en"; theme := "light";
  preferences_created_at := 1000; preferences_updated_at := 1000
|}.

Definition empty_store : Store := {|
  users := []; user_profiles := []; user_preferences := [];
  password_reset_tokens := []
|}.

Definition alice_store : Store := {|
  users := [alice]; user_profiles := [alice_profile];
  user_preferences := [alice_preferences]; password_reset_tokens := []
|}.

Definition bob_request : RegisterRequest := {|
  reg_email := "bob@example.com"; reg_password := "hunter2hunter2";
  reg_username := "bob"
|}.

Definition bob_draws : RegisterDraws := {|
  rd_salt := "salt-1";
  rd_user_id := "7a2d3b45-1c8e-4f3b-8d52-6e9f8a714c23"; rd_user_now := 2000;
  rd_profile_id := "2c6d9e3a-4b5f-4c7d-8e8f-9a0b1c2d3e4f"; rd_profile_now := 2001;
  rd_preferences_id := "3d7e0f4b-5c6a-4d8e-9f9a-0b1c2d3e4f5a";
  rd_preferences_now := 2002;
  rd_clock := 2; rd_clock_refresh := 3
|}.

(** A reset requested for alice, and its confirmation drawing another
    salt, as two calls of [bcrypt.hash] do. *)
Definition alice_reset_request : RequestDraws := {|
  qd_resetToken := "c0ffee00-1111-4222-8333-444455556666";
  qd_salt := "salt-2"; qd_date_now := 5000;
  qd_ticket_id := "4e8f1a5c-6d7b-4e9f-8a0b-1c2d3e4f5a6b"; qd_ticket_now := 5001
|}.

Definition alice_reset_confirm : PasswordResetConfirm := {|
  prc_token := "c0ffee00-1111-4222-8333-444455556666";
  prc_newPassword := "correct horse"
|}.

Definition confirm_draws (salt : string) : ResetDraws := {|
  sd_token_salt := salt; sd_lookup_now := 6000; sd_date_now := 6001;
  sd_password_salt := "salt-4"; sd_update_now := 6002
|}.

(** The store once alice has requested a reset. *)
Definition alice_ticket : PasswordResetToken := {|
  prt_id := "4e8f1a5c-6d7b-4e9f-8a0b-1c2d3e4f5a6b"; prt_user_id := alice_id;
  token_hash := @bcrypt_hash sample_primitives
                  "c0ffee00-1111-4222-8333-444455556666" SALT_ROUNDS "salt-2";
  expires_at := 5000 + 60 * 60 * 1000; prt_created_at := 5001
|}.

Definition alice_store_with_ticket : Store :=
  set_password_reset_tokens alice_store [alice_ticket].

(** The response of [validateToken] for a token it accepts. *)
Definition identity (userId email username : string) : ValidationResponse :=
  {| valid := true; vr_userId := Some userId; vr_email := Some email;
     vr_username := Some username |}.




(** An operation keeps a property of the store, however it ends. *)
Definition preserves {A} (P : Store -> Prop) (m : M A) : Prop :=
  forall db, P db -> P (fst (m db)).

(* ------------------------------------------------------------------ *)
(** ** middleware/auth-middleware.ts and api/user-routes.ts

    A request reaches the service as text: the bearer token of a header or
    of a body is a string.  [from_compact] is the reading of a string as a
    token (the signed claim set it serialises, or [Malformed]). *)

Class Compact : Type := {
  from_compact : string -> Token
}.

(** [req.user], as [authenticate] sets it. *)
Record AuthUser : Type := mkAuthUser {
  au_userId : string;
  au_email : string;
  au_username : string
}.

(** The JSON bodies the routes send. *)
Inductive Body : Type :=
  | ErrorBody (error : ErrorCodes) (text : string)
  | AuthBody (r : AuthResponse)
  | TokenBody (token : Token)
  | ValidationBody (v : ValidationResponse)
  | UserBody (u : UserWithProfile)
  | MessageBody (text : string)
  | HealthBody.

Record HttpResponse : Type := mkHttpResponse {
  status : Z;
  body : Body
}.

(** [res.status(error.statusCode).json({ error: error.code, message:
    error.message })]. *)
Definition error_response (e : ServiceError) : HttpResponse :=
  {| status := statusCode e; body := ErrorBody (code e) (message e) |}.

Definition missing_header_error : ServiceError :=
  mkServiceError UNAUTHORIZED "Missing or invalid authorization header" 401.

Definition unauthorized_token_error : ServiceError :=
  mkServiceError UNAUTHORIZED "Invalid token" 401.

Definition startsWith (s searchString : string) : bool :=
  String.prefix searchString s.

(** [s.substring(start)] *)
Definition substring_from (start : nat) (s : string) : string :=
  String.substring start (String.length s - start) s.

(** The middleware either calls [next()] with [req.user] set, or answers
    itself. *)
Definition authenticate `{Primitives} `{Config} `{Compact} (clock : Z)
    (authorization : option string) : AuthUser + HttpResponse :=
  match authorization with
  | None => inr (error_response missing_header_error)
  | Some authHeader =>
      if String.eqb authHeader "" || negb (startsWith authHeader "Bearer ")
      then inr (error_response missing_header_error)
      else
        let token := substring_from 7 authHeader in
        match validateToken clock (from_compact token) with
        | Throw e => inr (error_response e)
        | Ok validation =>
            if negb (valid validation)
            then inr (error_response unauthorized_token_error)
            else inl {| au_userId := unwrap (vr_userId validation);
                        au_email := unwrap (vr_email validation);
                        au_username := unwrap (vr_username validation) |}
        end
  end.

(** The [try]/[catch] every handler wraps its service call in. *)
Definition respond {A} (okStatus : Z) (json : A -> Body)
    (outcome : Store * Result A) : Store * HttpResponse :=
  match outcome with
  | (db, Ok a) => (db, {| status := okStatus; body := json a |})
  | (db, Throw e) => (db, error_response e)
  end.

Definition access_denied : HttpResponse :=
  {| status := 403; body := ErrorBody UNAUTHORIZED "Access denied" |}.

Definition token_required : HttpResponse :=
  {| status := 400; body := ErrorBody INVALID_TOKEN "Token is required" |}.

Definition post_auth_register `{Primitives} `{Config} (pool : Pool)
    (d : RegisterDraws) (data : RegisterRequest) (db : Store)
  : Store * HttpResponse :=
  respond 201 AuthBody (registerUser pool d data db).

Definition post_auth_login `{Primitives} `{Config} (pool : Pool)
    (clock clock_refresh : Z) (data : LoginRequest) (db : Store)
  : Store * HttpResponse :=
  respond 200 AuthBody (loginUser pool clock clock_refresh data db).

Definition post_auth_refresh `{Primitives} `{Config} `{Compact} (pool : Pool)
    (clock_verify clock_sign : Z) (refreshToken : string) (db : Store)
  : Store * HttpResponse :=
  respond 200 TokenBody
    (refreshAccessToken pool clock_verify clock_sign
       (from_compact refreshToken) db).

Definition post_auth_validate `{Primitives} `{Config} `{Compact} (clock : Z)
    (token : option string) : HttpResponse :=
  match token with
  | None => token_required
  | Some token =>
      if String.eqb token "" then token_required
      else
        match validateUserToken clock (from_compact token) with
        | Ok result => {| status := 200; body := ValidationBody result |}
        | Throw e => error_response e
        end
  end.

Definition get_user `{Primitives} `{Config} `{Compact} (pool : Pool)
    (clock : Z) (authorization : option string) (userId : string)
    (db : Store) : Store * HttpResponse :=
  match authenticate clock authorization with
  | inr response => (db, response)
  | inl user =>
      if negb (String.eqb (au_userId user) userId) then (db, access_denied)
      else respond 200 UserBody (getUserWithProfile pool userId db)
  end.

Definition put_user_profile `{Primitives} `{Config} `{Compact} (pool : Pool)
    (clock now : Z) (authorization : option string) (userId : string)
    (updates : UpdateProfileRequest) (db : Store) : Store * HttpResponse :=
  match authenticate clock authorization with
  | inr response => (db, response)
  | inl user =>
      if negb (String.eqb (au_userId user) userId) then (db, access_denied)
      else respond 200 UserBody (updateProfile pool now userId updates db)
  end.

Definition put_user_preferences `{Primitives} `{Config} `{Compact}
    (pool : Pool) (clock now : Z) (authorization : option string)
    (userId : string) (updates : UpdatePreferencesRequest) (db : Store)
  : Store * HttpResponse :=
  match authenticate clock authorization with
  | inr response => (db, response)
  | inl user =>
      if negb (String.eqb (au_userId user) userId) then (db, access_denied)
      else respond 200 UserBody (updatePreferences pool now userId updates db)
  end.

Definition post_request_password_reset `{Primitives} (pool : Pool)
    (d : RequestDraws) (data : PasswordResetRequest) (db : Store)
  : Store * HttpResponse :=
  respond 200 MessageBody (requestPasswordReset pool d data db).

Definition post_reset_password `{Primitives} (pool : Pool) (d : ResetDraws)
    (data : PasswordResetConfirm) (db : Store) : Store * HttpResponse :=
  respond 200 MessageBody (resetPassword pool d data db).

Definition get_health : HttpResponse :=
  {| status := 200; body := HealthBody |}.

(** The header of a bearer token. *)
Definition bearer (token : string) : string := "Bearer " ++ token.

(** A reading of two token strings, for the sample data: alice's access
    token and her refresh token, both issued at clock 0. *)
Definition sample_compact : Compact := {|
  from_compact := fun s =>
    if String.eqb s "alice.access.token"
    then @generateAccessToken sample_primitives default_config 0
           alice_id "alice@example.com" "alice"
    else if String.eqb s "alice.refresh.token"
    then @generateRefreshToken sample_primitives default_config 0
           alice_id "alice@example.com" "alice"
    else Malformed s
|}.

(** The UNIQUE constraints of [users]: no two rows share an id, an email or
    a username. *)
Definition unique_accounts (db : Store) : Prop :=
  NoDup (map (fun r => user_id (row_user r)) (users db)) /\
  NoDup (map (fun r => user_email (row_user r)) (users db)) /\
  NoDup (map (fun r => user_username (row_user r)) (users db)).

(** The code units [\s] matches, by their numbers: TAB to CR, space,
    U+00A0, U+1680, U+2000 to U+200A, U+2028, U+2029, U+202F, U+205F,
    U+3000 and U+FEFF. *)
Definition white_space_code (c : N) : Prop :=
  In c [9; 10; 11; 12; 13; 32; 160; 5760; 8232; 8233; 8239; 8287; 12288;
        65279]%N \/ (8192 <= c <= 8202)%N.

(** A code unit an email part may hold: no white space and no [@]. *)
Definition email_char (c : N) : Prop :=
  ~ white_space_code c /\ c <> 64%N.

(** A local part, an [@], and a domain with a dot inside, none of them with
    white space or a further [@]. *)
Definition email_shape (email : list N) : Prop :=
  exists local domain tld : list N,
    email = (local ++ 64%N :: domain ++ 46%N :: tld)%list /\
    local <> [] /\ domain <> [] /\ tld <> [] /\
    Forall email_char (local ++ domain ++ tld).

(** A second account, for the sample data. *)
Definition bob_id : string := "7a2d3b45-1c8e-4f3b-8d52-6e9f8a714c23".

(** Whenever the operation throws, the error is one of [allowed]. *)
Definition throws_only {A} (allowed : list ErrorCodes) (m : M A) : Prop :=
  forall db e, snd (m db) = Throw e -> In (code e) allowed.

(** alice's records after a registration that stopped before the
    preferences were created. *)
Definition alice_store_without_preferences : Store := {|
  users := [alice]; user_profiles := [alice_profile];
  user_preferences := []; password_reset_tokens := []
|}.

Definition level_up : UpdateProfileRequest := {|
  upd_avatar_url := None; upd_level := Some (Integer 5);
  upd_experience := Some (Integer 1000);
  upd_stats_wins := None; upd_stats_losses := None
|}.

Definition alice_login : LoginRequest := {|
  login_email := "alice@example.com"; login_password := "password123"
|}.

(** A username of 101 characters and an email of 256, both well-formed. *)
Definition long_username : string :=
  string_of_list_ascii (repeat "u"%char 101).

Definition long_email : string :=
  string_of_list_ascii (repeat "a"%char 252) ++ "@b.c".


Definition no_preference : UpdatePreferencesRequest := {|
  upd_notifications_enabled := None; upd_language := None; upd_theme := None
|}.

(* ================================================================== *)
(** * Properties *)

(** ** Equality tests and list searches *)

Lemma Digest_eqb_eq (a b : Digest) : Digest_eqb a b = true <-> a = b.
Proof.
  unfold Digest_eqb. destruct a as [r s h], b as [r' s' h']; simpl.
  rewrite !andb_true_iff, Z.eqb_eq, !String.eqb_eq.
  split.
  - intros [[-> ->] ->]. reflexivity.
  - intros E. inversion E. auto.
Qed.


Lemma find_none_existsb {A} (f : A -> bool) (l : list A) :
  find f l = None -> existsb f l = false.
Proof.
  induction l as [|a l IH]; simpl; [reflexivity|].
  destruct (f a); [discriminate | exact IH].
Qed.

Lemma existsb_false_find {A} (f : A -> bool) (l : list A) :
  existsb f l = false -> find f l = None.
Proof.
  induction l as [|a l IH]; simpl; [reflexivity|].
  destruct (f a); simpl; [discriminate | exact IH].
Qed.

Lemma existsb_true_find {A} (f : A -> bool) (l : list A) :
  existsb f l = true -> exists x, find f l = Some x.
Proof.
  induction l as [|a l IH]; simpl; [discriminate|].
  destruct (f a); simpl; [intros _; eexists; reflexivity | exact IH].
Qed.

Lemma existsb_orb {A} (f g : A -> bool) (l : list A) :
  existsb (fun x => f x || g x) l = existsb f l || existsb g l.
Proof.
  induction l as [|a l IH]; simpl; [reflexivity|].
  rewrite IH. destruct (f a), (g a), (existsb f l); reflexivity.
Qed.

Lemma existsb_orb3_false {A} (f g h : A -> bool) (l : list A) :
  existsb (fun x => f x || g x || h x) l = false ->
  existsb f l = false /\ existsb g l = false /\ existsb h l = false.
Proof.
  rewrite !existsb_orb, !orb_false_iff. tauto.
Qed.

Lemma existsb_app_l {A} (f : A -> bool) (l l' : list A) :
  existsb f l = true -> existsb f (l ++ l') = true.
Proof. intros E. rewrite existsb_app, E. reflexivity. Qed.

Lemma find_filter_head {A} (f : A -> bool) (l : list A) (x : A) :
  find f l = Some x -> exists rest, filter f l = x :: rest.
Proof.
  induction l as [|a l IH]; simpl; [discriminate|].
  destruct (f a).
  - intros [= ->]. eexists. reflexivity.
  - exact IH.
Qed.

Lemma find_none_filter {A} (f : A -> bool) (l : list A) :
  find f l = None -> filter f l = [].
Proof.
  induction l as [|a l IH]; simpl; [reflexivity|].
  destruct (f a); [discriminate | exact IH].
Qed.

Lemma filter_nil_forall {A} (f : A -> bool) (l : list A) :
  (forall x, In x l -> f x = false) -> filter f l = [].
Proof.
  induction l as [|a l IH]; simpl; [reflexivity|].
  intros K. rewrite (K a) by (left; reflexivity).
  apply IH. intros x I. apply K. right. exact I.
Qed.

Lemma find_app_none {A} (f : A -> bool) (l l' : list A) :
  existsb f l = false -> find f (l ++ l') = find f l'.
Proof.
  induction l as [|a l IH]; simpl; [reflexivity|].
  destruct (f a); simpl; [discriminate | exact IH].
Qed.


Lemma find_map_same_test {A} (f : A -> bool) (h : A -> A) (l : list A) :
  (forall x, f (h x) = f x) ->
  find f (map h l) = option_map h (find f l).
Proof.
  intros K. induction l as [|a l IH]; simpl; [reflexivity|].
  rewrite K. destruct (f a); [reflexivity | exact IH].
Qed.

Lemma find_map_untouched {A} (f : A -> bool) (h : A -> A) (l : list A) :
  (forall x, f (h x) = f x) -> (forall x, f x = true -> h x = x) ->
  find f (map h l) = find f l.
Proof.
  intros K T. rewrite find_map_same_test by exact K.
  destruct (find f l) as [x|] eqn:E; [|reflexivity].
  simpl. f_equal. apply T. now apply find_some in E.
Qed.

Lemma NoDup_snoc {A} (l : list A) (x : A) :
  NoDup l -> ~ In x l -> NoDup (l ++ [x]).
Proof.
  induction 1 as [|a l Na Nd IH]; intros Nx; simpl.
  - constructor; [intros []|constructor].
  - constructor.
    + intros I. apply in_app_or in I. destruct I as [I|[<-|[]]].
      * contradiction.
      * apply Nx. left. reflexivity.
    + apply IH. intros I. apply Nx. right. exact I.
Qed.

Lemma validatePassword_length (password : string) :
  validatePassword password = true <-> (8 <= String.length password)%nat.
Proof. unfold validatePassword, PASSWORD_MIN_LENGTH. apply Nat.leb_le. Qed.

Lemma validatePassword_short (password : string) :
  validatePassword password = false <-> (String.length password < 8)%nat.
Proof. unfold validatePassword, PASSWORD_MIN_LENGTH. apply Nat.leb_gt. Qed.

(* ------------------------------------------------------------------ *)
(** ** UUID text and UUID values *)

Lemma is_hex_xdigit (c : ascii) :
  is_hex c = true ->
  is_xdigit c = true /\ to_lower c = c /\
  Ascii.eqb c "-" = false /\ Ascii.eqb c "{" = false.
Proof.
  destruct c as [[] [] [] [] [] [] [] []]; vm_compute; intros K;
    try discriminate K; auto.
Qed.

Lemma digits_eqb_eq (a b : list ascii) : digits_eqb a b = true <-> a = b.
Proof.
  revert b. induction a as [|x a IH]; intros [|y b]; simpl;
    try (split; [discriminate | discriminate]); [tauto|].
  rewrite andb_true_iff, Ascii.eqb_eq, IH. split.
  - intros [-> ->]. reflexivity.
  - intros [= -> ->]. auto.
Qed.

Lemma uuid_eqb_true (a b : string) :
  uuid_eqb a b = true <->
  exists d, parse_uuid a = Some d /\ parse_uuid b = Some d.
Proof.
  unfold uuid_eqb. destruct (parse_uuid a) as [x|], (parse_uuid b) as [y|];
    try (split; [discriminate | intros (d & E & F); discriminate]).
  rewrite digits_eqb_eq. split.
  - intros ->. eauto.
  - intros (d & [= ->] & [= ->]). reflexivity.
Qed.

Lemma uuid_eqb_sym (a b : string) : uuid_eqb a b = uuid_eqb b a.
Proof.
  destruct (uuid_eqb a b) eqn:E, (uuid_eqb b a) eqn:F; try reflexivity.
  - apply uuid_eqb_true in E. destruct E as (d & Ea & Eb).
    assert (T : uuid_eqb b a = true) by (apply uuid_eqb_true; eauto).
    congruence.
  - apply uuid_eqb_true in F. destruct F as (d & Eb & Ea).
    assert (T : uuid_eqb a b = true) by (apply uuid_eqb_true; eauto).
    congruence.
Qed.

(** Equal values match the same rows. *)
Lemma uuid_eqb_same (a b c : string) :
  uuid_eqb a b = true -> uuid_eqb c a = uuid_eqb c b.
Proof.
  intros E. apply uuid_eqb_true in E. destruct E as (d & Ea & Eb).
  unfold uuid_eqb. rewrite Ea, Eb. reflexivity.
Qed.

Lemma uuid_eqb_text (a b : string) :
  uuid_eqb a b = true -> is_uuid_text a = true /\ is_uuid_text b = true.
Proof.
  intros E. apply uuid_eqb_true in E. destruct E as (d & Ea & Eb).
  unfold is_uuid_text. rewrite Ea, Eb. auto.
Qed.

Lemma uuid_eqb_refl (a : string) :
  is_uuid_text a = true -> uuid_eqb a a = true.
Proof.
  unfold is_uuid_text. destruct (parse_uuid a) as [d|] eqn:E; [|discriminate].
  intros _. apply uuid_eqb_true. eauto.
Qed.

Lemma hex_run_split (n : nat) (l r : list ascii) :
  hex_run n l = Some r ->
  exists ds, l = (ds ++ r)%list /\ length ds = n /\
             Forall (fun c => is_hex c = true) ds.
Proof.
  revert l. induction n as [|n IH]; intros l; simpl.
  - intros [= ->]. exists []. auto.
  - destruct l as [|c l]; [discriminate|].
    destruct (is_hex c) eqn:Hc; [|discriminate].
    intros E. destruct (IH _ E) as (ds & -> & L & F).
    exists (c :: ds). simpl. auto.
Qed.

Lemma dash_then_split (n : nat) (o : option (list ascii)) (r : list ascii) :
  dash_then n o = Some r ->
  exists ds, o = Some ("-"%char :: ds ++ r)%list /\ length ds = n /\
             Forall (fun c => is_hex c = true) ds.
Proof.
  unfold dash_then. destruct o as [[|c l]|]; try discriminate.
  destruct (Ascii.eqb_spec c "-") as [->|_]; [|discriminate].
  intros E. destruct (hex_run_split _ _ _ E) as (ds & -> & L & F).
  exists ds. auto.
Qed.

Lemma uuid_bytes_step (n i : nat) (a b : ascii) (rest : list ascii) :
  is_hex a = true -> is_hex b = true ->
  uuid_bytes (S n) i (a :: b :: rest)
  = match uuid_bytes n (S i) (skip_hyphen i rest) with
    | Some (digits, remaining) => Some (a :: b :: digits, remaining)
    | None => None
    end.
Proof.
  intros Ha Hb. simpl.
  destruct (is_hex_xdigit a Ha) as (-> & -> & _).
  destruct (is_hex_xdigit b Hb) as (-> & -> & _).
  reflexivity.
Qed.

Lemma skip_hyphen_hex (i : nat) (c : ascii) (rest : list ascii) :
  is_hex c = true -> skip_hyphen i (c :: rest) = c :: rest.
Proof.
  intros Hc. unfold skip_hyphen.
  destruct (is_hex_xdigit c Hc) as (_ & _ & -> & _). reflexivity.
Qed.

Ltac uuid_digits :=
  repeat match goal with
         | H : length ?l = S _ |- _ =>
             destruct l; simpl in H; [discriminate H|]; injection H as H
         | H : length ?l = O |- _ =>
             destruct l; simpl in H; [clear H | discriminate H]
         | H : Forall _ (_ :: _) |- _ => inversion H; subst; clear H
         | H : Forall _ [] |- _ => clear H
         end.

(** The digits of a value, in groups, are UUID text of that value. *)
Lemma parse_uuid_groups (digits : list ascii) :
  length digits = 32%nat ->
  Forall (fun c => is_hex c = true) digits ->
  parse_uuid (string_of_list_ascii (uuid_groups digits)) = Some digits
  /\ is_uuid (string_of_list_ascii (uuid_groups digits)) = true.
Proof.
  intros L F. unfold parse_uuid, is_uuid.
  rewrite list_ascii_of_string_of_list_ascii.
  uuid_digits. unfold uuid_groups. cbn [firstn skipn app tl]. cbv zeta.
  split.
  - match goal with
    | |- context [Ascii.eqb ?c "{"] =>
        replace (Ascii.eqb c "{") with false
          by (symmetry; apply is_hex_xdigit; assumption)
    end.
    repeat (rewrite uuid_bytes_step by assumption;
            first [ rewrite skip_hyphen_hex by assumption
                  | unfold skip_hyphen at 1;
                    cbn [Ascii.eqb Bool.eqb Nat.odd Nat.even negb
                         andb Nat.ltb Nat.leb] ]).
    reflexivity.
  - repeat (cbn [hex_run dash_then Ascii.eqb Bool.eqb andb];
            match goal with
            | K : is_hex ?c = true |- context [is_hex ?c] => rewrite K
            end).
    reflexivity.
Qed.

Lemma is_uuid_groups (s : string) :
  is_uuid s = true ->
  exists digits,
    length digits = 32%nat /\ Forall (fun c => is_hex c = true) digits /\
    list_ascii_of_string s = uuid_groups digits.
Proof.
  unfold is_uuid. generalize (list_ascii_of_string s) as l. intros l.
  destruct (dash_then 12 _) as [[|? ?]|] eqn:E5; try discriminate. intros _.
  apply dash_then_split in E5. destruct E5 as (d5 & E4 & L5 & F5).
  apply dash_then_split in E4. destruct E4 as (d4 & E3 & L4 & F4).
  apply dash_then_split in E3. destruct E3 as (d3 & E2 & L3 & F3).
  apply dash_then_split in E2. destruct E2 as (d2 & E1 & L2 & F2).
  apply hex_run_split in E1. destruct E1 as (d1 & -> & L1 & F1).
  exists (d1 ++ d2 ++ d3 ++ d4 ++ d5)%list.
  split; [|split].
  - rewrite !length_app. lia.
  - repeat (apply Forall_app; split; try assumption).
  - uuid_digits. reflexivity.
Qed.

(** The text a UUID column is read back as is UUID text, of the value
    whose text it is. *)
Lemma is_uuid_parse (s : string) :
  is_uuid s = true ->
  exists digits, parse_uuid s = Some digits /\ uuid_text digits = s.
Proof.
  intros U. destruct (is_uuid_groups s U) as (d & L & F & E).
  assert (T : uuid_text d = s).
  { unfold uuid_text. rewrite <- E. apply string_of_list_ascii_of_string. }
  exists d. split; [|exact T].
  rewrite <- T. apply (parse_uuid_groups d L F).
Qed.

Lemma is_xdigit_lower (c : ascii) :
  is_xdigit c = true -> is_hex (to_lower c) = true.
Proof.
  destruct c as [[] [] [] [] [] [] [] []]; vm_compute; intros K;
    try discriminate K; reflexivity.
Qed.

Lemma uuid_bytes_digits (n : nat) :
  forall (i : nat) (src digits remaining : list ascii),
    uuid_bytes n i src = Some (digits, remaining) ->
    length digits = (2 * n)%nat /\ Forall (fun c => is_hex c = true) digits.
Proof.
  induction n as [|n IH]; intros i src digits remaining; simpl.
  - intros [= <- _]. auto.
  - destruct src as [|a [|b rest]]; try discriminate.
    destruct (is_xdigit a) eqn:Ha; [|discriminate].
    destruct (is_xdigit b) eqn:Hb; [|discriminate]. cbn [andb].
    destruct (uuid_bytes n (S i) _) as [[ds r]|] eqn:E; [|discriminate].
    intros [= <- _]. destruct (IH _ _ _ _ E) as (L & F).
    split.
    + simpl. lia.
    + repeat constructor; auto using is_xdigit_lower.
Qed.

Lemma parse_uuid_digits (s : string) (digits : list ascii) :
  parse_uuid s = Some digits ->
  length digits = 32%nat /\ Forall (fun c => is_hex c = true) digits.
Proof.
  unfold parse_uuid. cbv zeta.
  destruct (uuid_bytes 16 0 _) as [[ds r]|] eqn:E; [|discriminate].
  intros K.
  assert (digits = ds).
  { destruct (match list_ascii_of_string s with
              | c :: _ => Ascii.eqb c "{" | [] => false end).
    - destruct r as [|c [|? ?]]; try discriminate.
      destruct (Ascii.eqb c "}"); congruence.
    - destruct r; congruence. }
  subst ds. apply (uuid_bytes_digits _ _ _ _ _ E).
Qed.

(** What a UUID column reads back is the value that was written, as
    lower-case 8-4-4-4-12 text. *)
Lemma uuid_canonical_parse (s : string) (digits : list ascii) :
  parse_uuid s = Some digits ->
  parse_uuid (uuid_canonical s) = Some digits
  /\ is_uuid (uuid_canonical s) = true.
Proof.
  intros E. unfold uuid_canonical. rewrite E.
  destruct (parse_uuid_digits _ _ E) as (L & F).
  apply (parse_uuid_groups digits L F).
Qed.

Lemma uuid_canonical_is_uuid (s : string) :
  is_uuid_text s = true -> is_uuid (uuid_canonical s) = true.
Proof.
  unfold is_uuid_text. destruct (parse_uuid s) as [d|] eqn:E; [|discriminate].
  intros _. apply (uuid_canonical_parse _ _ E).
Qed.

Lemma uuid_eqb_canonical (s x : string) :
  is_uuid_text s = true -> uuid_eqb (uuid_canonical s) x = uuid_eqb s x.
Proof.
  unfold is_uuid_text. destruct (parse_uuid s) as [d|] eqn:E; [|discriminate].
  intros _. unfold uuid_eqb.
  destruct (uuid_canonical_parse _ _ E) as (-> & _). rewrite E. reflexivity.
Qed.

Lemma is_uuid_text_of_is_uuid (s : string) :
  is_uuid s = true -> is_uuid_text s = true.
Proof.
  intros U. destruct (is_uuid_parse s U) as (d & E & _).
  unfold is_uuid_text. rewrite E. reflexivity.
Qed.

Lemma uuid_canonical_of_is_uuid (s : string) :
  is_uuid s = true -> uuid_canonical s = s.
Proof.
  intros U. destruct (is_uuid_parse s U) as (d & E & T).
  unfold uuid_canonical. rewrite E. exact T.
Qed.

Lemma uuid_eqb_is_uuid (a b : string) :
  is_uuid a = true -> is_uuid b = true -> uuid_eqb a b = true -> a = b.
Proof.
  intros Ua Ub E.
  destruct (is_uuid_parse a Ua) as (da & Ea & Ta).
  destruct (is_uuid_parse b Ub) as (db & Eb & Tb).
  apply uuid_eqb_true in E. destruct E as (d & Fa & Fb).
  congruence.
Qed.

Lemma is_uuid_text_nonempty (s : string) : is_uuid_text s = true -> s <> "".
Proof. intros E ->. discriminate E. Qed.

(* ------------------------------------------------------------------ *)
(** ** Statements *)

Lemma query_answered {A} (statement : M A) : query true statement = statement.
Proof. reflexivity. Qed.

Lemma query_unanswered {A} (statement : M A) (db : Store) :
  query false statement db = (db, Throw database_error).
Proof. reflexivity. Qed.

(* ------------------------------------------------------------------ *)
(** ** The token codec and the refresh flow *)

Section Codec.
Context `{Primitives} `{Config}.

Lemma jwt_verify_signed (c : JwtClaims) (clock : Z) :
  jwt_verify (Jws c (hs256 JWT_SECRET c)) JWT_SECRET clock
  = if exp c <=? clock then inr TokenExpiredError else inl c.
Proof. simpl. rewrite String.eqb_refl. reflexivity. Qed.

Lemma jwt_verify_bad_signature (c : JwtClaims) (sig : string) (clock : Z) :
  sig <> hs256 JWT_SECRET c ->
  jwt_verify (Jws c sig) JWT_SECRET clock = inr JsonWebTokenError.
Proof.
  intros N. simpl.
  destruct (String.eqb_spec sig (hs256 JWT_SECRET c)) as [E|_];
    [contradiction | reflexivity].
Qed.

Lemma validateToken_signed_live (c : JwtClaims) (clock : Z) :
  clock < exp c ->
  validateToken clock (Jws c (hs256 JWT_SECRET c))
  = Ok (identity (tp_userId (claims_payload c))
                 (tp_email (claims_payload c))
                 (tp_username (claims_payload c))).
Proof.
  intros L. unfold validateToken. rewrite jwt_verify_signed.
  destruct (Z.leb_spec (exp c) clock); [lia | reflexivity].
Qed.

Lemma validateToken_signed_expired (c : JwtClaims) (clock : Z) :
  exp c <= clock ->
  validateToken clock (Jws c (hs256 JWT_SECRET c)) = Throw expired_token_error.
Proof.
  intros L. unfold validateToken. rewrite jwt_verify_signed.
  destruct (Z.leb_spec (exp c) clock); [reflexivity | lia].
Qed.

Lemma validateToken_throws (clock : Z) (tok : Token) (e : ServiceError) :
  validateToken clock tok = Throw e ->
  (e = expired_token_error /\
   exists c, tok = Jws c (hs256 JWT_SECRET c) /\ exp c <= clock)
  \/ e = invalid_token_error.
Proof.
  unfold validateToken. destruct tok as [raw|c sig]; simpl.
  - intros [= <-]. right. reflexivity.
  - destruct (String.eqb_spec sig (hs256 JWT_SECRET c)) as [->|N].
    + destruct (Z.leb_spec (exp c) clock) as [L|L]; [|discriminate].
      intros [= <-]. left. split; [reflexivity|]. exists c. auto.
    + intros [= <-]. right. reflexivity.
Qed.

Lemma validateToken_access (clock now : Z) (userId email username : string) :
  now < clock + JWT_EXPIRY ->
  validateToken now (generateAccessToken clock userId email username)
  = Ok (identity userId email username).
Proof.
  intros L. unfold generateAccessToken, jwt_sign.
  now rewrite validateToken_signed_live.
Qed.

Lemma validateToken_refresh (clock now : Z) (userId email username : string) :
  now < clock + JWT_REFRESH_EXPIRY ->
  validateToken now (generateRefreshToken clock userId email username)
  = Ok (identity userId email username).
Proof.
  intros L. unfold generateRefreshToken, jwt_sign.
  now rewrite validateToken_signed_live.
Qed.

(** C4. A token issued by [generateAccessToken] or [generateRefreshToken]
    with time to live T verifies, returning the embedded user id, email
    and username, at every clock reading before T has elapsed, and is
    rejected with [EXPIRED_TOKEN] from then on; a malformed token and a
    token whose signature is not the one the configured secret gives its
    claims (a tampered payload, another secret) are rejected with
    [INVALID_TOKEN] at every time; and no other rejection exists. *)
Theorem validateToken_lifetime :
  forall (clock now : Z) (userId email username : string),
    (now < clock + JWT_EXPIRY ->
     validateToken now (generateAccessToken clock userId email username)
     = Ok (identity userId email username)) /\
    (clock + JWT_EXPIRY <= now ->
     validateToken now (generateAccessToken clock userId email username)
     = Throw expired_token_error) /\
    (now < clock + JWT_REFRESH_EXPIRY ->
     validateToken now (generateRefreshToken clock userId email username)
     = Ok (identity userId email username)) /\
    (clock + JWT_REFRESH_EXPIRY <= now ->
     validateToken now (generateRefreshToken clock userId email username)
     = Throw expired_token_error) /\
    (forall raw, validateToken now (Malformed raw) = Throw invalid_token_error) /\
    (forall c sig, sig <> hs256 JWT_SECRET c ->
                   validateToken now (Jws c sig) = Throw invalid_token_error) /\
    (forall tok e, validateToken now tok = Throw e ->
                   e = invalid_token_error \/
                   (e = expired_token_error /\
                    exists c, tok = Jws c (hs256 JWT_SECRET c) /\ exp c <= now)).
Proof.
  intros clock now userId email username.
  unfold generateAccessToken, generateRefreshToken, jwt_sign.
  repeat split.
  - intros L. now rewrite validateToken_signed_live.
  - intros L. now rewrite validateToken_signed_expired.
  - intros L. now rewrite validateToken_signed_live.
  - intros L. now rewrite validateToken_signed_expired.
  - intros c sig N. unfold validateToken.
    now rewrite jwt_verify_bad_signature.
  - intros tok e E. apply validateToken_throws in E. tauto.
Qed.

(** [refreshAccessToken] on a token [validateToken] rejects: the
    exception of [validateToken] is what the caller sees, and no statement
    is sent. *)
Lemma refreshAccessToken_rejected (pool : Pool) (clock_verify clock_sign : Z)
    (tok : Token) (e : ServiceError) (db : Store) :
  validateToken clock_verify tok = Throw e ->
  refreshAccessToken pool clock_verify clock_sign tok db = (db, Throw e).
Proof. intros E. unfold refreshAccessToken. rewrite E. reflexivity. Qed.

(** C2, as the code behaves: on a correctly signed token whose expiry has
    passed, [refreshAccessToken] fails with [EXPIRED_TOKEN], the error
    [validateToken] threw, and not with [INVALID_TOKEN]. *)
Theorem refreshAccessToken_expired_token :
  forall (pool : Pool) (clock_verify clock_sign : Z) (c : JwtClaims)
         (db : Store),
    exp c <= clock_verify ->
    refreshAccessToken pool clock_verify clock_sign
      (Jws c (hs256 JWT_SECRET c)) db
    = (db, Throw expired_token_error)
    /\ ~ failsWith (snd (refreshAccessToken pool clock_verify clock_sign
                           (Jws c (hs256 JWT_SECRET c)) db)) INVALID_TOKEN.
Proof.
  intros pool clock_verify clock_sign c db L.
  assert (E : refreshAccessToken pool clock_verify clock_sign
                (Jws c (hs256 JWT_SECRET c)) db
              = (db, Throw expired_token_error)).
  { apply refreshAccessToken_rejected.
    now apply validateToken_signed_expired. }
  split; [exact E|].
  rewrite E. simpl. intros (e & [= <-] & K). discriminate K.
Qed.

(** The other rejections do reach the caller as [INVALID_TOKEN]. *)
Lemma refreshAccessToken_bad_token (pool : Pool) (clock_verify clock_sign : Z)
    (tok : Token) (db : Store) :
  jwt_verify tok JWT_SECRET clock_verify = inr JsonWebTokenError ->
  refreshAccessToken pool clock_verify clock_sign tok db
  = (db, Throw invalid_token_error).
Proof.
  intros E. apply refreshAccessToken_rejected.
  unfold validateToken. rewrite E. reflexivity.
Qed.

(** [refreshAccessToken] on a token that verifies: the lookup of the
    account decides. *)
Lemma refreshAccessToken_verified (pool : Pool) (clock_verify clock_sign : Z)
    (c : JwtClaims) (db : Store) :
  clock_verify < exp c ->
  is_uuid_text (tp_userId (claims_payload c)) = true ->
  pool 0%nat = true ->
  refreshAccessToken pool clock_verify clock_sign (Jws c (hs256 JWT_SECRET c)) db
  = match find (has_user_id (tp_userId (claims_payload c))) (users db) with
    | Some u =>
        (db, Ok (generateAccessToken clock_sign (user_id (row_user u))
                   (user_email (row_user u)) (user_username (row_user u))))
    | None => (db, Throw user_not_found_error)
    end.
Proof.
  intros L U P. unfold refreshAccessToken.
  rewrite validateToken_signed_live by exact L.
  pose proof (is_uuid_text_nonempty _ U) as N.
  simpl.
  destruct (String.eqb_spec (tp_userId (claims_payload c)) "") as [E|_];
    [contradiction|].
  simpl. unfold bind, findUserById. rewrite P, query_answered, U. simpl.
  destruct (find _ (users db)); reflexivity.
Qed.

(** C3. [refreshAccessToken] does not look at the type tag: for a
    correctly signed, unexpired token of either type whose user id is
    that of a stored account, it succeeds (the database answering the
    lookup) and returns a new token: the claims are the stored account's
    id, email and username with the type tag [access], issued at the clock
    reading of the call and expiring [JWT_EXPIRY] later, signed with the
    configured secret; until then that token verifies, to the account's
    identity. *)
Theorem refreshAccessToken_ignores_type :
  forall (pool : Pool) (clock_verify clock_sign : Z) (ty : TokenType)
         (userId email username : string) (issued expiry : Z)
         (db : Store) (u : UserRow),
    let c := {| claims_payload :=
                  {| tp_userId := userId; tp_email := email;
                     tp_username := username; tp_type := ty |};
                iat := issued; exp := expiry |} in
    let c' := {| claims_payload :=
                   {| tp_userId := user_id (row_user u);
                      tp_email := user_email (row_user u);
                      tp_username := user_username (row_user u);
                      tp_type := access |};
                 iat := clock_sign; exp := clock_sign + JWT_EXPIRY |} in
    clock_verify < expiry ->
    pool 0%nat = true ->
    find (has_user_id userId) (users db) = Some u ->
    refreshAccessToken pool clock_verify clock_sign
      (Jws c (hs256 JWT_SECRET c)) db
    = (db, Ok (Jws c' (hs256 JWT_SECRET c')))
    /\ forall now, now < clock_sign + JWT_EXPIRY ->
         validateToken now (Jws c' (hs256 JWT_SECRET c'))
         = Ok {| valid := true;
                 vr_userId := Some (user_id (row_user u));
                 vr_email := Some (user_email (row_user u));
                 vr_username := Some (user_username (row_user u)) |}.
Proof.
  intros pool clock_verify clock_sign ty userId email username issued expiry
         db u c c' L P F.
  assert (U : is_uuid_text userId = true).
  { pose proof (find_some _ _ F) as [_ E].
    unfold has_user_id in E. now apply uuid_eqb_text in E. }
  split.
  - rewrite refreshAccessToken_verified by assumption.
    simpl. rewrite F. reflexivity.
  - intros now Ln. rewrite validateToken_signed_live by exact Ln.
    reflexivity.
Qed.

End Codec.

(* ------------------------------------------------------------------ *)
(** ** Registration and login *)

Lemma existsb_has_user_id_same (a b : string) (l : list UserRow) :
  uuid_eqb a b = true ->
  existsb (has_user_id a) l = existsb (has_user_id b) l.
Proof.
  intros E. induction l as [|r l IH]; simpl; [reflexivity|].
  rewrite IH. unfold has_user_id. rewrite (uuid_eqb_same a b _ E).
  reflexivity.
Qed.

(** No profile row belongs to an identifier that is not an account's. *)
Lemma no_profile_of_stranger (db : Store) (userId : string) :
  schema_ok db ->
  existsb (has_user_id userId) (users db) = false ->
  existsb (of_user userId) (user_profiles db) = false.
Proof.
  intros (_ & FK & _) N.
  destruct (existsb _ (user_profiles db)) eqn:E; [|reflexivity].
  apply existsb_exists in E. destruct E as (p & I & Q).
  unfold of_user in Q. rewrite Forall_forall in FK.
  specialize (FK p I).
  rewrite (existsb_has_user_id_same _ _ _ Q) in FK. congruence.
Qed.

Lemma no_preferences_of_stranger (db : Store) (userId : string) :
  schema_ok db ->
  existsb (has_user_id userId) (users db) = false ->
  existsb (prefs_of_user userId) (user_preferences db) = false.
Proof.
  intros (_ & _ & FK) N.
  destruct (existsb _ (user_preferences db)) eqn:E; [|reflexivity].
  apply existsb_exists in E. destruct E as (p & I & Q).
  unfold prefs_of_user in Q. rewrite Forall_forall in FK.
  specialize (FK p I).
  rewrite (existsb_has_user_id_same _ _ _ Q) in FK. congruence.
Qed.

Lemma varchar_length (n : nat) (s : string) :
  varchar n s = true <-> (String.length s <= n)%nat.
Proof. unfold varchar. apply Nat.leb_le. Qed.

Section Accounts.
Context `{Primitives} `{Config}.

(** [registerUser] on a request that passes every check. *)
Lemma registerUser_run (pool : Pool) (d : RegisterDraws)
    (data : RegisterRequest) (db : Store) :
  validateEmail (reg_email data) = true ->
  validatePassword (reg_password data) = true ->
  varchar 255 (reg_email data) = true ->
  varchar 100 (reg_username data) = true ->
  existsb (has_email (reg_email data)) (users db) = false ->
  existsb (has_username (reg_username data)) (users db) = false ->
  schema_ok db ->
  fresh_keys d db ->
  pool 0%nat = true -> pool 1%nat = true -> pool 2%nat = true ->
  pool 3%nat = true -> pool 4%nat = true ->
  let user :=
    {| user_id := rd_user_id d; user_email := reg_email data;
       user_username := reg_username data;
       user_created_at := rd_user_now d; user_updated_at := rd_user_now d;
       user_is_active := true |} in
  registerUser pool d data db
  = ({| users := users db ++
                 [ {| row_user := user;
                      password_hash :=
                        bcrypt_hash (reg_password data) SALT_ROUNDS
                                    (rd_salt d) |} ];
        user_profiles := user_profiles db ++
          [ {| profile_id := rd_profile_id d; profile_user_id := rd_user_id d;
               avatar_url := None; level := 1; experience := 0;
               stats_wins := 0; stats_losses := 0;
               profile_created_at := rd_profile_now d;
               profile_updated_at := rd_profile_now d |} ];
        user_preferences := user_preferences db ++
          [ {| preferences_id := rd_preferences_id d;
               preferences_user_id := rd_user_id d;
               notifications_enabled := true; language := "en";
               theme := "light";
               preferences_created_at := rd_preferences_now d;
               preferences_updated_at := rd_preferences_now d |} ];
        password_reset_tokens := password_reset_tokens db |},
     Ok {| auth_user := user;
           auth_token := generateAccessToken (rd_clock d) (rd_user_id d)
                           (reg_email data) (reg_username data);
           auth_refreshToken :=
             generateRefreshToken (rd_clock_refresh d) (rd_user_id d)
               (reg_email data) (reg_username data) |}).
Proof.
  intros Hemail Hpw Wemail Wname Hfree_email Hfree_name Hschema
         (Huuid & Hid & Hpid & Hqid) P0 P1 P2 P3 P4 user.
  pose proof (is_uuid_text_of_is_uuid _ Huuid) as Htext.
  unfold registerUser.
  rewrite Hemail, Hpw, P0, P1, P2, P3, P4. cbn [negb].
  unfold bind at 1. unfold findUserByEmail. rewrite query_answered.
  rewrite (existsb_false_find _ _ Hfree_email). cbn [option_map].
  unfold bind at 1. unfold findUserByUsername. rewrite query_answered.
  rewrite (existsb_false_find _ _ Hfree_name). cbn [option_map].
  unfold bind at 1. unfold createUser. rewrite query_answered.
  rewrite Wemail, Wname.
  rewrite !existsb_orb, Hid, Hfree_email, Hfree_name. cbn [orb negb].
  unfold bind at 1. unfold createUserProfile. rewrite query_answered.
  cbn [user_id user_profiles users set_users].
  rewrite Htext, existsb_orb, Hpid,
    (no_profile_of_stranger db _ Hschema Hid).
  rewrite existsb_app. cbn [existsb]. unfold has_user_id at 2.
  cbn [row_user user_id]. rewrite (uuid_eqb_refl _ Htext), !orb_true_r.
  cbn [orb negb].
  unfold bind at 1. unfold createUserPreferences. rewrite query_answered.
  cbn [user_preferences users set_user_profiles set_users].
  rewrite Htext, existsb_orb, Hqid,
    (no_preferences_of_stranger db _ Hschema Hid).
  rewrite existsb_app. cbn [existsb]. unfold has_user_id at 2.
  cbn [row_user user_id]. rewrite (uuid_eqb_refl _ Htext), !orb_true_r.
  cbn [orb negb].
  rewrite (uuid_canonical_of_is_uuid _ Huuid).
  reflexivity.
Qed.

(** What a [registerUser] that returned has done. *)
Lemma registerUser_ok_inv (pool : Pool) (d : RegisterDraws)
    (data : RegisterRequest) (db db' : Store) (registered : AuthResponse) :
  registerUser pool d data db = (db', Ok registered) ->
  let user :=
    {| user_id := rd_user_id d; user_email := reg_email data;
       user_username := reg_username data;
       user_created_at := rd_user_now d; user_updated_at := rd_user_now d;
       user_is_active := true |} in
  validateEmail (reg_email data) = true /\
  validatePassword (reg_password data) = true /\
  existsb (has_email (reg_email data)) (users db) = false /\
  existsb (has_username (reg_username data)) (users db) = false /\
  existsb (has_user_id (rd_user_id d)) (users db) = false /\
  is_uuid_text (rd_user_id d) = true /\
  existsb (of_user (rd_user_id d)) (user_profiles db) = false /\
  existsb (prefs_of_user (rd_user_id d)) (user_preferences db) = false /\
  db' = {| users := users db ++
             [ {| row_user := user;
                  password_hash :=
                    bcrypt_hash (reg_password data) SALT_ROUNDS
                                (rd_salt d) |} ];
           user_profiles := user_profiles db ++
             [ {| profile_id := rd_profile_id d;
                  profile_user_id := uuid_canonical (rd_user_id d);
                  avatar_url := None; level := 1; experience := 0;
                  stats_wins := 0; stats_losses := 0;
                  profile_created_at := rd_profile_now d;
                  profile_updated_at := rd_profile_now d |} ];
           user_preferences := user_preferences db ++
             [ {| preferences_id := rd_preferences_id d;
                  preferences_user_id := uuid_canonical (rd_user_id d);
                  notifications_enabled := true; language := "en";
                  theme := "light";
                  preferences_created_at := rd_preferences_now d;
                  preferences_updated_at := rd_preferences_now d |} ];
           password_reset_tokens := password_reset_tokens db |} /\
  registered
  = {| auth_user := user;
       auth_token := generateAccessToken (rd_clock d) (rd_user_id d)
                       (reg_email data) (reg_username data);
       auth_refreshToken :=
         generateRefreshToken (rd_clock_refresh d) (rd_user_id d)
           (reg_email data) (reg_username data) |}.
Proof.
  intros R user. unfold registerUser in R.
  destruct (validateEmail (reg_email data)) eqn:Hemail; [|discriminate R].
  destruct (validatePassword (reg_password data)) eqn:Hpw; [|discriminate R].
  cbn [negb] in R.
  unfold bind at 1 in R. unfold findUserByEmail, query in R.
  destruct (pool 0%nat); [|discriminate R].
  destruct (find (has_email (reg_email data)) (users db)) eqn:Femail;
    [discriminate R|]. cbn [option_map] in R.
  unfold bind at 1 in R. unfold findUserByUsername, query in R.
  destruct (pool 1%nat); [|discriminate R].
  destruct (find (has_username (reg_username data)) (users db)) eqn:Fname;
    [discriminate R|]. cbn [option_map] in R.
  unfold bind at 1 in R. unfold createUser, query in R.
  destruct (pool 2%nat); [|discriminate R].
  destruct (negb (varchar 255 (reg_email data))
            || negb (varchar 100 (reg_username data))
            || existsb _ (users db)) eqn:Cuser; [discriminate R|].
  apply orb_false_iff in Cuser. destruct Cuser as (_ & Cuser).
  apply existsb_orb3_false in Cuser. destruct Cuser as (Hid & _ & _).
  unfold bind at 1 in R. unfold createUserProfile, query in R.
  destruct (pool 3%nat); [|discriminate R].
  cbn [user_id user_profiles users set_users] in R.
  destruct (negb (is_uuid_text (rd_user_id d)) || existsb _ (user_profiles db)
            || negb _) eqn:Cprofile; [discriminate R|].
  apply orb_false_iff in Cprofile. destruct Cprofile as (Cprofile & _).
  apply orb_false_iff in Cprofile. destruct Cprofile as (Htext & Cprofile).
  apply negb_false_iff in Htext.
  rewrite existsb_orb in Cprofile. apply orb_false_iff in Cprofile.
  destruct Cprofile as (_ & Hprofile).
  unfold bind at 1 in R. unfold createUserPreferences, query in R.
  destruct (pool 4%nat); [|discriminate R].
  cbn [user_preferences users set_user_profiles set_users] in R.
  destruct (negb (is_uuid_text (rd_user_id d))
            || existsb _ (user_preferences db) || negb _) eqn:Cprefs;
    [discriminate R|].
  apply orb_false_iff in Cprefs. destruct Cprefs as (Cprefs & _).
  apply orb_false_iff in Cprefs. destruct Cprefs as (_ & Cprefs).
  rewrite existsb_orb in Cprefs. apply orb_false_iff in Cprefs.
  destruct Cprefs as (_ & Hprefs).
  injection R as <- <-.
  repeat (split; [first [ reflexivity | assumption
                        | now apply find_none_existsb ]|]).
  reflexivity.
Qed.

(** C5, amended.  With a well-formed email of at most 255 characters, a
    password of at least 8 characters, a username of at most 100
    characters, and an email and a username no stored account has,
    [registerUser] succeeds when the database answers its five statements:
    the store gains the account, with the bcrypt digest of the password as
    its hash, a profile with level 1 and experience, wins and losses 0,
    and preferences with notifications on, language "en" and theme
    "light"; the answer is the account (a [User], which has no password
    hash) with an access and a refresh token that both verify, while
    unexpired, to the account's id, email and username. *)
Theorem registerUser_succeeds :
  forall (pool : Pool) (d : RegisterDraws) (data : RegisterRequest)
         (db : Store),
    validateEmail (reg_email data) = true ->
    (8 <= String.length (reg_password data))%nat ->
    (String.length (reg_email data) <= 255)%nat ->
    (String.length (reg_username data) <= 100)%nat ->
    existsb (has_email (reg_email data)) (users db) = false ->
    existsb (has_username (reg_username data)) (users db) = false ->
    schema_ok db ->
    fresh_keys d db ->
    (forall n, (n < 5)%nat -> pool n = true) ->
    let user :=
      {| user_id := rd_user_id d; user_email := reg_email data;
         user_username := reg_username data;
         user_created_at := rd_user_now d; user_updated_at := rd_user_now d;
         user_is_active := true |} in
    let profile :=
      {| profile_id := rd_profile_id d; profile_user_id := rd_user_id d;
         avatar_url := None; level := 1; experience := 0;
         stats_wins := 0; stats_losses := 0;
         profile_created_at := rd_profile_now d;
         profile_updated_at := rd_profile_now d |} in
    let preferences :=
      {| preferences_id := rd_preferences_id d;
         preferences_user_id := rd_user_id d;
         notifications_enabled := true; language := "en"; theme := "light";
         preferences_created_at := rd_preferences_now d;
         preferences_updated_at := rd_preferences_now d |} in
    let token := generateAccessToken (rd_clock d) (rd_user_id d)
                   (reg_email data) (reg_username data) in
    let refreshToken := generateRefreshToken (rd_clock_refresh d)
                          (rd_user_id d) (reg_email data)
                          (reg_username data) in
    registerUser pool d data db
    = ({| users := users db ++
                   [ {| row_user := user;
                        password_hash :=
                          {| dg_rounds := 10; dg_salt := rd_salt d;
                             dg_hash := bcrypt_kdf 10 (rd_salt d)
                                          (reg_password data) |} |} ];
          user_profiles := user_profiles db ++ [profile];
          user_preferences := user_preferences db ++ [preferences];
          password_reset_tokens := password_reset_tokens db |},
       Ok {| auth_user := user; auth_token := token;
             auth_refreshToken := refreshToken |})
    /\ (forall now, now < rd_clock d + JWT_EXPIRY ->
          validateToken now token
          = Ok {| valid := true; vr_userId := Some (rd_user_id d);
                  vr_email := Some (reg_email data);
                  vr_username := Some (reg_username data) |})
    /\ (forall now, now < rd_clock_refresh d + JWT_REFRESH_EXPIRY ->
          validateToken now refreshToken
          = Ok {| valid := true; vr_userId := Some (rd_user_id d);
                  vr_email := Some (reg_email data);
                  vr_username := Some (reg_username data) |}).
Proof.
  intros pool d data db Hemail Hpw Wemail Wname Hfree_email Hfree_name
         Hschema Hkeys P user profile preferences token refreshToken.
  split; [|split].
  - apply registerUser_run; try assumption;
      try (apply P; lia);
      first [ now apply validatePassword_length | now apply varchar_length ].
  - intros now L. now apply validateToken_access.
  - intros now L. now apply validateToken_refresh.
Qed.

(** C8. [registerUser] validates before it reads the store: an ill-formed
    email fails [INVALID_EMAIL] and, the email being well-formed, a
    password shorter than 8 fails [WEAK_PASSWORD], whatever the store
    holds, whether or not the database answers, and leaving the store as
    it was; the first statement is sent only past validation, where a
    database that does not answer it fails the call with
    [DATABASE_ERROR].  With the lookups answered, a stored account with
    the email fails [EMAIL_TAKEN] whether or not the username is taken
    too, and a free email with a stored username fails
    [USERNAME_TAKEN]. *)
Theorem registerUser_rejections :
  forall (pool : Pool) (d : RegisterDraws) (data : RegisterRequest)
         (db : Store),
    (validateEmail (reg_email data) = false ->
     registerUser pool d data db = (db, Throw invalid_email_error)) /\
    (validateEmail (reg_email data) = true ->
     (String.length (reg_password data) < 8)%nat ->
     registerUser pool d data db = (db, Throw weak_password_error)) /\
    (validateEmail (reg_email data) = true ->
     (8 <= String.length (reg_password data))%nat ->
     pool 0%nat = false ->
     registerUser pool d data db = (db, Throw database_error)) /\
    (validateEmail (reg_email data) = true ->
     (8 <= String.length (reg_password data))%nat ->
     pool 0%nat = true ->
     existsb (has_email (reg_email data)) (users db) = true ->
     registerUser pool d data db = (db, Throw email_taken_error)) /\
    (validateEmail (reg_email data) = true ->
     (8 <= String.length (reg_password data))%nat ->
     pool 0%nat = true ->
     existsb (has_email (reg_email data)) (users db) = false ->
     pool 1%nat = true ->
     existsb (has_username (reg_username data)) (users db) = true ->
     registerUser pool d data db = (db, Throw username_taken_error)).
Proof.
  intros pool d data db. unfold registerUser.
  split; [|split; [|split; [|split]]].
  - intros ->. reflexivity.
  - intros -> S. apply validatePassword_short in S. rewrite S. reflexivity.
  - intros -> L P0. apply validatePassword_length in L. rewrite L, P0.
    reflexivity.
  - intros -> L P0 E. apply validatePassword_length in L. rewrite L, P0.
    apply existsb_true_find in E. destruct E as (x & E).
    cbn [negb]. unfold bind, findUserByEmail. rewrite query_answered, E.
    reflexivity.
  - intros -> L P0 E P1 U. apply validatePassword_length in L.
    rewrite L, P0, P1.
    apply existsb_true_find in U. destruct U as (x & U).
    cbn [negb]. unfold bind at 1. unfold findUserByEmail.
    rewrite query_answered.
    rewrite (existsb_false_find _ _ E). cbn [option_map].
    unfold bind, findUserByUsername. rewrite query_answered, U.
    reflexivity.
Qed.

(** [loginUser], the lookup answered. *)
Lemma loginUser_run (pool : Pool) (clock clock_refresh : Z)
    (data : LoginRequest) (db : Store) :
  validateEmail (login_email data) = true ->
  pool 0%nat = true ->
  loginUser pool clock clock_refresh data db
  = match find (has_email (login_email data)) (users db) with
    | None => (db, Throw invalid_credentials_error)
    | Some row =>
        if bcrypt_compare (login_password data) (password_hash row)
        then (db, Ok {| auth_user := row_user row;
                        auth_token :=
                          generateAccessToken clock (user_id (row_user row))
                            (user_email (row_user row))
                            (user_username (row_user row));
                        auth_refreshToken :=
                          generateRefreshToken clock_refresh
                            (user_id (row_user row))
                            (user_email (row_user row))
                            (user_username (row_user row)) |})
        else (db, Throw invalid_credentials_error)
    end.
Proof.
  intros V P. unfold loginUser, bind, findUserWithPassword.
  rewrite V, P, query_answered. cbn [negb].
  destruct (find _ (users db)) as [row|]; [|reflexivity].
  destruct (bcrypt_compare _ _); reflexivity.
Qed.

(** C6. For a well-formed email, [loginUser] answers a login for an email
    no account has and a login with a password that does not match the
    account's hash with one and the same error: [INVALID_CREDENTIALS],
    same message, same status (the database answering the lookup in both
    runs). *)
Theorem loginUser_failures_identical :
  forall (pool pool' : Pool) (clock clock_refresh clock' clock_refresh' : Z)
         (email password password' : string)
         (db db' : Store) (row : UserRow),
    validateEmail email = true ->
    pool 0%nat = true -> pool' 0%nat = true ->
    find (has_email email) (users db) = None ->
    find (has_email email) (users db') = Some row ->
    bcrypt_compare password' (password_hash row) = false ->
    snd (loginUser pool clock clock_refresh
           {| login_email := email; login_password := password |} db)
    = Throw invalid_credentials_error /\
    snd (loginUser pool' clock' clock_refresh'
           {| login_email := email; login_password := password' |} db')
    = Throw invalid_credentials_error /\
    code invalid_credentials_error = INVALID_CREDENTIALS.
Proof.
  intros pool pool' clock clock_refresh clock' clock_refresh'
         email password password' db db' row V P P' N S W.
  rewrite !loginUser_run by assumption.
  cbn [login_email login_password]. rewrite N, S, W. auto.
Qed.

End Accounts.

(* ------------------------------------------------------------------ *)
(** ** Profiles and preferences *)



Lemma find_has_user_id_text (userId : string) (l : list UserRow) (u : UserRow) :
  find (has_user_id userId) l = Some u -> is_uuid_text userId = true.
Proof.
  intros F. apply find_some in F. destruct F as [_ E].
  unfold has_user_id in E. now apply uuid_eqb_text in E.
Qed.

(** [updateUserProfile], the statement answered: the rows of the user are
    rewritten, and the first of them is returned. *)
Lemma updateUserProfile_run (now : Z) (userId : string)
    (updates : UpdateProfileRequest) (db : Store) :
  is_uuid_text userId = true ->
  profile_request_fits updates = true ->
  updateUserProfile true now userId updates db
  = (set_user_profiles db
       (map (fun x => if of_user userId x
                      then set_profile_fields now updates x else x)
            (user_profiles db)),
     match find (of_user userId) (user_profiles db) with
     | Some p => Ok (set_profile_fields now updates p)
     | None => Throw profile_not_found
     end).
Proof.
  intros U F. unfold updateUserProfile, bind. rewrite query_answered, U, F.
  cbn [negb orb].
  destruct (find (of_user userId) (user_profiles db)) as [p|] eqn:E.
  - destruct (find_filter_head _ _ _ E) as (rest & ->). reflexivity.
  - rewrite (find_none_filter _ _ E). reflexivity.
Qed.

Lemma updateUserPreferences_run (now : Z) (userId : string)
    (updates : UpdatePreferencesRequest) (db : Store) :
  is_uuid_text userId = true ->
  preferences_request_fits updates = true ->
  updateUserPreferences true now userId updates db
  = (set_user_preferences db
       (map (fun x => if prefs_of_user userId x
                      then set_preferences_fields now updates x else x)
            (user_preferences db)),
     match find (prefs_of_user userId) (user_preferences db) with
     | Some p => Ok (set_preferences_fields now updates p)
     | None => Throw preferences_not_found
     end).
Proof.
  intros U F. unfold updateUserPreferences, bind.
  rewrite query_answered, U, F. cbn [negb orb].
  destruct (find (prefs_of_user userId) (user_preferences db)) as [p|] eqn:E.
  - destruct (find_filter_head _ _ _ E) as (rest & ->). reflexivity.
  - rewrite (find_none_filter _ _ E). reflexivity.
Qed.

(** A value that does not fit its column, or a user id that is not UUID
    text: the statement is rejected and nothing is written. *)
Lemma updateUserProfile_rejected (now : Z) (userId : string)
    (updates : UpdateProfileRequest) (db : Store) :
  is_uuid_text userId = false \/ profile_request_fits updates = false ->
  updateUserProfile true now userId updates db = (db, Throw database_error).
Proof.
  intros D. unfold updateUserProfile, bind. rewrite query_answered.
  destruct D as [-> | ->]; [reflexivity|].
  rewrite orb_true_r. reflexivity.
Qed.

Lemma updateUserPreferences_rejected (now : Z) (userId : string)
    (updates : UpdatePreferencesRequest) (db : Store) :
  is_uuid_text userId = false \/ preferences_request_fits updates = false ->
  updateUserPreferences true now userId updates db
  = (db, Throw database_error).
Proof.
  intros D. unfold updateUserPreferences, bind. rewrite query_answered.
  destruct D as [-> | ->]; [reflexivity|].
  rewrite orb_true_r. reflexivity.
Qed.

(** The three service operations, their statements answered. *)
Lemma getUserWithProfile_run (pool : Pool) (userId : string) (db : Store) :
  pool 0%nat = true -> pool 1%nat = true -> pool 2%nat = true ->
  is_uuid_text userId = true ->
  getUserWithProfile pool userId db
  = (db,
     match find (has_user_id userId) (users db) with
     | None => Throw user_not_found_error
     | Some u =>
         match find (of_user userId) (user_profiles db) with
         | None => Throw profile_not_found
         | Some p =>
             match find (prefs_of_user userId) (user_preferences db) with
             | None => Throw preferences_not_found
             | Some q => Ok {| uwp_user := row_user u; uwp_profile := p;
                               uwp_preferences := q |}
             end
         end
     end).
Proof.
  intros P0 P1 P2 U.
  unfold getUserWithProfile, bind, findUserById, findUserProfile,
    findUserPreferences.
  rewrite P0, P1, P2, !query_answered, U. cbn [negb].
  destruct (find (has_user_id userId) (users db)); [|reflexivity].
  cbn [option_map].
  destruct (find (of_user userId) (user_profiles db)); [|reflexivity].
  destruct (find (prefs_of_user userId) (user_preferences db)); reflexivity.
Qed.


Lemma updateProfile_run (pool : Pool) (now : Z) (userId : string)
    (updates : UpdateProfileRequest) (db : Store) :
  pool 0%nat = true -> pool 1%nat = true -> pool 2%nat = true ->
  is_uuid_text userId = true ->
  profile_request_fits updates = true ->
  updateProfile pool now userId updates db
  = match find (has_user_id userId) (users db) with
    | None => (db, Throw user_not_found_error)
    | Some u =>
        (set_user_profiles db
           (map (fun x => if of_user userId x
                          then set_profile_fields now updates x else x)
                (user_profiles db)),
         match find (of_user userId) (user_profiles db) with
         | None => Throw profile_not_found
         | Some p =>
             match find (prefs_of_user userId) (user_preferences db) with
             | None => Throw preferences_not_found
             | Some q => Ok {| uwp_user := row_user u;
                               uwp_profile := set_profile_fields now updates p;
                               uwp_preferences := q |}
             end
         end)
    end.
Proof.
  intros P0 P1 P2 U F. unfold updateProfile.
  unfold bind at 1. unfold findUserById.
  rewrite P0, P1, P2, query_answered, U. cbn [negb].
  destruct (find (has_user_id userId) (users db)); [|reflexivity].
  cbn [option_map].
  unfold bind at 1. rewrite (updateUserProfile_run _ _ _ _ U F).
  destruct (find (of_user userId) (user_profiles db)); [|reflexivity].
  unfold bind, findUserPreferences. rewrite query_answered, U.
  cbn [negb user_preferences set_user_profiles].
  destruct (find (prefs_of_user userId) (user_preferences db)); reflexivity.
Qed.

Lemma updatePreferences_run (pool : Pool) (now : Z) (userId : string)
    (updates : UpdatePreferencesRequest) (db : Store) :
  pool 0%nat = true -> pool 1%nat = true -> pool 2%nat = true ->
  is_uuid_text userId = true ->
  preferences_request_fits updates = true ->
  updatePreferences pool now userId updates db
  = match find (has_user_id userId) (users db) with
    | None => (db, Throw user_not_found_error)
    | Some u =>
        (set_user_preferences db
           (map (fun x => if prefs_of_user userId x
                          then set_preferences_fields now updates x else x)
                (user_preferences db)),
         match find (prefs_of_user userId) (user_preferences db) with
         | None => Throw preferences_not_found
         | Some q =>
             match find (of_user userId) (user_profiles db) with
             | None => Throw profile_not_found
             | Some p =>
                 Ok {| uwp_user := row_user u; uwp_profile := p;
                       uwp_preferences :=
                         set_preferences_fields now updates q |}
             end
         end)
    end.
Proof.
  intros P0 P1 P2 U F. unfold updatePreferences.
  unfold bind at 1. unfold findUserById.
  rewrite P0, P1, P2, query_answered, U. cbn [negb].
  destruct (find (has_user_id userId) (users db)); [|reflexivity].
  cbn [option_map].
  unfold bind at 1. rewrite (updateUserPreferences_run _ _ _ _ U F).
  destruct (find (prefs_of_user userId) (user_preferences db));
    [|reflexivity].
  unfold bind, findUserProfile. rewrite query_answered, U.
  cbn [negb user_profiles set_user_preferences].
  destruct (find (of_user userId) (user_profiles db)); reflexivity.
Qed.







(* ------------------------------------------------------------------ *)
(** ** The password-reset protocol *)

Section Reset.
Context `{Primitives}.

Lemma bcrypt_hash_salt (data : string) (rounds : Z) (salt : string) :
  dg_salt (bcrypt_hash data rounds salt) = salt.
Proof. reflexivity. Qed.

(** [requestPasswordReset] for the email of a stored account. *)
Lemma requestPasswordReset_known (pool : Pool) (d : RequestDraws)
    (email : string) (db : Store) (u : UserRow) :
  pool 0%nat = true -> pool 1%nat = true ->
  is_uuid (user_id (row_user u)) = true ->
  find (has_email email) (users db) = Some u ->
  existsb (fun t => String.eqb (prt_id t) (qd_ticket_id d))
          (password_reset_tokens db) = false ->
  requestPasswordReset pool d {| prr_email := email |} db
  = (set_password_reset_tokens db
       (password_reset_tokens db ++
        [ {| prt_id := qd_ticket_id d;
             prt_user_id := user_id (row_user u);
             token_hash := bcrypt_hash (qd_resetToken d) SALT_ROUNDS (qd_salt d);
             expires_at := qd_date_now d + 3600000;
             prt_created_at := qd_ticket_now d |} ]),
     Ok reset_message_sent).
Proof.
  intros P0 P1 U K F. unfold requestPasswordReset.
  unfold bind at 1. unfold findUserByEmail. cbn [prr_email].
  rewrite P0, P1, query_answered, K. cbn [option_map].
  unfold bind, createPasswordResetToken. rewrite query_answered, F.
  pose proof (is_uuid_text_of_is_uuid _ U) as T. rewrite T.
  assert (E : existsb (has_user_id (user_id (row_user u))) (users db) = true).
  { apply existsb_exists. exists u. split.
    - apply (find_some _ _ K).
    - unfold has_user_id. now apply uuid_eqb_refl. }
  rewrite E, (uuid_canonical_of_is_uuid _ U). reflexivity.
Qed.

Lemma requestPasswordReset_unknown (pool : Pool) (d : RequestDraws)
    (email : string) (db : Store) :
  pool 0%nat = true ->
  find (has_email email) (users db) = None ->
  requestPasswordReset pool d {| prr_email := email |} db
  = (db, Ok reset_message_sent).
Proof.
  intros P0 U. unfold requestPasswordReset, bind, findUserByEmail.
  cbn [prr_email]. rewrite P0, query_answered, U. reflexivity.
Qed.

Lemma stored_account_is_uuid (db : Store) (f : UserRow -> bool) (u : UserRow) :
  schema_ok db -> find f (users db) = Some u ->
  is_uuid (user_id (row_user u)) = true.
Proof.
  intros (Huuid & _) F. rewrite Forall_forall in Huuid.
  apply Huuid. apply (find_some _ _ F).
Qed.

(** C9. [requestPasswordReset] returns the same message whether or not an
    account has the email.  When one has (the database answering, the
    generated ticket key new), the relation of the tickets gains exactly
    one row and nothing else changes: the row holds the account's id, as
    [token_hash] the bcrypt digest of the generated secret (cost 10, the
    salt drawn, the key derived from salt and secret) and as expiry
    [Date.now()] plus 3600000 ms; no field of it holds the secret.  When
    none has, the store is left as it was. *)
Theorem requestPasswordReset_same_message :
  forall (pool pool' : Pool) (d d' : RequestDraws) (known unknown : string)
         (db db' : Store) (u : UserRow),
    pool 0%nat = true -> pool 1%nat = true -> pool' 0%nat = true ->
    schema_ok db ->
    find (has_email known) (users db) = Some u ->
    find (has_email unknown) (users db') = None ->
    existsb (fun t => String.eqb (prt_id t) (qd_ticket_id d))
            (password_reset_tokens db) = false ->
    let stored := requestPasswordReset pool d {| prr_email := known |} db in
    let ignored :=
      requestPasswordReset pool' d' {| prr_email := unknown |} db' in
    snd stored
    = Ok "If the email exists, a password reset link has been sent"
    /\ snd ignored = snd stored
    /\ fst ignored = db'
    /\ password_reset_tokens (fst stored)
       = (password_reset_tokens db ++
          [ {| prt_id := qd_ticket_id d;
               prt_user_id := user_id (row_user u);
               token_hash :=
                 {| dg_rounds := 10; dg_salt := qd_salt d;
                    dg_hash := bcrypt_kdf 10 (qd_salt d) (qd_resetToken d) |};
               expires_at := qd_date_now d + 3600000;
               prt_created_at := qd_ticket_now d |} ])%list
    /\ users (fst stored) = users db
    /\ user_profiles (fst stored) = user_profiles db
    /\ user_preferences (fst stored) = user_preferences db.
Proof.
  intros pool pool' d d' known unknown db db' u P0 P1 P0' S K U F
         stored ignored.
  unfold stored, ignored.
  rewrite (requestPasswordReset_known pool d known db u)
    by eauto using stored_account_is_uuid.
  rewrite requestPasswordReset_unknown by assumption.
  cbn [fst snd]. repeat split.
Qed.

(** [resetPassword] when the lookup by digest finds no live ticket. *)
Lemma resetPassword_no_match (pool : Pool) (d : ResetDraws)
    (data : PasswordResetConfirm) (db : Store) :
  validatePassword (prc_newPassword data) = true ->
  pool 0%nat = true ->
  filter (live_ticket (sd_lookup_now d)
            (bcrypt_hash (prc_token data) SALT_ROUNDS (sd_token_salt d)))
         (password_reset_tokens db) = [] ->
  resetPassword pool d data db = (db, Throw invalid_reset_token_error).
Proof.
  intros V P0 F. unfold resetPassword. rewrite V, P0. cbn [negb].
  unfold bind, findPasswordResetToken. rewrite query_answered, F.
  reflexivity.
Qed.

(** A ticket whose digest carries another salt than the one drawn for the
    lookup is not the lookup's. *)
Lemma live_ticket_other_salt (now : Z) (data salt : string)
    (t : PasswordResetToken) :
  dg_salt (token_hash t) <> salt ->
  live_ticket now (bcrypt_hash data SALT_ROUNDS salt) t = false.
Proof.
  intros N. unfold live_ticket.
  destruct (Digest_eqb (token_hash t) (bcrypt_hash data SALT_ROUNDS salt))
    eqn:E; [|reflexivity].
  apply Digest_eqb_eq in E. rewrite E in N. simpl in N. contradiction.
Qed.

(** A call whose salt no stored ticket carries finds no ticket. *)
Lemma resetPassword_fresh_salt (pool : Pool) (d : ResetDraws)
    (data : PasswordResetConfirm) (db : Store) :
  validatePassword (prc_newPassword data) = true ->
  pool 0%nat = true ->
  Forall (fun t => dg_salt (token_hash t) <> sd_token_salt d)
         (password_reset_tokens db) ->
  resetPassword pool d data db = (db, Throw invalid_reset_token_error).
Proof.
  intros V P0 Salt. apply resetPassword_no_match; try assumption.
  apply filter_nil_forall. intros t I.
  apply live_ticket_other_salt.
  rewrite Forall_forall in Salt. now apply Salt.
Qed.


(** C1, as the code behaves: a reset is requested for an account, and
    [resetPassword] is then called with the very secret that request
    generated and a new password of at least 8 characters, the database
    answering every statement.  Its [bcrypt.hash] draws a salt of its
    own; when that salt is not the one the ticket's digest was made with
    (nor that of an older ticket), the lookup by digest finds nothing and
    the call fails with [INVALID_RESET_TOKEN], changing nothing, however
    fresh the ticket. *)
Theorem resetPassword_misses_its_ticket :
  forall (pq ps : Pool) (dq : RequestDraws) (ds : ResetDraws)
         (email newPassword : string) (db : Store) (u : UserRow),
    pq 0%nat = true -> pq 1%nat = true -> ps 0%nat = true ->
    schema_ok db ->
    find (has_email email) (users db) = Some u ->
    existsb (fun t => String.eqb (prt_id t) (qd_ticket_id dq))
            (password_reset_tokens db) = false ->
    (8 <= String.length newPassword)%nat ->
    sd_token_salt ds <> qd_salt dq ->
    Forall (fun t => dg_salt (token_hash t) <> sd_token_salt ds)
           (password_reset_tokens db) ->
    let requested := requestPasswordReset pq dq {| prr_email := email |} db in
    snd requested = Ok reset_message_sent /\
    resetPassword ps ds {| prc_token := qd_resetToken dq;
                           prc_newPassword := newPassword |} (fst requested)
    = (fst requested, Throw invalid_reset_token_error).
Proof.
  intros pq ps dq ds email newPassword db u Q0 Q1 S0 Sch K F L N Old requested.
  pose proof (requestPasswordReset_known pq dq email db u Q0 Q1
                (stored_account_is_uuid _ _ _ Sch K) K F) as E.
  unfold requested. rewrite E. cbn [fst snd]. split; [reflexivity|].
  apply resetPassword_fresh_salt.
  - cbn [prc_newPassword]. now apply validatePassword_length.
  - exact S0.
  - cbn [password_reset_tokens set_password_reset_tokens].
    apply Forall_app. split; [exact Old|].
    constructor; [|constructor].
    cbn [token_hash]. rewrite bcrypt_hash_salt. congruence.
Qed.


End Reset.

(* ------------------------------------------------------------------ *)
(** ** The schema constraints are an invariant of the service *)

Lemma preserves_ret {A} (P : Store -> Prop) (a : A) : preserves P (ret a).
Proof. intros db K. exact K. Qed.

Lemma preserves_throw {A} (P : Store -> Prop) (e : ServiceError) :
  preserves P (@throw A e).
Proof. intros db K. exact K. Qed.

Lemma preserves_bind {A B} (P : Store -> Prop) (m : M A) (k : A -> M B) :
  preserves P m -> (forall a, preserves P (k a)) -> preserves P (bind m k).
Proof.
  intros Hm Hk db K. unfold bind.
  specialize (Hm db K). destruct (m db) as [db' [a|e]]; cbn [fst] in *.
  - now apply Hk.
  - exact Hm.
Qed.

Lemma preserves_query {A} (P : Store -> Prop) (answered : bool) (m : M A) :
  preserves P m -> preserves P (query answered m).
Proof.
  intros Hm db K. unfold query. destruct answered; [now apply Hm | exact K].
Qed.

(** A statement that only reads: the store is the same whether it is
    answered, rejected or not answered. *)
Lemma preserves_read {A} (P : Store -> Prop) (f : Store -> Result A) :
  preserves P (fun db => (db, f db)).
Proof. intros db K. exact K. Qed.

Lemma preserves_findUserByEmail (P : Store -> Prop) (a : bool) (email : string) :
  preserves P (findUserByEmail a email).
Proof. apply preserves_query, (preserves_read P (fun db => Ok _)). Qed.

Lemma preserves_findUserByUsername (P : Store -> Prop) (a : bool)
    (username : string) :
  preserves P (findUserByUsername a username).
Proof. apply preserves_query, (preserves_read P (fun db => Ok _)). Qed.

Lemma preserves_findUserWithPassword (P : Store -> Prop) (a : bool)
    (email : string) :
  preserves P (findUserWithPassword a email).
Proof. apply preserves_query, (preserves_read P (fun db => Ok _)). Qed.

Lemma preserves_findUserById (P : Store -> Prop) (a : bool) (userId : string) :
  preserves P (findUserById a userId).
Proof.
  apply preserves_query. intros db K.
  destruct (negb (is_uuid_text userId)); exact K.
Qed.

Lemma preserves_findUserProfile (P : Store -> Prop) (a : bool)
    (userId : string) :
  preserves P (findUserProfile a userId).
Proof.
  apply preserves_query. intros db K.
  destruct (negb (is_uuid_text userId)); exact K.
Qed.

Lemma preserves_findUserPreferences (P : Store -> Prop) (a : bool)
    (userId : string) :
  preserves P (findUserPreferences a userId).
Proof.
  apply preserves_query. intros db K.
  destruct (negb (is_uuid_text userId)); exact K.
Qed.

Lemma preserves_findPasswordResetToken (P : Store -> Prop) (a : bool)
    (now : Z) (tokenHash : Digest) :
  preserves P (findPasswordResetToken a now tokenHash).
Proof. apply preserves_query, (preserves_read P (fun db => Ok _)). Qed.

Lemma createUser_keeps_schema (a : bool) (id : string) (now : Z)
    (email : string) (passwordHash : Digest) (username : string) :
  is_uuid id = true ->
  preserves schema_ok (createUser a id now email passwordHash username).
Proof.
  intros U. apply preserves_query. intros db (K1 & K2 & K3).
  destruct (_ || _); [repeat split; assumption|].
  cbn [fst]. unfold schema_ok, set_users; cbn. repeat split.
  - apply Forall_app. split; [exact K1|]. repeat constructor. exact U.
  - eapply Forall_impl; [|exact K2]. intros p. apply existsb_app_l.
  - eapply Forall_impl; [|exact K3]. intros p. apply existsb_app_l.
Qed.

Lemma existsb_has_user_id_canonical (userId : string) (l : list UserRow) :
  is_uuid_text userId = true ->
  existsb (has_user_id (uuid_canonical userId)) l
  = existsb (has_user_id userId) l.
Proof.
  intros T. apply existsb_has_user_id_same.
  rewrite uuid_eqb_canonical by exact T. now apply uuid_eqb_refl.
Qed.

Lemma createUserProfile_keeps_schema (a : bool) (id : string) (now : Z)
    (userId : string) :
  preserves schema_ok (createUserProfile a id now userId).
Proof.
  apply preserves_query. intros db (K1 & K2 & K3).
  destruct (is_uuid_text userId) eqn:T; cbn [negb orb];
    [|repeat split; assumption].
  destruct (existsb _ (user_profiles db)); cbn [orb];
    [repeat split; assumption|].
  destruct (existsb (has_user_id userId) (users db)) eqn:E; cbn [negb];
    [|repeat split; assumption].
  cbn [fst]. unfold schema_ok, set_user_profiles; cbn. repeat split.
  - exact K1.
  - apply Forall_app. split; [exact K2|]. repeat constructor.
    cbn [profile_user_id].
    rewrite existsb_has_user_id_canonical by exact T. exact E.
  - exact K3.
Qed.

Lemma createUserPreferences_keeps_schema (a : bool) (id : string) (now : Z)
    (userId : string) :
  preserves schema_ok (createUserPreferences a id now userId).
Proof.
  apply preserves_query. intros db (K1 & K2 & K3).
  destruct (is_uuid_text userId) eqn:T; cbn [negb orb];
    [|repeat split; assumption].
  destruct (existsb _ (user_preferences db)); cbn [orb];
    [repeat split; assumption|].
  destruct (existsb (has_user_id userId) (users db)) eqn:E; cbn [negb];
    [|repeat split; assumption].
  cbn [fst]. unfold schema_ok, set_user_preferences; cbn. repeat split.
  - exact K1.
  - exact K2.
  - apply Forall_app. split; [exact K3|]. repeat constructor.
    cbn [preferences_user_id].
    rewrite existsb_has_user_id_canonical by exact T. exact E.
Qed.

Lemma updateUserProfile_keeps_schema (a : bool) (now : Z) (userId : string)
    (updates : UpdateProfileRequest) :
  preserves schema_ok (updateUserProfile a now userId updates).
Proof.
  apply preserves_bind.
  - apply preserves_query. intros db (K1 & K2 & K3).
    destruct (_ || _); [repeat split; assumption|].
    cbn [fst].
    unfold schema_ok, set_user_profiles; cbn. repeat split; try assumption.
    apply Forall_map. eapply Forall_impl; [|exact K2].
    intros p E. destruct (of_user userId p); exact E.
  - intros [|row rows]; [apply preserves_throw | apply preserves_ret].
Qed.

Lemma updateUserPreferences_keeps_schema (a : bool) (now : Z)
    (userId : string) (updates : UpdatePreferencesRequest) :
  preserves schema_ok (updateUserPreferences a now userId updates).
Proof.
  apply preserves_bind.
  - apply preserves_query. intros db (K1 & K2 & K3).
    destruct (_ || _); [repeat split; assumption|].
    cbn [fst].
    unfold schema_ok, set_user_preferences; cbn. repeat split; try assumption.
    apply Forall_map. eapply Forall_impl; [|exact K3].
    intros p E. destruct (prefs_of_user userId p); exact E.
  - intros [|row rows]; [apply preserves_throw | apply preserves_ret].
Qed.

Lemma existsb_set_password (now : Z) (h : Digest) (userId id : string)
    (l : list UserRow) :
  existsb (has_user_id id)
          (map (fun r => if has_user_id userId r then set_password now h r else r)
               l)
  = existsb (has_user_id id) l.
Proof.
  induction l as [|r l IH]; cbn [map existsb]; [reflexivity|].
  rewrite IH. f_equal. destruct (has_user_id userId r); reflexivity.
Qed.

Lemma updateUserPassword_keeps_schema (a : bool) (now : Z) (userId : string)
    (passwordHash : Digest) :
  preserves schema_ok (updateUserPassword a now userId passwordHash).
Proof.
  apply preserves_query. intros db (K1 & K2 & K3).
  destruct (negb (is_uuid_text userId)); [repeat split; assumption|].
  cbn [fst]. unfold schema_ok, set_users; cbn. repeat split.
  - apply Forall_map. eapply Forall_impl; [|exact K1].
    intros r E. destruct (has_user_id userId r); exact E.
  - eapply Forall_impl; [|exact K2]. intros p E.
    rewrite existsb_set_password. exact E.
  - eapply Forall_impl; [|exact K3]. intros p E.
    rewrite existsb_set_password. exact E.
Qed.

Lemma ticket_writes_keep_schema (db : Store) (l : list PasswordResetToken) :
  schema_ok db -> schema_ok (set_password_reset_tokens db l).
Proof. intros K. exact K. Qed.

Lemma createPasswordResetToken_keeps_schema (a : bool) (id : string)
    (now : Z) (userId : string) (tokenHash : Digest) (expiresAt : Z) :
  preserves schema_ok
            (createPasswordResetToken a id now userId tokenHash expiresAt).
Proof.
  apply preserves_query. intros db K.
  destruct (_ || _); [exact K | now apply ticket_writes_keep_schema].
Qed.

Lemma deletePasswordResetToken_keeps_schema (a : bool) (tokenHash : Digest) :
  preserves schema_ok (deletePasswordResetToken a tokenHash).
Proof.
  apply preserves_query. intros db K. now apply ticket_writes_keep_schema.
Qed.

Section Invariant.
Context `{Primitives} `{Config}.

(** Started from a store that meets the key constraints, with UUIDs as
    generated account keys, the service never leaves them. *)
Lemma registerUser_keeps_schema (pool : Pool) (d : RegisterDraws)
    (data : RegisterRequest) :
  is_uuid (rd_user_id d) = true ->
  preserves schema_ok (registerUser pool d data).
Proof.
  intros U. unfold registerUser.
  destruct (negb (validateEmail (reg_email data))); [apply preserves_throw|].
  destruct (negb (validatePassword (reg_password data)));
    [apply preserves_throw|].
  apply preserves_bind; [apply preserves_findUserByEmail|]. intros [x|];
    [apply preserves_throw|].
  apply preserves_bind; [apply preserves_findUserByUsername|]. intros [x|];
    [apply preserves_throw|].
  apply preserves_bind; [now apply createUser_keeps_schema|]. intros user.
  apply preserves_bind; [apply createUserProfile_keeps_schema|]. intros _.
  apply preserves_bind; [apply createUserPreferences_keeps_schema|]. intros _.
  apply preserves_ret.
Qed.

Lemma updateProfile_keeps_schema (pool : Pool) (now : Z) (userId : string)
    (updates : UpdateProfileRequest) :
  preserves schema_ok (updateProfile pool now userId updates).
Proof.
  unfold updateProfile.
  apply preserves_bind; [apply preserves_findUserById|]. intros [u|];
    [|apply preserves_throw].
  apply preserves_bind; [apply updateUserProfile_keeps_schema|]. intros p.
  apply preserves_bind; [apply preserves_findUserPreferences|]. intros [q|];
    [apply preserves_ret | apply preserves_throw].
Qed.

Lemma updatePreferences_keeps_schema (pool : Pool) (now : Z)
    (userId : string) (updates : UpdatePreferencesRequest) :
  preserves schema_ok (updatePreferences pool now userId updates).
Proof.
  unfold updatePreferences.
  apply preserves_bind; [apply preserves_findUserById|]. intros [u|];
    [|apply preserves_throw].
  apply preserves_bind; [apply updateUserPreferences_keeps_schema|]. intros q.
  apply preserves_bind; [apply preserves_findUserProfile|]. intros [p|];
    [apply preserves_ret | apply preserves_throw].
Qed.

Lemma requestPasswordReset_keeps_schema (pool : Pool) (d : RequestDraws)
    (data : PasswordResetRequest) :
  preserves schema_ok (requestPasswordReset pool d data).
Proof.
  unfold requestPasswordReset.
  apply preserves_bind; [apply preserves_findUserByEmail|]. intros [u|];
    [|apply preserves_ret].
  apply preserves_bind; [|intros _; apply preserves_ret].
  apply createPasswordResetToken_keeps_schema.
Qed.

Lemma resetPassword_keeps_schema (pool : Pool) (d : ResetDraws)
    (data : PasswordResetConfirm) :
  preserves schema_ok (resetPassword pool d data).
Proof.
  unfold resetPassword.
  destruct (negb (validatePassword (prc_newPassword data)));
    [apply preserves_throw|].
  apply preserves_bind; [apply preserves_findPasswordResetToken|].
  intros [t|]; [|apply preserves_throw].
  destruct (expires_at t <? sd_date_now d); [apply preserves_throw|].
  apply preserves_bind; [apply updateUserPassword_keeps_schema|]. intros _.
  apply preserves_bind; [|intros _; apply preserves_ret].
  apply deletePasswordResetToken_keeps_schema.
Qed.

End Invariant.

Lemma empty_store_schema_ok : schema_ok empty_store.
Proof. repeat split; constructor. Qed.

(* ================================================================== *)
(** * Further properties of the code *)

(* ------------------------------------------------------------------ *)
(** ** What [EMAIL_REGEX] accepts *)

Lemma regex_test_end (s : list N) : regex_test [] s = true <-> s = [].
Proof. destruct s; simpl; split; congruence. Qed.

Lemma regex_test_lit (c : N) (rest : list RegexItem) (s : list N) :
  regex_test (Lit c :: rest) s = true
  <-> exists s', s = c :: s' /\ regex_test rest s' = true.
Proof.
  destruct s as [|x s']; simpl.
  - split; [discriminate | intros (? & E & _); discriminate E].
  - rewrite andb_true_iff, N.eqb_eq. split.
    + intros [-> R]. eauto.
    + intros (t & E & R). injection E as -> ->. auto.
Qed.

Lemma regex_test_more (excluded : N -> bool) (rest : list RegexItem)
    (s : list N) :
  (fix more (s : list N) : bool :=
     regex_test rest s ||
     match s with
     | y :: s'' => negb (excluded y) && more s''
     | [] => false
     end) s = true
  <-> exists a b, s = (a ++ b)%list /\
                  forallb (fun c => negb (excluded c)) a = true /\
                  regex_test rest b = true.
Proof.
  induction s as [|y s IH].
  - rewrite orb_false_r. split.
    + intros R. exists [], []. auto.
    + intros (a & b & E & _ & R). symmetry in E.
      apply app_eq_nil in E. destruct E as [_ ->]. exact R.
  - rewrite orb_true_iff, andb_true_iff, IH. split.
    + intros [R|[Y (a & b & -> & A & R)]].
      * exists [], (y :: s). auto.
      * exists (y :: a), b. simpl. rewrite Y, A. auto.
    + intros (a & b & E & A & R). destruct a as [|x a]; simpl in E.
      * subst b. left. exact R.
      * injection E as -> ->. simpl in A. apply andb_true_iff in A.
        destruct A as [Y A]. right. split; [exact Y|]. eauto.
Qed.

Lemma regex_test_plus (excluded : N -> bool) (rest : list RegexItem)
    (s : list N) :
  regex_test (PlusNot excluded :: rest) s = true
  <-> exists a b, s = (a ++ b)%list /\ a <> [] /\
                  forallb (fun c => negb (excluded c)) a = true /\
                  regex_test rest b = true.
Proof.
  destruct s as [|x s'].
  - simpl. split; [discriminate|].
    intros (a & b & E & N & _). symmetry in E.
    apply app_eq_nil in E. destruct E as [-> _]. contradiction.
  - cbn [regex_test]. rewrite andb_true_iff, regex_test_more. split.
    + intros [X (a & b & -> & A & R)].
      exists (x :: a), b. simpl. rewrite X, A.
      repeat split; auto. discriminate.
    + intros (a & b & E & N & A & R). destruct a as [|y a]; [contradiction|].
      simpl in E. injection E as -> ->. simpl in A.
      apply andb_true_iff in A. destruct A as [X A].
      split; [exact X|]. eauto.
Qed.

Lemma is_whitespace_code (c : N) :
  is_whitespace c = true <-> white_space_code c.
Proof.
  unfold is_whitespace, white_space_code.
  rewrite !orb_true_iff, !andb_true_iff, !N.eqb_eq, !N.leb_le.
  cbn [In]. lia.
Qed.

Lemma email_char_test (c : N) :
  negb (space_or_at c) = true <-> email_char c.
Proof.
  unfold space_or_at, email_char.
  rewrite negb_true_iff, orb_false_iff, <- is_whitespace_code, N.eqb_neq.
  destruct (is_whitespace c); intuition congruence.
Qed.

Lemma email_chars_test (l : list N) :
  forallb (fun c => negb (space_or_at c)) l = true <-> Forall email_char l.
Proof.
  rewrite forallb_forall, Forall_forall.
  split; intros K x I; apply email_char_test, K, I.
Qed.

(** X1. [EMAIL_REGEX] matches exactly the sequences of code units made of
    a non-empty local part, an [@], a non-empty domain part, a dot and a
    non-empty rest, where no part holds a white-space code unit or an
    [@]; and [validateEmail] accepts a string exactly when its code units
    are such a sequence. *)
Theorem validateEmail_shape :
  (forall units : list N,
      regex_test EMAIL_REGEX units = true <-> email_shape units) /\
  (forall email : string,
      validateEmail email = true <-> email_shape (code_units email)).
Proof.
  assert (K : forall units : list N,
             regex_test EMAIL_REGEX units = true <-> email_shape units).
  { intros s. unfold EMAIL_REGEX, email_shape.
    rewrite regex_test_plus. split.
    - intros (l & r1 & -> & Nl & Al & R1).
      apply regex_test_lit in R1. destruct R1 as (r2 & -> & R2).
      apply regex_test_plus in R2.
      destruct R2 as (dm & r3 & -> & Nd & Ad & R3).
      apply regex_test_lit in R3. destruct R3 as (r4 & -> & R4).
      apply regex_test_plus in R4.
      destruct R4 as (t & r5 & -> & Nt & At' & R5).
      apply regex_test_end in R5. subst r5. rewrite app_nil_r.
      exists l, dm, t.
      do 4 (split; [first [reflexivity | assumption]|]).
      rewrite !Forall_app, <- !email_chars_test. auto.
    - intros (l & dm & t & -> & Nl & Nd & Nt & A).
      rewrite !Forall_app, <- !email_chars_test in A.
      destruct A as (Al & Ad & At').
      exists l, (64%N :: dm ++ 46%N :: t)%list.
      do 3 (split; [first [reflexivity | assumption]|]).
      apply regex_test_lit. eexists. split; [reflexivity|].
      apply regex_test_plus. exists dm, (46%N :: t)%list.
      do 3 (split; [first [reflexivity | assumption]|]).
      apply regex_test_lit. eexists. split; [reflexivity|].
      apply regex_test_plus. exists t, []. rewrite app_nil_r.
      do 3 (split; [first [reflexivity | assumption]|]).
      reflexivity. }
  split; [exact K|]. intros email. apply K.
Qed.

(* ------------------------------------------------------------------ *)
(** ** Accounts: insertion, lookup, registration, login *)


Section Lifecycle.
Context `{Primitives} `{Config}.

Lemma bcrypt_compare_hash (data : string) (rounds : Z) (salt : string) :
  bcrypt_compare data (bcrypt_hash data rounds salt) = true.
Proof. unfold bcrypt_compare, bcrypt_hash. simpl. apply String.eqb_refl. Qed.

Lemma loginUser_ok_inv (pool : Pool) (clock clock_refresh : Z)
    (data : LoginRequest) (db : Store) (r : AuthResponse) :
  snd (loginUser pool clock clock_refresh data db) = Ok r ->
  exists row,
    validateEmail (login_email data) = true /\
    find (has_email (login_email data)) (users db) = Some row /\
    bcrypt_compare (login_password data) (password_hash row) = true /\
    auth_user r = row_user row.
Proof.
  unfold loginUser, bind, findUserWithPassword, query.
  destruct (validateEmail (login_email data)); cbn beta iota delta [negb];
    [|discriminate].
  destruct (pool 0%nat); [|discriminate].
  destruct (find _ (users db)) as [row|] eqn:F; [|discriminate].
  destruct (bcrypt_compare _ _) eqn:C; cbn beta iota delta [negb];
    [|discriminate].
  intros [= <-]. exists row. auto.
Qed.

(** X3. [loginUser] succeeds exactly when the email is well-formed, an
    account has it and the password matches the account's hash (and the
    database answers the lookup); it then returns that account and two
    tokens which verify, while unexpired, to the account's id, email and
    username. *)
Theorem loginUser_succeeds_iff :
  forall (pool : Pool) (clock clock_refresh : Z) (data : LoginRequest)
         (db : Store),
    (forall r, snd (loginUser pool clock clock_refresh data db) = Ok r ->
       exists row,
         validateEmail (login_email data) = true /\
         find (has_email (login_email data)) (users db) = Some row /\
         bcrypt_compare (login_password data) (password_hash row) = true /\
         auth_user r = row_user row) /\
    (forall row,
       pool 0%nat = true ->
       validateEmail (login_email data) = true ->
       find (has_email (login_email data)) (users db) = Some row ->
       bcrypt_compare (login_password data) (password_hash row) = true ->
       exists r,
         snd (loginUser pool clock clock_refresh data db) = Ok r /\
         auth_user r = row_user row /\
         user_email (auth_user r) = login_email data /\
         (forall now, now < clock + JWT_EXPIRY ->
            validateToken now (auth_token r)
            = Ok (identity (user_id (row_user row)) (user_email (row_user row))
                           (user_username (row_user row)))) /\
         (forall now, now < clock_refresh + JWT_REFRESH_EXPIRY ->
            validateToken now (auth_refreshToken r)
            = Ok (identity (user_id (row_user row)) (user_email (row_user row))
                           (user_username (row_user row))))).
Proof.
  intros pool clock clock_refresh data db. split.
  - intros r. apply loginUser_ok_inv.
  - intros row P V F C. rewrite loginUser_run, F, C by assumption.
    eexists. split; [reflexivity|]. cbn [snd auth_user auth_token
                                         auth_refreshToken].
    split; [reflexivity|]. split.
    + apply find_some in F. destruct F as [_ E].
      unfold has_email in E. now apply String.eqb_eq in E.
    + split; intros now L;
        [now apply validateToken_access | now apply validateToken_refresh].
Qed.



(** X6. After a [registerUser] that succeeded, [getUserWithProfile] of the
    new id (its statements answered) returns the created account with the
    default profile (level 1, the counters 0, no avatar) and the default
    preferences (notifications on, "en", "light"), both carrying the id
    of the account. *)
Theorem getUserWithProfile_after_register :
  forall (pool pool2 : Pool) (d : RegisterDraws) (data : RegisterRequest)
         (db db' : Store) (registered : AuthResponse),
    registerUser pool d data db = (db', Ok registered) ->
    pool2 0%nat = true -> pool2 1%nat = true -> pool2 2%nat = true ->
    exists u,
      getUserWithProfile pool2 (rd_user_id d) db' = (db', Ok u) /\
      uwp_user u = auth_user registered /\
      uuid_eqb (profile_user_id (uwp_profile u)) (rd_user_id d) = true /\
      (is_uuid (rd_user_id d) = true ->
       profile_user_id (uwp_profile u) = rd_user_id d) /\
      avatar_url (uwp_profile u) = None /\
      level (uwp_profile u) = 1 /\ experience (uwp_profile u) = 0 /\
      stats_wins (uwp_profile u) = 0 /\ stats_losses (uwp_profile u) = 0 /\
      uuid_eqb (preferences_user_id (uwp_preferences u)) (rd_user_id d)
      = true /\
      (is_uuid (rd_user_id d) = true ->
       preferences_user_id (uwp_preferences u) = rd_user_id d) /\
      notifications_enabled (uwp_preferences u) = true /\
      language (uwp_preferences u) = "en" /\
      theme (uwp_preferences u) = "light".
Proof.
  intros pool pool2 d data db db' registered R P0 P1 P2.
  destruct (registerUser_ok_inv _ _ _ _ _ _ R)
    as (_ & _ & _ & _ & Hid & T & Hp & Hq & -> & ->).
  assert (Ecan : uuid_eqb (uuid_canonical (rd_user_id d)) (rd_user_id d)
                 = true).
  { rewrite uuid_eqb_canonical by exact T. now apply uuid_eqb_refl. }
  rewrite getUserWithProfile_run by assumption.
  cbn [users user_profiles user_preferences].
  rewrite (find_app_none _ _ _ Hid), (find_app_none _ _ _ Hp),
    (find_app_none _ _ _ Hq).
  cbn [find]. unfold has_user_id, of_user, prefs_of_user.
  cbn [row_user user_id profile_user_id preferences_user_id].
  rewrite (uuid_eqb_refl _ T), Ecan.
  eexists. split; [reflexivity|].
  cbn. rewrite Ecan.
  repeat (split; [first [reflexivity
                        | intros U; now apply uuid_canonical_of_is_uuid]|]).
  reflexivity.
Qed.

End Lifecycle.

(* ------------------------------------------------------------------ *)
(** ** What the operations keep *)

Lemma preserves_fixes {A} (m : M A) (db : Store) :
  preserves (fun x => x = db) m -> fst (m db) = db.
Proof. intros K. now apply K. Qed.

Lemma preserves_and {A} (P Q : Store -> Prop) (m : M A) :
  preserves P m -> preserves Q m -> preserves (fun db => P db /\ Q db) m.
Proof. intros Hp Hq db [Kp Kq]. split; [now apply Hp | now apply Hq]. Qed.

Lemma not_in_map_of_existsb {A} (f : A -> string) (k : string) (l : list A) :
  existsb (fun r => String.eqb (f r) k) l = false -> ~ In k (map f l).
Proof.
  intros E I. apply in_map_iff in I. destruct I as (r & Q & I).
  assert (T : existsb (fun r => String.eqb (f r) k) l = true).
  { apply existsb_exists. exists r. split; [exact I|].
    now apply String.eqb_eq. }
  congruence.
Qed.

Lemma not_in_ids_of_existsb (id : string) (l : list UserRow) :
  is_uuid_text id = true ->
  existsb (has_user_id id) l = false ->
  ~ In id (map (fun r => user_id (row_user r)) l).
Proof.
  intros T E I. apply in_map_iff in I. destruct I as (r & Q & I).
  assert (K : existsb (has_user_id id) l = true).
  { apply existsb_exists. exists r. split; [exact I|].
    unfold has_user_id. rewrite Q. now apply uuid_eqb_refl. }
  congruence.
Qed.

Lemma unique_accounts_users (db db' : Store) :
  users db' = users db -> unique_accounts db -> unique_accounts db'.
Proof. unfold unique_accounts. intros ->. auto. Qed.

Lemma createUser_keeps_unique (a : bool) (id : string) (now : Z)
    (email : string) (passwordHash : Digest) (username : string) :
  is_uuid_text id = true ->
  preserves unique_accounts (createUser a id now email passwordHash username).
Proof.
  intros T. apply preserves_query. intros db (Ki & Ke & Ku).
  destruct (_ || _) eqn:E; [repeat split; assumption|].
  apply orb_false_iff in E. destruct E as (_ & E).
  apply existsb_orb3_false in E. destruct E as (Ei & Ee & Eu).
  cbn [fst]. unfold unique_accounts, set_users; cbn [users].
  rewrite !map_app. cbn [map row_user user_id user_email user_username].
  repeat split; apply NoDup_snoc; try assumption.
  - now apply not_in_ids_of_existsb.
  - now apply (not_in_map_of_existsb (fun r => user_email (row_user r))).
  - now apply (not_in_map_of_existsb (fun r => user_username (row_user r))).
Qed.

Lemma map_set_password {B} (f : UserRow -> B) (now : Z) (h : Digest)
    (userId : string) (l : list UserRow) :
  (forall r, f (set_password now h r) = f r) ->
  map f (map (fun r => if has_user_id userId r then set_password now h r
                       else r) l)
  = map f l.
Proof.
  intros K. rewrite map_map. apply map_ext. intros r.
  destruct (has_user_id userId r); [apply K | reflexivity].
Qed.

Lemma updateUserPassword_keeps_unique (a : bool) (now : Z) (userId : string)
    (passwordHash : Digest) :
  preserves unique_accounts (updateUserPassword a now userId passwordHash).
Proof.
  apply preserves_query. intros db (Ki & Ke & Ku).
  destruct (negb (is_uuid_text userId)); [repeat split; assumption|].
  cbn [fst].
  unfold unique_accounts, set_users; cbn [users].
  rewrite !map_set_password by reflexivity. auto.
Qed.

Lemma preserves_users_only {A} (m : M A) :
  (forall db, users (fst (m db)) = users db) -> preserves unique_accounts m.
Proof. intros K db U. now apply (unique_accounts_users db). Qed.

Lemma createUserProfile_users (a : bool) (id : string) (now : Z)
    (userId : string) (db : Store) :
  users (fst (createUserProfile a id now userId db)) = users db.
Proof.
  unfold createUserProfile, query. destruct a; [|reflexivity].
  destruct (_ || _); reflexivity.
Qed.

Lemma createUserPreferences_users (a : bool) (id : string) (now : Z)
    (userId : string) (db : Store) :
  users (fst (createUserPreferences a id now userId db)) = users db.
Proof.
  unfold createUserPreferences, query. destruct a; [|reflexivity].
  destruct (_ || _); reflexivity.
Qed.

Lemma updateUserProfile_users (a : bool) (now : Z) (userId : string)
    (updates : UpdateProfileRequest) (db : Store) :
  users (fst (updateUserProfile a now userId updates db)) = users db.
Proof.
  unfold updateUserProfile, bind, query. destruct a; [|reflexivity].
  destruct (_ || _); [reflexivity|].
  destruct (map _ (filter _ _)); reflexivity.
Qed.

Lemma updateUserPreferences_users (a : bool) (now : Z) (userId : string)
    (updates : UpdatePreferencesRequest) (db : Store) :
  users (fst (updateUserPreferences a now userId updates db)) = users db.
Proof.
  unfold updateUserPreferences, bind, query. destruct a; [|reflexivity].
  destruct (_ || _); [reflexivity|].
  destruct (map _ (filter _ _)); reflexivity.
Qed.

Lemma createPasswordResetToken_users (a : bool) (id : string) (now : Z)
    (userId : string) (tokenHash : Digest) (expiresAt : Z) (db : Store) :
  users (fst (createPasswordResetToken a id now userId tokenHash expiresAt db))
  = users db.
Proof.
  unfold createPasswordResetToken, query. destruct a; [|reflexivity].
  destruct (_ || _); reflexivity.
Qed.

Lemma deletePasswordResetToken_users (a : bool) (tokenHash : Digest)
    (db : Store) :
  users (fst (deletePasswordResetToken a tokenHash db)) = users db.
Proof.
  unfold deletePasswordResetToken, query. destruct a; reflexivity.
Qed.

Section Keeping.
Context `{Primitives} `{Config}.

Lemma registerUser_keeps_unique (pool : Pool) (d : RegisterDraws)
    (data : RegisterRequest) :
  is_uuid (rd_user_id d) = true ->
  preserves unique_accounts (registerUser pool d data).
Proof.
  intros U. unfold registerUser.
  destruct (negb (validateEmail (reg_email data))); [apply preserves_throw|].
  destruct (negb (validatePassword (reg_password data)));
    [apply preserves_throw|].
  apply preserves_bind; [apply preserves_findUserByEmail|]. intros [x|];
    [apply preserves_throw|].
  apply preserves_bind; [apply preserves_findUserByUsername|]. intros [x|];
    [apply preserves_throw|].
  apply preserves_bind;
    [apply createUser_keeps_unique; now apply is_uuid_text_of_is_uuid|].
  intros user.
  apply preserves_bind;
    [apply preserves_users_only, createUserProfile_users|]. intros _.
  apply preserves_bind;
    [apply preserves_users_only, createUserPreferences_users|]. intros _.
  apply preserves_ret.
Qed.

Lemma updateProfile_keeps_unique (pool : Pool) (now : Z) (userId : string)
    (updates : UpdateProfileRequest) :
  preserves unique_accounts (updateProfile pool now userId updates).
Proof.
  unfold updateProfile.
  apply preserves_bind; [apply preserves_findUserById|]. intros [u|];
    [|apply preserves_throw].
  apply preserves_bind;
    [apply preserves_users_only, updateUserProfile_users|]. intros p.
  apply preserves_bind; [apply preserves_findUserPreferences|]. intros [q|];
    [apply preserves_ret | apply preserves_throw].
Qed.

Lemma updatePreferences_keeps_unique (pool : Pool) (now : Z)
    (userId : string) (updates : UpdatePreferencesRequest) :
  preserves unique_accounts (updatePreferences pool now userId updates).
Proof.
  unfold updatePreferences.
  apply preserves_bind; [apply preserves_findUserById|]. intros [u|];
    [|apply preserves_throw].
  apply preserves_bind;
    [apply preserves_users_only, updateUserPreferences_users|]. intros q.
  apply preserves_bind; [apply preserves_findUserProfile|]. intros [p|];
    [apply preserves_ret | apply preserves_throw].
Qed.

Lemma requestPasswordReset_keeps_unique (pool : Pool) (d : RequestDraws)
    (data : PasswordResetRequest) :
  preserves unique_accounts (requestPasswordReset pool d data).
Proof.
  unfold requestPasswordReset.
  apply preserves_bind; [apply preserves_findUserByEmail|]. intros [u|];
    [|apply preserves_ret].
  apply preserves_bind; [|intros _; apply preserves_ret].
  apply preserves_users_only. intros db.
  apply createPasswordResetToken_users.
Qed.

Lemma resetPassword_keeps_unique (pool : Pool) (d : ResetDraws)
    (data : PasswordResetConfirm) :
  preserves unique_accounts (resetPassword pool d data).
Proof.
  unfold resetPassword.
  destruct (negb (validatePassword (prc_newPassword data)));
    [apply preserves_throw|].
  apply preserves_bind; [apply preserves_findPasswordResetToken|].
  intros [t|]; [|apply preserves_throw].
  destruct (expires_at t <? sd_date_now d); [apply preserves_throw|].
  apply preserves_bind; [apply updateUserPassword_keeps_unique|]. intros _.
  apply preserves_bind; [|intros _; apply preserves_ret].
  apply preserves_users_only. intros db. apply deletePasswordResetToken_users.
Qed.

(** X7. The key constraints of the schema are an invariant of the service:
    from a store in which account ids are UUIDs, profiles and preferences
    belong to stored accounts, and no two accounts share an id, an email
    or a username, every operation that writes, however it ends and
    whichever of its statements the database answers, leaves such a store
    ([registerUser] given a UUID as the generated account id). *)
Theorem service_keeps_key_constraints :
  let keys := fun db => schema_ok db /\ unique_accounts db in
  (forall pool d data, is_uuid (rd_user_id d) = true ->
                       preserves keys (registerUser pool d data)) /\
  (forall pool now userId updates,
      preserves keys (updateProfile pool now userId updates)) /\
  (forall pool now userId updates,
      preserves keys (updatePreferences pool now userId updates)) /\
  (forall pool d data, preserves keys (requestPasswordReset pool d data)) /\
  (forall pool d data, preserves keys (resetPassword pool d data)).
Proof.
  intros keys. unfold keys.
  split; [|split; [|split; [|split]]]; intros.
  - apply (preserves_and schema_ok unique_accounts);
      [now apply registerUser_keeps_schema
      | now apply registerUser_keeps_unique].
  - apply (preserves_and schema_ok unique_accounts);
      [apply updateProfile_keeps_schema | apply updateProfile_keeps_unique].
  - apply (preserves_and schema_ok unique_accounts);
      [apply updatePreferences_keeps_schema
      | apply updatePreferences_keeps_unique].
  - apply (preserves_and schema_ok unique_accounts);
      [apply requestPasswordReset_keeps_schema
      | apply requestPasswordReset_keeps_unique].
  - apply (preserves_and schema_ok unique_accounts);
      [apply resetPassword_keeps_schema | apply resetPassword_keeps_unique].
Qed.

(** X8. [loginUser], [refreshAccessToken] and [getUserWithProfile] only
    read: whatever they are given, whether or not the database answers and
    however they end, the store is the one they started from. *)
Theorem reading_operations_leave_store :
  forall (db : Store),
    (forall pool clock clock_refresh data,
        fst (loginUser pool clock clock_refresh data db) = db) /\
    (forall pool clock_verify clock_sign tok,
        fst (refreshAccessToken pool clock_verify clock_sign tok db) = db) /\
    (forall pool userId, fst (getUserWithProfile pool userId db) = db).
Proof.
  intros db. split; [|split]; intros.
  - apply preserves_fixes.
    unfold loginUser.
    destruct (negb _); [apply preserves_throw|].
    apply preserves_bind; [apply preserves_findUserWithPassword|].
    intros [row|]; [|apply preserves_throw].
    destruct (negb _); [apply preserves_throw | apply preserves_ret].
  - apply preserves_fixes.
    unfold refreshAccessToken.
    destruct (validateToken clock_verify tok) as [v|e];
      [|apply preserves_throw].
    destruct (_ || _); [apply preserves_throw|].
    apply preserves_bind; [apply preserves_findUserById|]. intros [u|];
      [apply preserves_ret | apply preserves_throw].
  - apply preserves_fixes.
    unfold getUserWithProfile.
    apply preserves_bind; [apply preserves_findUserById|]. intros [u|];
      [|apply preserves_throw].
    apply preserves_bind; [apply preserves_findUserProfile|]. intros [p|];
      [|apply preserves_throw].
    apply preserves_bind; [apply preserves_findUserPreferences|].
    intros [q|]; [apply preserves_ret | apply preserves_throw].
Qed.

End Keeping.

(* ------------------------------------------------------------------ *)
(** ** Refreshing, and reading back what was written *)

Lemma find_unique_id (l : list UserRow) (row : UserRow) :
  Forall (fun r => is_uuid (user_id (row_user r)) = true) l ->
  NoDup (map (fun r => user_id (row_user r)) l) ->
  In row l ->
  find (has_user_id (user_id (row_user row))) l = Some row.
Proof.
  induction l as [|a l IH]; simpl; [intros _ _ []|].
  intros U N I. inversion N as [|x xs Nx Nl]; subst.
  inversion U as [|y ys Ua Ul]; subst.
  destruct I as [->|I].
  - unfold has_user_id.
    rewrite uuid_eqb_refl by now apply is_uuid_text_of_is_uuid.
    reflexivity.
  - unfold has_user_id at 1.
    destruct (uuid_eqb (user_id (row_user a)) (user_id (row_user row)))
      eqn:E.
    + exfalso. apply Nx.
      rewrite Forall_forall in Ul.
      rewrite (uuid_eqb_is_uuid _ _ Ua (Ul row I) E).
      apply (in_map (fun r => user_id (row_user r))). exact I.
    + now apply IH.
Qed.

Section Reading.
Context `{Primitives} `{Config}.

(** X9. For a correctly signed, unexpired token, [refreshAccessToken] has
    these outcomes: [INVALID_TOKEN] ("Invalid refresh token") when the
    token's user id is empty, without a statement being sent; otherwise
    [DATABASE_ERROR] when the database does not answer the lookup or the
    user id is not the text of a UUID; [USER_NOT_FOUND] when no account
    has that id; otherwise a new access token, and that token verifies,
    while unexpired, to the id, email and username of the stored account,
    not to the email and username the presented token claims. *)
Theorem refreshAccessToken_outcomes :
  forall (pool : Pool) (clock_verify clock_sign : Z) (c : JwtClaims)
         (db : Store),
    clock_verify < exp c ->
    let run := refreshAccessToken pool clock_verify clock_sign
                 (Jws c (hs256 JWT_SECRET c)) db in
    let userId := tp_userId (claims_payload c) in
    (userId = "" -> run = (db, Throw invalid_refresh_token_error)) /\
    (userId <> "" -> pool 0%nat = false ->
     run = (db, Throw database_error)) /\
    (userId <> "" -> is_uuid_text userId = false ->
     run = (db, Throw database_error)) /\
    (pool 0%nat = true -> is_uuid_text userId = true ->
     find (has_user_id userId) (users db) = None ->
     run = (db, Throw user_not_found_error)) /\
    (pool 0%nat = true ->
     forall u, find (has_user_id userId) (users db) = Some u ->
       exists token,
         run = (db, Ok token) /\
         forall now, now < clock_sign + JWT_EXPIRY ->
           validateToken now token
           = Ok (identity (user_id (row_user u)) (user_email (row_user u))
                          (user_username (row_user u)))).
Proof.
  intros pool clock_verify clock_sign c db L run userId.
  split; [|split; [|split; [|split]]].
  - intros E. unfold run, refreshAccessToken.
    rewrite validateToken_signed_live by exact L.
    cbn [valid vr_userId identity negb truthy unwrap orb]. fold userId.
    rewrite E. reflexivity.
  - intros N P. unfold run, refreshAccessToken.
    rewrite validateToken_signed_live by exact L.
    cbn [valid vr_userId identity negb truthy unwrap orb]. fold userId.
    destruct (String.eqb_spec userId "") as [E|_]; [contradiction|].
    cbn [negb]. unfold bind, findUserById. rewrite P. reflexivity.
  - intros N T. unfold run, refreshAccessToken.
    rewrite validateToken_signed_live by exact L.
    cbn [valid vr_userId identity negb truthy unwrap orb]. fold userId.
    destruct (String.eqb_spec userId "") as [E|_]; [contradiction|].
    cbn [negb]. unfold bind, findUserById, query. rewrite T.
    destruct (pool 0%nat); reflexivity.
  - intros P T F. unfold run.
    rewrite refreshAccessToken_verified by assumption.
    fold userId. rewrite F. reflexivity.
  - intros P u F. unfold run.
    rewrite refreshAccessToken_verified;
      [| exact L | exact (find_has_user_id_text _ _ _ F) | exact P].
    fold userId. rewrite F.
    eexists. split; [reflexivity|]. intros now K.
    now apply validateToken_access.
Qed.

(** X10. The refresh token [loginUser] hands out, presented to
    [refreshAccessToken] before it expires and with the store unchanged,
    yields (the lookup answered) an access token that verifies to the
    account that logged in. *)
Theorem refresh_after_login :
  forall (pool pool2 : Pool) (clock clock_refresh clock_verify clock_sign : Z)
         (data : LoginRequest) (db : Store) (logged : AuthResponse),
    schema_ok db -> unique_accounts db ->
    loginUser pool clock clock_refresh data db = (db, Ok logged) ->
    clock_verify < clock_refresh + JWT_REFRESH_EXPIRY ->
    pool2 0%nat = true ->
    exists token,
      refreshAccessToken pool2 clock_verify clock_sign
        (auth_refreshToken logged) db
      = (db, Ok token) /\
      forall now, now < clock_sign + JWT_EXPIRY ->
        validateToken now token
        = Ok (identity (user_id (auth_user logged))
                       (user_email (auth_user logged))
                       (user_username (auth_user logged))).
Proof.
  intros pool pool2 clock clock_refresh clock_verify clock_sign data db logged
         (Huuid & _) (Nid & _) Hlogin L P2.
  destruct (loginUser_ok_inv pool clock clock_refresh data db logged)
    as (row & V & F & C & _); [rewrite Hlogin; reflexivity|].
  assert (P : pool 0%nat = true).
  { unfold loginUser, bind, findUserWithPassword, query in Hlogin.
    rewrite V in Hlogin. cbn [negb] in Hlogin.
    destruct (pool 0%nat); [reflexivity | discriminate Hlogin]. }
  rewrite loginUser_run, F, C in Hlogin by assumption.
  injection Hlogin as <-. cbn [auth_refreshToken auth_user].
  pose proof (find_some _ _ F) as [I _].
  assert (T : is_uuid_text (user_id (row_user row)) = true).
  { apply is_uuid_text_of_is_uuid.
    rewrite Forall_forall in Huuid. now apply Huuid. }
  unfold generateRefreshToken, jwt_sign.
  rewrite refreshAccessToken_verified;
    [| exact L | exact T | exact P2].
  cbn [claims_payload tp_userId].
  rewrite (find_unique_id _ _ Huuid Nid I).
  eexists. split; [reflexivity|]. intros now K.
  now apply validateToken_access.
Qed.

End Reading.

Lemma find_profile_after_update (now : Z) (updates : UpdateProfileRequest)
    (k userId : string) (l : list UserProfile) :
  find (of_user k)
       (map (fun x => if of_user userId x
                      then set_profile_fields now updates x else x) l)
  = option_map (fun x => if of_user userId x
                         then set_profile_fields now updates x else x)
               (find (of_user k) l).
Proof.
  apply find_map_same_test. intros x.
  destruct (of_user userId x); reflexivity.
Qed.

Lemma find_preferences_after_update (now : Z)
    (updates : UpdatePreferencesRequest) (k userId : string)
    (l : list UserPreferences) :
  find (prefs_of_user k)
       (map (fun x => if prefs_of_user userId x
                      then set_preferences_fields now updates x else x) l)
  = option_map (fun x => if prefs_of_user userId x
                         then set_preferences_fields now updates x else x)
               (find (prefs_of_user k) l).
Proof.
  apply find_map_same_test. intros x.
  destruct (prefs_of_user userId x); reflexivity.
Qed.

Lemma updateProfile_store (pool : Pool) (now : Z) (userId : string)
    (updates : UpdateProfileRequest) (db : Store) :
  fst (updateProfile pool now userId updates db) = db \/
  fst (updateProfile pool now userId updates db)
  = set_user_profiles db
      (map (fun x => if of_user userId x
                     then set_profile_fields now updates x else x)
           (user_profiles db)).
Proof.
  unfold updateProfile, bind, findUserById, query.
  destruct (pool 0%nat); [|left; reflexivity].
  destruct (negb (is_uuid_text userId)) eqn:T; [left; reflexivity|].
  destruct (find (has_user_id userId) (users db)); cbn [option_map];
    [|left; reflexivity].
  unfold updateUserProfile, bind, query.
  destruct (pool 1%nat); [|left; reflexivity].
  rewrite T. cbn [orb].
  destruct (negb (profile_request_fits updates)); [left; reflexivity|].
  destruct (map _ (filter _ _)); [right; reflexivity|].
  unfold findUserPreferences, query, ret.
  destruct (pool 2%nat); [|right; reflexivity].
  rewrite T. cbn [user_preferences set_user_profiles].
  destruct (find (prefs_of_user userId) (user_preferences db));
    right; reflexivity.
Qed.

Lemma updatePreferences_store (pool : Pool) (now : Z) (userId : string)
    (updates : UpdatePreferencesRequest) (db : Store) :
  fst (updatePreferences pool now userId updates db) = db \/
  fst (updatePreferences pool now userId updates db)
  = set_user_preferences db
      (map (fun x => if prefs_of_user userId x
                     then set_preferences_fields now updates x else x)
           (user_preferences db)).
Proof.
  unfold updatePreferences, bind, findUserById, query.
  destruct (pool 0%nat); [|left; reflexivity].
  destruct (negb (is_uuid_text userId)) eqn:T; [left; reflexivity|].
  destruct (find (has_user_id userId) (users db)); cbn [option_map];
    [|left; reflexivity].
  unfold updateUserPreferences, bind, query.
  destruct (pool 1%nat); [|left; reflexivity].
  rewrite T. cbn [orb].
  destruct (negb (preferences_request_fits updates)); [left; reflexivity|].
  destruct (map _ (filter _ _)); [right; reflexivity|].
  unfold findUserProfile, query, ret.
  destruct (pool 2%nat); [|right; reflexivity].
  rewrite T. cbn [user_profiles set_user_preferences].
  destruct (find (of_user userId) (user_profiles db));
    right; reflexivity.
Qed.

(** What [getUserWithProfile] answers, by the statements that are answered
    and the rows they find. *)
Lemma getUserWithProfile_result (pool : Pool) (userId : string) (db : Store) :
  snd (getUserWithProfile pool userId db)
  = if pool 0%nat && is_uuid_text userId then
      match find (has_user_id userId) (users db) with
      | None => Throw user_not_found_error
      | Some u =>
          if pool 1%nat then
            match find (of_user userId) (user_profiles db) with
            | None => Throw profile_not_found
            | Some p =>
                if pool 2%nat then
                  match find (prefs_of_user userId) (user_preferences db) with
                  | None => Throw preferences_not_found
                  | Some q => Ok {| uwp_user := row_user u; uwp_profile := p;
                                    uwp_preferences := q |}
                  end
                else Throw database_error
            end
          else Throw database_error
      end
    else Throw database_error.
Proof.
  unfold getUserWithProfile, bind, findUserById, findUserProfile,
    findUserPreferences, query.
  destruct (pool 0%nat); [|reflexivity].
  destruct (is_uuid_text userId); [|reflexivity]. cbn [andb negb].
  destruct (find (has_user_id userId) (users db)); cbn [option_map];
    [|reflexivity].
  destruct (pool 1%nat); [|reflexivity].
  destruct (find (of_user userId) (user_profiles db)); [|reflexivity].
  destruct (pool 2%nat); [|reflexivity].
  destruct (find (prefs_of_user userId) (user_preferences db)); reflexivity.
Qed.

(** What an [updateProfile] that returned has found and done. *)
Lemma updateProfile_ok_inv (pool : Pool) (now : Z) (userId : string)
    (updates : UpdateProfileRequest) (db db' : Store) (r : UserWithProfile) :
  updateProfile pool now userId updates db = (db', Ok r) ->
  exists u p q,
    is_uuid_text userId = true /\
    find (has_user_id userId) (users db) = Some u /\
    find (of_user userId) (user_profiles db) = Some p /\
    find (prefs_of_user userId) (user_preferences db) = Some q /\
    db' = set_user_profiles db
            (map (fun x => if of_user userId x
                           then set_profile_fields now updates x else x)
                 (user_profiles db)) /\
    r = {| uwp_user := row_user u;
           uwp_profile := set_profile_fields now updates p;
           uwp_preferences := q |}.
Proof.
  unfold updateProfile. unfold bind at 1. unfold findUserById, query.
  destruct (pool 0%nat); [|discriminate].
  destruct (is_uuid_text userId) eqn:T; [|discriminate]. cbn [negb].
  destruct (find (has_user_id userId) (users db)) as [u|] eqn:U;
    [|discriminate]. cbn [option_map].
  unfold bind at 1.
  destruct (pool 1%nat); [|discriminate].
  destruct (profile_request_fits updates) eqn:F;
    [|rewrite updateUserProfile_rejected by (right; exact F); discriminate].
  rewrite updateUserProfile_run by assumption.
  destruct (find (of_user userId) (user_profiles db)) as [p|] eqn:P;
    [|discriminate].
  unfold bind, findUserPreferences, query.
  destruct (pool 2%nat); [|discriminate].
  rewrite T. cbn [negb user_preferences set_user_profiles].
  destruct (find (prefs_of_user userId) (user_preferences db)) as [q|] eqn:Q;
    [|discriminate].
  intros [= <- <-]. exists u, p, q. auto 10.
Qed.

Lemma updatePreferences_ok_inv (pool : Pool) (now : Z) (userId : string)
    (updates : UpdatePreferencesRequest) (db db' : Store)
    (r : UserWithProfile) :
  updatePreferences pool now userId updates db = (db', Ok r) ->
  exists u p q,
    is_uuid_text userId = true /\
    find (has_user_id userId) (users db) = Some u /\
    find (of_user userId) (user_profiles db) = Some p /\
    find (prefs_of_user userId) (user_preferences db) = Some q /\
    db' = set_user_preferences db
            (map (fun x => if prefs_of_user userId x
                           then set_preferences_fields now updates x else x)
                 (user_preferences db)) /\
    r = {| uwp_user := row_user u; uwp_profile := p;
           uwp_preferences := set_preferences_fields now updates q |}.
Proof.
  unfold updatePreferences. unfold bind at 1. unfold findUserById, query.
  destruct (pool 0%nat); [|discriminate].
  destruct (is_uuid_text userId) eqn:T; [|discriminate]. cbn [negb].
  destruct (find (has_user_id userId) (users db)) as [u|] eqn:U;
    [|discriminate]. cbn [option_map].
  unfold bind at 1.
  destruct (pool 1%nat); [|discriminate].
  destruct (preferences_request_fits updates) eqn:F;
    [|rewrite updateUserPreferences_rejected by (right; exact F);
      discriminate].
  rewrite updateUserPreferences_run by assumption.
  destruct (find (prefs_of_user userId) (user_preferences db)) as [q|] eqn:Q;
    [|discriminate].
  unfold bind, findUserProfile, query.
  destruct (pool 2%nat); [|discriminate].
  rewrite T. cbn [negb user_profiles set_user_preferences].
  destruct (find (of_user userId) (user_profiles db)) as [p|] eqn:P;
    [|discriminate].
  intros [= <- <-]. exists u, p, q. auto 10.
Qed.

(** X11. What a successful [updateProfile] or [updatePreferences] returns
    is what [getUserWithProfile] of the same user returns right after (its
    statements answered). *)
Theorem update_then_get :
  forall (pool pool2 : Pool) (now : Z) (userId : string) (db db' : Store)
         (r : UserWithProfile),
    pool2 0%nat = true -> pool2 1%nat = true -> pool2 2%nat = true ->
    (forall updates,
        updateProfile pool now userId updates db = (db', Ok r) ->
        getUserWithProfile pool2 userId db' = (db', Ok r)) /\
    (forall updates,
        updatePreferences pool now userId updates db = (db', Ok r) ->
        getUserWithProfile pool2 userId db' = (db', Ok r)).
Proof.
  intros pool pool2 now userId db db' r P0 P1 P2. split; intros updates R.
  - apply updateProfile_ok_inv in R.
    destruct R as (u & p & q & T & U & P & Q & -> & ->).
    rewrite getUserWithProfile_run by assumption.
    cbn [users user_profiles user_preferences set_user_profiles].
    rewrite U, Q, find_profile_after_update, P. cbn [option_map].
    apply find_some in P. destruct P as [_ P]. rewrite P. reflexivity.
  - apply updatePreferences_ok_inv in R.
    destruct R as (u & p & q & T & U & P & Q & -> & ->).
    rewrite getUserWithProfile_run by assumption.
    cbn [users user_profiles user_preferences set_user_preferences].
    rewrite U, P, find_preferences_after_update, Q. cbn [option_map].
    apply find_some in Q. destruct Q as [_ Q]. rewrite Q. reflexivity.
Qed.

(** X12. An [updateProfile] or [updatePreferences] for one user, however it
    ends, changes nothing of what [getUserWithProfile] returns for a user
    id that is not the same UUID. *)
Theorem update_leaves_other_users :
  forall (pool pool2 : Pool) (now : Z) (userId other : string) (db : Store),
    uuid_eqb other userId = false ->
    (forall updates,
        snd (getUserWithProfile pool2 other
               (fst (updateProfile pool now userId updates db)))
        = snd (getUserWithProfile pool2 other db)) /\
    (forall updates,
        snd (getUserWithProfile pool2 other
               (fst (updatePreferences pool now userId updates db)))
        = snd (getUserWithProfile pool2 other db)).
Proof.
  intros pool pool2 now userId other db N. split; intros updates.
  - destruct (updateProfile_store pool now userId updates db) as [-> | ->];
      [reflexivity|].
    rewrite !getUserWithProfile_result.
    cbn [users user_profiles user_preferences set_user_profiles].
    rewrite find_map_untouched; [reflexivity | |].
    + intros x. destruct (of_user userId x); reflexivity.
    + intros x T. destruct (of_user userId x) eqn:E; [|reflexivity].
      unfold of_user in T, E.
      rewrite (uuid_eqb_sym other userId), <- (uuid_eqb_same _ _ userId T),
        uuid_eqb_sym, E in N.
      discriminate N.
  - destruct (updatePreferences_store pool now userId updates db)
      as [-> | ->]; [reflexivity|].
    rewrite !getUserWithProfile_result.
    cbn [users user_profiles user_preferences set_user_preferences].
    rewrite find_map_untouched; [reflexivity | |].
    + intros x. destruct (prefs_of_user userId x); reflexivity.
    + intros x T. destruct (prefs_of_user userId x) eqn:E; [|reflexivity].
      unfold prefs_of_user in T, E.
      rewrite (uuid_eqb_sym other userId), <- (uuid_eqb_same _ _ userId T),
        uuid_eqb_sym, E in N.
      discriminate N.
Qed.

(** X13. [updateProfile] writes before it checks the preferences: for an
    account with a profile and without preferences, and a request whose
    values fit their columns, it fails with [USER_NOT_FOUND] ("User
    preferences not found") and the profile is updated all the same.
    [updatePreferences] does the same with the roles exchanged. *)
Theorem update_written_before_failure :
  forall (pool : Pool) (now : Z) (userId : string) (db : Store) (u : UserRow),
    pool 0%nat = true -> pool 1%nat = true -> pool 2%nat = true ->
    find (has_user_id userId) (users db) = Some u ->
    (forall updates p,
        profile_request_fits updates = true ->
        find (of_user userId) (user_profiles db) = Some p ->
        find (prefs_of_user userId) (user_preferences db) = None ->
        snd (updateProfile pool now userId updates db)
        = Throw preferences_not_found /\
        snd (findUserProfile true userId
               (fst (updateProfile pool now userId updates db)))
        = Ok (Some (set_profile_fields now updates p))) /\
    (forall updates q,
        preferences_request_fits updates = true ->
        find (prefs_of_user userId) (user_preferences db) = Some q ->
        find (of_user userId) (user_profiles db) = None ->
        snd (updatePreferences pool now userId updates db)
        = Throw profile_not_found /\
        snd (findUserPreferences true userId
               (fst (updatePreferences pool now userId updates db)))
        = Ok (Some (set_preferences_fields now updates q))).
Proof.
  intros pool now userId db u P0 P1 P2 U.
  pose proof (find_has_user_id_text _ _ _ U) as T.
  split.
  - intros updates p F P Q.
    rewrite updateProfile_run, U, P, Q by assumption.
    unfold findUserProfile. rewrite query_answered, T.
    cbn [fst snd negb user_profiles set_user_profiles]. split; [reflexivity|].
    rewrite find_profile_after_update, P. cbn [option_map].
    apply find_some in P. destruct P as [_ P]. rewrite P. reflexivity.
  - intros updates q F Q P.
    rewrite updatePreferences_run, U, P, Q by assumption.
    unfold findUserPreferences. rewrite query_answered, T.
    cbn [fst snd negb user_preferences set_user_preferences].
    split; [reflexivity|].
    rewrite find_preferences_after_update, Q. cbn [option_map].
    apply find_some in Q. destruct Q as [_ Q]. rewrite Q. reflexivity.
Qed.

(* ------------------------------------------------------------------ *)
(** ** The reset ticket lookup and the outcomes of [resetPassword] *)

Lemma most_recent_none (rows : list PasswordResetToken) :
  most_recent rows = None <-> rows = [].
Proof.
  destruct rows as [|t rest]; simpl; [tauto|].
  split; [|discriminate].
  destruct (most_recent rest) as [t'|]; [|discriminate].
  destruct (prt_created_at t <? prt_created_at t'); discriminate.
Qed.

Lemma most_recent_newest (rows : list PasswordResetToken)
    (t : PasswordResetToken) :
  most_recent rows = Some t ->
  In t rows /\ forall x, In x rows -> prt_created_at x <= prt_created_at t.
Proof.
  revert t. induction rows as [|a rest IH]; simpl; [discriminate|].
  intros t. destruct (most_recent rest) as [t'|] eqn:E.
  - destruct (IH t' eq_refl) as [I Max].
    destruct (Z.ltb_spec (prt_created_at a) (prt_created_at t')) as [L|L];
      intros [= <-].
    + split; [right; exact I|]. intros x [<-|Ix]; [lia | now apply Max].
    + split; [left; reflexivity|]. intros x [<-|Ix]; [lia|].
      specialize (Max x Ix). lia.
  - intros [= <-]. apply most_recent_none in E. subst rest.
    split; [left; reflexivity|]. intros x [<-|[]]. lia.
Qed.

Lemma live_ticket_iff (now : Z) (h : Digest) (t : PasswordResetToken) :
  live_ticket now h t = true <-> token_hash t = h /\ now < expires_at t.
Proof.
  unfold live_ticket. rewrite andb_true_iff, Digest_eqb_eq, Z.ltb_lt. tauto.
Qed.

(** X14. [findPasswordResetToken], answered, returns a stored ticket with
    the digest asked for and an expiry after the lookup time, and no
    stored ticket with that digest and an expiry after the lookup time
    was created later; it returns [null] exactly when there is no such
    ticket.  Not answered, it fails with [DATABASE_ERROR].  It leaves the
    store as it is. *)
Theorem findPasswordResetToken_newest_live :
  forall (now : Z) (tokenHash : Digest) (db : Store),
    (forall answered,
        fst (findPasswordResetToken answered now tokenHash db) = db) /\
    (forall t,
        snd (findPasswordResetToken true now tokenHash db) = Ok (Some t) ->
        In t (password_reset_tokens db) /\
        token_hash t = tokenHash /\ now < expires_at t /\
        forall x, In x (password_reset_tokens db) ->
                  token_hash x = tokenHash -> now < expires_at x ->
                  prt_created_at x <= prt_created_at t) /\
    (snd (findPasswordResetToken true now tokenHash db) = Ok None <->
     forall x, In x (password_reset_tokens db) ->
               token_hash x = tokenHash -> expires_at x <= now) /\
    snd (findPasswordResetToken false now tokenHash db)
    = Throw database_error.
Proof.
  intros now tokenHash db. unfold findPasswordResetToken.
  rewrite query_answered. cbn [fst snd].
  split; [intros [|]; reflexivity|]. split; [|split; [|reflexivity]].
  - intros t [= E]. apply most_recent_newest in E. destruct E as [I Max].
    apply filter_In in I. destruct I as [I L].
    apply live_ticket_iff in L. destruct L as [Hh Hl].
    repeat split; try assumption.
    intros x Ix Hx Lx. apply Max. apply filter_In. split; [exact Ix|].
    now apply live_ticket_iff.
  - split.
    + intros [= E]. apply most_recent_none in E.
      intros x Ix Hx.
      destruct (Z.le_gt_cases (expires_at x) now) as [L|L]; [exact L|].
      exfalso.
      assert (I : In x (filter (live_ticket now tokenHash)
                               (password_reset_tokens db))).
      { apply filter_In. split; [exact Ix|]. apply live_ticket_iff.
        split; [exact Hx | lia]. }
      rewrite E in I. exact I.
    + intros K. f_equal. f_equal. apply most_recent_none.
      apply filter_nil_forall. intros x Ix.
      destruct (live_ticket now tokenHash x) eqn:L; [|reflexivity].
      apply live_ticket_iff in L. destruct L as [Hh Hl].
      specialize (K x Ix Hh). lia.
Qed.

Section Outcomes.
Context `{Primitives} `{Config}.

(** The run of [resetPassword] by the statements that are answered and
    what its lookup returns. *)
Lemma resetPassword_run (pool : Pool) (d : ResetDraws)
    (data : PasswordResetConfirm) (db : Store) :
  let tokenHash :=
    bcrypt_hash (prc_token data) SALT_ROUNDS (sd_token_salt d) in
  resetPassword pool d data db
  = if negb (validatePassword (prc_newPassword data))
    then (db, Throw weak_password_error)
    else if negb (pool 0%nat) then (db, Throw database_error)
    else
      match snd (findPasswordResetToken true (sd_lookup_now d) tokenHash db)
      with
      | Ok (Some t) =>
          if expires_at t <? sd_date_now d
          then (db, Throw reset_token_expired_error)
          else if negb (pool 1%nat && is_uuid_text (prt_user_id t))
          then (db, Throw database_error)
          else
            let updated :=
              map (fun r =>
                     if has_user_id (prt_user_id t) r
                     then set_password (sd_update_now d)
                            (bcrypt_hash (prc_newPassword data) SALT_ROUNDS
                                         (sd_password_salt d)) r
                     else r) (users db) in
            if negb (pool 2%nat)
            then (set_users db updated, Throw database_error)
            else
              ({| users := updated;
                  user_profiles := user_profiles db;
                  user_preferences := user_preferences db;
                  password_reset_tokens :=
                    filter (fun x => negb (Digest_eqb (token_hash x)
                                                      tokenHash))
                           (password_reset_tokens db) |},
               Ok reset_message_done)
      | _ => (db, Throw invalid_reset_token_error)
      end.
Proof.
  intros tokenHash. unfold resetPassword.
  destruct (negb (validatePassword (prc_newPassword data))); [reflexivity|].
  unfold bind at 1. unfold findPasswordResetToken, query. cbn [snd].
  fold tokenHash.
  destruct (pool 0%nat); [|reflexivity]. cbn [negb].
  destruct (most_recent _) as [t|]; [|reflexivity].
  destruct (expires_at t <? sd_date_now d); [reflexivity|].
  unfold bind, updateUserPassword, deletePasswordResetToken, query.
  destruct (pool 1%nat); [|reflexivity].
  destruct (is_uuid_text (prt_user_id t)); [|reflexivity]. cbn [negb andb].
  destruct (pool 2%nat); reflexivity.
Qed.

(** X15. The outcomes of [resetPassword], in the order it decides them: a
    new password shorter than 8 fails [WEAK_PASSWORD] whatever the token;
    otherwise, the lookup answered, no stored ticket with the digest
    computed for the token and an expiry after the lookup time fails
    [INVALID_RESET_TOKEN]; otherwise, the newest such ticket having
    expired by the time of the re-check fails [RESET_TOKEN_EXPIRED];
    otherwise the call succeeds when the update and the deletion are
    answered.  A failure leaves the store as it was, except when the
    deletion is the statement that fails: then the call ends with
    [DATABASE_ERROR], the password changed and the ticket still stored. *)
Theorem resetPassword_outcomes :
  forall (pool : Pool) (d : ResetDraws) (data : PasswordResetConfirm)
         (db : Store),
    let lookup :=
      snd (findPasswordResetToken true (sd_lookup_now d)
             (bcrypt_hash (prc_token data) SALT_ROUNDS (sd_token_salt d)) db) in
    ((String.length (prc_newPassword data) < 8)%nat ->
     resetPassword pool d data db = (db, Throw weak_password_error)) /\
    ((8 <= String.length (prc_newPassword data))%nat ->
     pool 0%nat = true ->
     lookup = Ok None ->
     resetPassword pool d data db = (db, Throw invalid_reset_token_error)) /\
    ((8 <= String.length (prc_newPassword data))%nat ->
     pool 0%nat = true ->
     forall t, lookup = Ok (Some t) -> expires_at t < sd_date_now d ->
     resetPassword pool d data db = (db, Throw reset_token_expired_error)) /\
    ((8 <= String.length (prc_newPassword data))%nat ->
     pool 0%nat = true -> pool 1%nat = true -> pool 2%nat = true ->
     forall t, lookup = Ok (Some t) -> sd_date_now d <= expires_at t ->
     is_uuid_text (prt_user_id t) = true ->
     snd (resetPassword pool d data db) = Ok reset_message_done) /\
    (forall e, snd (resetPassword pool d data db) = Throw e ->
               code e <> DATABASE_ERROR \/ pool 2%nat = true ->
               fst (resetPassword pool d data db) = db) /\
    ((8 <= String.length (prc_newPassword data))%nat ->
     pool 0%nat = true -> pool 1%nat = true -> pool 2%nat = false ->
     forall t, lookup = Ok (Some t) -> sd_date_now d <= expires_at t ->
     is_uuid_text (prt_user_id t) = true ->
     resetPassword pool d data db
     = (set_users db
          (map (fun r =>
                  if has_user_id (prt_user_id t) r
                  then set_password (sd_update_now d)
                         {| dg_rounds := 10; dg_salt := sd_password_salt d;
                            dg_hash := bcrypt_kdf 10 (sd_password_salt d)
                                         (prc_newPassword data) |} r
                  else r) (users db)),
        Throw database_error)).
Proof.
  intros pool d data db lookup. rewrite resetPassword_run. fold lookup.
  split; [|split; [|split; [|split; [|split]]]].
  - intros S. apply validatePassword_short in S. rewrite S. reflexivity.
  - intros L P0 E. apply validatePassword_length in L.
    rewrite L, P0, E. reflexivity.
  - intros L P0 t E X. apply validatePassword_length in L.
    rewrite L, P0, E.
    cbn [negb]. destruct (Z.ltb_spec (expires_at t) (sd_date_now d));
      [reflexivity | lia].
  - intros L P0 P1 P2 t E X T. apply validatePassword_length in L.
    rewrite L, P0, P1, P2, E, T.
    cbn [negb andb]. destruct (Z.ltb_spec (expires_at t) (sd_date_now d));
      [lia | reflexivity].
  - intros e. destruct (negb _); [reflexivity|].
    destruct (negb (pool 0%nat)); [reflexivity|].
    destruct lookup as [[t|]|e']; try reflexivity.
    destruct (expires_at t <? sd_date_now d); [reflexivity|].
    destruct (negb (pool 1%nat && _)); [reflexivity|].
    cbv zeta. destruct (pool 2%nat); cbn [negb snd fst].
    + discriminate.
    + intros [= <-] [N|N]; [now elim N | discriminate N].
  - intros L P0 P1 P2 t E X T. apply validatePassword_length in L.
    rewrite L, P0, P1, P2, E, T.
    cbn [negb andb]. destruct (Z.ltb_spec (expires_at t) (sd_date_now d));
      [lia | reflexivity].
Qed.

Lemma has_email_set_password (now : Z) (h : Digest) (userId email : string)
    (r : UserRow) :
  has_email email
    (if has_user_id userId r then set_password now h r else r)
  = has_email email r.
Proof. destruct (has_user_id userId r); reflexivity. Qed.

(** X16. After a successful [resetPassword], the account the consumed
    ticket belongs to logs in with the new password, and a login to any
    other account gives what it gave before. *)
Theorem login_after_reset :
  forall (pool pool2 : Pool) (d : ResetDraws) (data : PasswordResetConfirm)
         (db db' : Store) (m : string) (clock clock_refresh : Z)
         (login : LoginRequest) (row : UserRow),
    resetPassword pool d data db = (db', Ok m) ->
    validateEmail (login_email login) = true ->
    find (has_email (login_email login)) (users db) = Some row ->
    exists t,
      snd (findPasswordResetToken true (sd_lookup_now d)
             (bcrypt_hash (prc_token data) SALT_ROUNDS (sd_token_salt d)) db)
      = Ok (Some t) /\
      (has_user_id (prt_user_id t) row = true ->
       login_password login = prc_newPassword data ->
       pool2 0%nat = true ->
       exists logged,
         snd (loginUser pool2 clock clock_refresh login db') = Ok logged /\
         user_id (auth_user logged) = user_id (row_user row) /\
         user_email (auth_user logged) = user_email (row_user row) /\
         user_username (auth_user logged) = user_username (row_user row) /\
         uuid_eqb (user_id (auth_user logged)) (prt_user_id t) = true) /\
      (has_user_id (prt_user_id t) row = false ->
       snd (loginUser pool2 clock clock_refresh login db')
       = snd (loginUser pool2 clock clock_refresh login db)).
Proof.
  intros pool pool2 d data db db' m clock clock_refresh login row R V F.
  rewrite resetPassword_run in R.
  destruct (negb (validatePassword (prc_newPassword data))); [discriminate|].
  destruct (negb (pool 0%nat)); [discriminate|].
  destruct (snd (findPasswordResetToken _ _ _ db)) as [[t|]|e];
    try discriminate.
  destruct (expires_at t <? sd_date_now d); [discriminate|].
  destruct (negb (pool 1%nat && _)); [discriminate|].
  cbv zeta in R. destruct (negb (pool 2%nat)); [discriminate|].
  injection R as <- _.
  exists t. split; [reflexivity|].
  split.
  - intros Same Pw P2.
    rewrite loginUser_run by assumption.
    cbn [users]. rewrite find_map_same_test
      by (intros x; apply has_email_set_password).
    rewrite F. cbn [option_map]. rewrite Same.
    cbn [set_password password_hash]. rewrite Pw, bcrypt_compare_hash.
    eexists. split; [reflexivity|].
    cbn [snd auth_user set_password row_user user_id user_email
           user_username]. auto.
  - intros Other. unfold loginUser. rewrite V. cbn [negb].
    unfold bind, findUserWithPassword, query.
    destruct (pool2 0%nat); [|reflexivity]. cbn [users].
    rewrite find_map_same_test by (intros x; apply has_email_set_password).
    rewrite F. cbn [option_map]. rewrite Other.
    destruct (negb _); reflexivity.
Qed.

End Outcomes.

(* ------------------------------------------------------------------ *)
(** ** The errors an operation can end with *)

Lemma throws_only_ret {A} (allowed : list ErrorCodes) (a : A) :
  throws_only allowed (ret a).
Proof. intros db e. discriminate. Qed.

Lemma throws_only_throw {A} (allowed : list ErrorCodes) (e : ServiceError) :
  In (code e) allowed -> throws_only allowed (@throw A e).
Proof. intros I db e' [= <-]. exact I. Qed.

Lemma throws_only_bind {A B} (allowed : list ErrorCodes) (m : M A)
    (k : A -> M B) :
  throws_only allowed m -> (forall a, throws_only allowed (k a)) ->
  throws_only allowed (bind m k).
Proof.
  intros Hm Hk db e. unfold bind. specialize (Hm db).
  destruct (m db) as [db' [a|e']]; cbn [snd] in *.
  - apply Hk.
  - intros [= <-]. now apply Hm.
Qed.

(** A statement ends with its rows or with [DATABASE_ERROR]. *)
Lemma throws_only_query {A} (allowed : list ErrorCodes) (answered : bool)
    (statement : M A) :
  In DATABASE_ERROR allowed ->
  (forall db, snd (statement db) = Throw database_error
              \/ exists a, snd (statement db) = Ok a) ->
  throws_only allowed (query answered statement).
Proof.
  intros I K db e. unfold query. destruct answered.
  - destruct (K db) as [T|(a & T)]; rewrite T; [|discriminate].
    intros [= <-]. exact I.
  - intros [= <-]. exact I.
Qed.

Ltac statement_outcome :=
  apply throws_only_query; [simpl; tauto|];
  let db := fresh "db" in
  intros db; try destruct (_ || _); try destruct (negb _); cbn [snd]; eauto.

Lemma throws_only_findUserByEmail (allowed : list ErrorCodes) (a : bool)
    (email : string) :
  In DATABASE_ERROR allowed -> throws_only allowed (findUserByEmail a email).
Proof. intros I. apply throws_only_query; [exact I|]. cbn [snd]. eauto. Qed.

Lemma throws_only_findUserByUsername (allowed : list ErrorCodes) (a : bool)
    (username : string) :
  In DATABASE_ERROR allowed ->
  throws_only allowed (findUserByUsername a username).
Proof. intros I. apply throws_only_query; [exact I|]. cbn [snd]. eauto. Qed.

Lemma throws_only_findUserWithPassword (allowed : list ErrorCodes) (a : bool)
    (email : string) :
  In DATABASE_ERROR allowed ->
  throws_only allowed (findUserWithPassword a email).
Proof. intros I. apply throws_only_query; [exact I|]. cbn [snd]. eauto. Qed.

Lemma throws_only_findUserById (allowed : list ErrorCodes) (a : bool)
    (userId : string) :
  In DATABASE_ERROR allowed -> throws_only allowed (findUserById a userId).
Proof.
  intros I. apply throws_only_query; [exact I|]. intros db.
  destruct (negb _); cbn [snd]; eauto.
Qed.

Lemma throws_only_findUserProfile (allowed : list ErrorCodes) (a : bool)
    (userId : string) :
  In DATABASE_ERROR allowed -> throws_only allowed (findUserProfile a userId).
Proof.
  intros I. apply throws_only_query; [exact I|]. intros db.
  destruct (negb _); cbn [snd]; eauto.
Qed.

Lemma throws_only_findUserPreferences (allowed : list ErrorCodes) (a : bool)
    (userId : string) :
  In DATABASE_ERROR allowed ->
  throws_only allowed (findUserPreferences a userId).
Proof.
  intros I. apply throws_only_query; [exact I|]. intros db.
  destruct (negb _); cbn [snd]; eauto.
Qed.

Lemma throws_only_updateUserProfile (allowed : list ErrorCodes) (a : bool)
    (now : Z) (userId : string) (updates : UpdateProfileRequest) :
  In DATABASE_ERROR allowed -> In USER_NOT_FOUND allowed ->
  throws_only allowed (updateUserProfile a now userId updates).
Proof.
  intros I J. apply throws_only_bind.
  - apply throws_only_query; [exact I|]. intros db.
    destruct (_ || _); cbn [snd]; eauto.
  - intros [|row rows]; [now apply throws_only_throw | apply throws_only_ret].
Qed.

Lemma throws_only_updateUserPreferences (allowed : list ErrorCodes) (a : bool)
    (now : Z) (userId : string) (updates : UpdatePreferencesRequest) :
  In DATABASE_ERROR allowed -> In USER_NOT_FOUND allowed ->
  throws_only allowed (updateUserPreferences a now userId updates).
Proof.
  intros I J. apply throws_only_bind.
  - apply throws_only_query; [exact I|]. intros db.
    destruct (_ || _); cbn [snd]; eauto.
  - intros [|row rows]; [now apply throws_only_throw | apply throws_only_ret].
Qed.

Section ErrorKinds.
Context `{Primitives} `{Config}.

(** X17. Whenever an operation of the service throws, the error kind is
    among these: for [registerUser] the two validation errors, the two
    conflicts and [DATABASE_ERROR]; for [loginUser] [INVALID_EMAIL],
    [INVALID_CREDENTIALS] and [DATABASE_ERROR]; for [refreshAccessToken]
    [EXPIRED_TOKEN], [INVALID_TOKEN], [USER_NOT_FOUND] and
    [DATABASE_ERROR]; for the three profile operations [USER_NOT_FOUND]
    and [DATABASE_ERROR]; for [requestPasswordReset] [DATABASE_ERROR];
    for [resetPassword] [WEAK_PASSWORD], [INVALID_RESET_TOKEN],
    [RESET_TOKEN_EXPIRED] and [DATABASE_ERROR]. *)
Theorem service_error_kinds :
  (forall pool d data,
      throws_only [INVALID_EMAIL; WEAK_PASSWORD; EMAIL_TAKEN; USERNAME_TAKEN;
                   DATABASE_ERROR] (registerUser pool d data)) /\
  (forall pool clock clock_refresh data,
      throws_only [INVALID_EMAIL; INVALID_CREDENTIALS; DATABASE_ERROR]
                  (loginUser pool clock clock_refresh data)) /\
  (forall pool clock_verify clock_sign tok,
      throws_only [EXPIRED_TOKEN; INVALID_TOKEN; USER_NOT_FOUND;
                   DATABASE_ERROR]
                  (refreshAccessToken pool clock_verify clock_sign tok)) /\
  (forall pool userId,
      throws_only [USER_NOT_FOUND; DATABASE_ERROR]
                  (getUserWithProfile pool userId)) /\
  (forall pool now userId updates,
      throws_only [USER_NOT_FOUND; DATABASE_ERROR]
                  (updateProfile pool now userId updates)) /\
  (forall pool now userId updates,
      throws_only [USER_NOT_FOUND; DATABASE_ERROR]
                  (updatePreferences pool now userId updates)) /\
  (forall pool d data,
      throws_only [DATABASE_ERROR] (requestPasswordReset pool d data)) /\
  (forall pool d data,
      throws_only [WEAK_PASSWORD; INVALID_RESET_TOKEN; RESET_TOKEN_EXPIRED;
                   DATABASE_ERROR]
                  (resetPassword pool d data)).
Proof.
  split; [|split; [|split; [|split; [|split; [|split; [|split]]]]]]; intros.
  - unfold registerUser.
    destruct (negb _); [apply throws_only_throw; simpl; tauto|].
    destruct (negb _); [apply throws_only_throw; simpl; tauto|].
    apply throws_only_bind;
      [apply throws_only_findUserByEmail; simpl; tauto|].
    intros [x|]; [apply throws_only_throw; simpl; tauto|].
    apply throws_only_bind;
      [apply throws_only_findUserByUsername; simpl; tauto|].
    intros [x|]; [apply throws_only_throw; simpl; tauto|].
    apply throws_only_bind; [unfold createUser; statement_outcome|].
    intros user.
    apply throws_only_bind; [unfold createUserProfile; statement_outcome|].
    intros _.
    apply throws_only_bind;
      [unfold createUserPreferences; statement_outcome|].
    intros _. apply throws_only_ret.
  - unfold loginUser.
    destruct (negb _); [apply throws_only_throw; simpl; tauto|].
    apply throws_only_bind;
      [apply throws_only_findUserWithPassword; simpl; tauto|].
    intros [row|]; [|apply throws_only_throw; simpl; tauto].
    destruct (negb _);
      [apply throws_only_throw; simpl; tauto | apply throws_only_ret].
  - unfold refreshAccessToken.
    destruct (validateToken clock_verify tok) as [v|e] eqn:E.
    + destruct (_ || _); [apply throws_only_throw; simpl; tauto|].
      apply throws_only_bind;
        [apply throws_only_findUserById; simpl; tauto|].
      intros [u|];
        [apply throws_only_ret | apply throws_only_throw; simpl; tauto].
    + apply throws_only_throw.
      destruct (validateToken_throws _ _ _ E) as [[-> _] | ->]; simpl; tauto.
  - unfold getUserWithProfile.
    apply throws_only_bind; [apply throws_only_findUserById; simpl; tauto|].
    intros [u|]; [|apply throws_only_throw; simpl; tauto].
    apply throws_only_bind;
      [apply throws_only_findUserProfile; simpl; tauto|].
    intros [p|]; [|apply throws_only_throw; simpl; tauto].
    apply throws_only_bind;
      [apply throws_only_findUserPreferences; simpl; tauto|].
    intros [q|];
      [apply throws_only_ret | apply throws_only_throw; simpl; tauto].
  - unfold updateProfile.
    apply throws_only_bind; [apply throws_only_findUserById; simpl; tauto|].
    intros [u|]; [|apply throws_only_throw; simpl; tauto].
    apply throws_only_bind;
      [apply throws_only_updateUserProfile; simpl; tauto|].
    intros p. apply throws_only_bind;
      [apply throws_only_findUserPreferences; simpl; tauto|].
    intros [q|];
      [apply throws_only_ret | apply throws_only_throw; simpl; tauto].
  - unfold updatePreferences.
    apply throws_only_bind; [apply throws_only_findUserById; simpl; tauto|].
    intros [u|]; [|apply throws_only_throw; simpl; tauto].
    apply throws_only_bind;
      [apply throws_only_updateUserPreferences; simpl; tauto|].
    intros q. apply throws_only_bind;
      [apply throws_only_findUserProfile; simpl; tauto|].
    intros [p|];
      [apply throws_only_ret | apply throws_only_throw; simpl; tauto].
  - unfold requestPasswordReset.
    apply throws_only_bind;
      [apply throws_only_findUserByEmail; simpl; tauto|].
    intros [u|]; [|apply throws_only_ret].
    apply throws_only_bind; [|intros _; apply throws_only_ret].
    unfold createPasswordResetToken. statement_outcome.
  - unfold resetPassword.
    destruct (negb _); [apply throws_only_throw; simpl; tauto|].
    apply throws_only_bind.
    { unfold findPasswordResetToken. statement_outcome. }
    intros [t|]; [|apply throws_only_throw; simpl; tauto].
    destruct (_ <? _); [apply throws_only_throw; simpl; tauto|].
    apply throws_only_bind; [unfold updateUserPassword; statement_outcome|].
    intros _.
    apply throws_only_bind;
      [unfold deletePasswordResetToken; statement_outcome|].
    intros _. apply throws_only_ret.
Qed.

End ErrorKinds.

(* ------------------------------------------------------------------ *)
(** ** The middleware and the routes *)

Lemma substring_0_length (s : string) :
  String.substring 0 (String.length s) s = s.
Proof. induction s as [|c s IH]; simpl; [reflexivity | now rewrite IH]. Qed.

Lemma substring_from_append (p t : string) :
  substring_from (String.length p) (p ++ t) = t.
Proof.
  unfold substring_from. induction p as [|c p IH]; simpl.
  - rewrite Nat.sub_0_r. apply substring_0_length.
  - exact IH.
Qed.

Lemma prefix_append (p t : string) : String.prefix p (p ++ t) = true.
Proof.
  induction p as [|c p IH]; simpl; [destruct t; reflexivity|].
  destruct (ascii_dec c c) as [_|N]; [exact IH | contradiction].
Qed.

Lemma prefix_split (p s : string) :
  String.prefix p s = true -> s = p ++ substring_from (String.length p) s.
Proof.
  revert s. induction p as [|c p IH]; intros s.
  - intros _. unfold substring_from. simpl. rewrite Nat.sub_0_r.
    symmetry. apply substring_0_length.
  - destruct s as [|b s]; simpl; [discriminate|].
    destruct (ascii_dec c b) as [->|_]; [|discriminate].
    intros E. f_equal. apply IH in E. exact E.
Qed.

Lemma startsWith_bearer (authHeader : string) :
  startsWith authHeader "Bearer " = true
  <-> authHeader = bearer (substring_from 7 authHeader).
Proof.
  unfold startsWith, bearer. split.
  - apply (prefix_split "Bearer ").
  - intros ->. apply prefix_append.
Qed.

Section Routes.
Context `{Primitives} `{Config} `{Compact}.

Lemma validateToken_ok (clock : Z) (tok : Token) (v : ValidationResponse) :
  validateToken clock tok = Ok v ->
  exists c, tok = Jws c (hs256 JWT_SECRET c) /\ clock < exp c /\
            v = identity (tp_userId (claims_payload c))
                         (tp_email (claims_payload c))
                         (tp_username (claims_payload c)).
Proof.
  unfold validateToken. destruct tok as [raw|c sig]; simpl; [discriminate|].
  destruct (String.eqb_spec sig (hs256 JWT_SECRET c)) as [->|_];
    [|discriminate].
  destruct (Z.leb_spec (exp c) clock) as [L|L]; [discriminate|].
  intros [= <-]. exists c. auto.
Qed.

(** [authenticate] on a header that carries a bearer token. *)
Lemma authenticate_bearer (clock : Z) (token : string) :
  authenticate clock (Some (bearer token))
  = match validateToken clock (from_compact token) with
    | Ok v => inl {| au_userId := unwrap (vr_userId v);
                     au_email := unwrap (vr_email v);
                     au_username := unwrap (vr_username v) |}
    | Throw e => inr (error_response e)
    end.
Proof.
  unfold authenticate.
  replace (String.eqb (bearer token) "") with false by reflexivity.
  replace (startsWith (bearer token) "Bearer ") with true
    by (symmetry; apply (prefix_append "Bearer ")).
  cbn [orb negb].
  replace (substring_from 7 (bearer token)) with token
    by (symmetry; apply (substring_from_append "Bearer ")).
  destruct (validateToken clock (from_compact token)) as [v|e] eqn:E;
    [|reflexivity].
  apply validateToken_ok in E. destruct E as (c & _ & _ & ->). reflexivity.
Qed.

(** [authenticate] on anything else. *)
Lemma authenticate_no_bearer (clock : Z) (authorization : option string) :
  (forall token, authorization <> Some (bearer token)) ->
  authenticate clock authorization = inr (error_response missing_header_error).
Proof.
  intros N. unfold authenticate. destruct authorization as [h|]; [|reflexivity].
  destruct (String.eqb h ""); [reflexivity|].
  destruct (startsWith h "Bearer ") eqn:S; [|reflexivity].
  apply startsWith_bearer in S. exfalso. apply (N (substring_from 7 h)).
  congruence.
Qed.

(** X18. [authenticate] lets a request through exactly when its
    Authorization header is "Bearer " followed by a token that
    [validateToken] accepts, and [req.user] is then the identity of that
    token.  Every other request is answered with status 401: with
    [UNAUTHORIZED] when the header is missing or is not of that form, and
    with the error of [validateToken] ([EXPIRED_TOKEN] or [INVALID_TOKEN])
    when the token is rejected. *)
Theorem authenticate_outcomes :
  forall (clock : Z) (authorization : option string),
    (forall user,
        authenticate clock authorization = inl user <->
        exists token,
          authorization = Some (bearer token) /\
          validateToken clock (from_compact token)
          = Ok (identity (au_userId user) (au_email user) (au_username user))) /\
    (forall response,
        authenticate clock authorization = inr response ->
        status response = 401 /\
        ((forall token, authorization <> Some (bearer token)) /\
         response = error_response missing_header_error
         \/
         exists token e,
           authorization = Some (bearer token) /\
           validateToken clock (from_compact token) = Throw e /\
           response = error_response e /\
           (e = expired_token_error \/ e = invalid_token_error))).
Proof.
  intros clock authorization.
  assert (Cases : (exists token, authorization = Some (bearer token)) \/
                  (forall token, authorization <> Some (bearer token))).
  { destruct authorization as [h|]; [|right; discriminate].
    destruct (startsWith h "Bearer ") eqn:S.
    - left. apply startsWith_bearer in S.
      exists (substring_from 7 h). f_equal. exact S.
    - right. intros token [= ->].
      unfold startsWith, bearer in S.
      rewrite (prefix_append "Bearer ") in S. discriminate. }
  split.
  - intros user. split.
    + intros A. destruct Cases as [(token & ->)|N].
      * exists token. split; [reflexivity|].
        rewrite authenticate_bearer in A.
        destruct (validateToken clock (from_compact token)) as [v|e] eqn:E;
          [|discriminate].
        apply validateToken_ok in E. destruct E as (c & _ & _ & ->).
        injection A as <-. reflexivity.
      * rewrite (authenticate_no_bearer _ _ N) in A. discriminate.
    + intros (token & -> & V). rewrite authenticate_bearer, V.
      destruct user. reflexivity.
  - intros response A. destruct Cases as [(token & ->)|N].
    + rewrite authenticate_bearer in A.
      destruct (validateToken clock (from_compact token)) as [v|e] eqn:E;
        [discriminate|].
      injection A as <-.
      assert (K : e = expired_token_error \/ e = invalid_token_error).
      { destruct (validateToken_throws _ _ _ E) as [[-> _] | ->]; auto. }
      split; [destruct K as [-> | ->]; reflexivity|].
      right. exists token, e. auto.
    + rewrite (authenticate_no_bearer _ _ N) in A. injection A as <-.
      split; [reflexivity|]. left. auto.
Qed.

(** X19. The three protected routes, [GET /users/:userId],
    [PUT /users/:userId/profile] and [PUT /users/:userId/preferences]:
    a request the middleware rejects gets the middleware's answer; a
    bearer token that verifies to another user id than the one in the path
    gets 403 [UNAUTHORIZED] "Access denied", whether or not the path's
    user exists; in both cases no statement is sent and the store is not
    touched.  Only a token that verifies to the path's user id reaches
    the service. *)
Theorem protected_routes_guard :
  forall (pool : Pool) (clock now : Z) (authorization : option string)
         (userId : string) (profileUpdates : UpdateProfileRequest)
         (preferencesUpdates : UpdatePreferencesRequest) (db : Store),
    (forall response,
        authenticate clock authorization = inr response ->
        get_user pool clock authorization userId db = (db, response) /\
        put_user_profile pool clock now authorization userId profileUpdates db
        = (db, response) /\
        put_user_preferences pool clock now authorization userId
          preferencesUpdates db = (db, response)) /\
    (forall token tokenUser email username,
        authorization = Some (bearer token) ->
        validateToken clock (from_compact token)
        = Ok (identity tokenUser email username) ->
        tokenUser <> userId ->
        get_user pool clock authorization userId db = (db, access_denied) /\
        put_user_profile pool clock now authorization userId profileUpdates db
        = (db, access_denied) /\
        put_user_preferences pool clock now authorization userId
          preferencesUpdates db = (db, access_denied)) /\
    (forall token email username,
        authorization = Some (bearer token) ->
        validateToken clock (from_compact token)
        = Ok (identity userId email username) ->
        get_user pool clock authorization userId db
        = respond 200 UserBody (getUserWithProfile pool userId db) /\
        put_user_profile pool clock now authorization userId profileUpdates db
        = respond 200 UserBody
            (updateProfile pool now userId profileUpdates db) /\
        put_user_preferences pool clock now authorization userId
          preferencesUpdates db
        = respond 200 UserBody
            (updatePreferences pool now userId preferencesUpdates db)).
Proof.
  intros pool clock now authorization userId profileUpdates
         preferencesUpdates db.
  unfold get_user, put_user_profile, put_user_preferences.
  split; [|split].
  - intros response ->. auto.
  - intros token tokenUser email username -> V N.
    rewrite authenticate_bearer, V. cbn [identity vr_userId unwrap au_userId].
    destruct (String.eqb_spec tokenUser userId) as [E|_]; [contradiction|].
    auto.
  - intros token email username -> V.
    rewrite authenticate_bearer, V. cbn [identity vr_userId unwrap au_userId].
    rewrite String.eqb_refl. auto.
Qed.

(** X20. [POST /auth/validate]: a missing or empty token gets 400
    [INVALID_TOKEN] "Token is required"; a token [validateToken] accepts
    gets 200 with [valid: true] and the token's identity; a token it
    rejects gets 401 with [EXPIRED_TOKEN] or [INVALID_TOKEN].  No answer
    with [valid: false] is ever sent. *)
Theorem validate_route_outcomes :
  forall (clock : Z) (token : option string),
    let response := post_auth_validate clock token in
    ((token = None \/ token = Some "") -> response = token_required) /\
    (forall t, token = Some t -> t <> "" ->
       (forall v, validateToken clock (from_compact t) = Ok v ->
                  response = {| status := 200; body := ValidationBody v |}) /\
       (forall e, validateToken clock (from_compact t) = Throw e ->
                  response = error_response e /\ status response = 401)) /\
    (forall v, body response = ValidationBody v ->
               status response = 200 /\ valid v = true /\
               exists t c, token = Some t /\
                           from_compact t = Jws c (hs256 JWT_SECRET c) /\
                           clock < exp c /\
                           vr_userId v = Some (tp_userId (claims_payload c))).
Proof.
  intros clock token response. unfold response, post_auth_validate,
    validateUserToken.
  split; [|split].
  - intros [-> | ->]; reflexivity.
  - intros t -> N. destruct (String.eqb_spec t "") as [E|_]; [contradiction|].
    split.
    + intros v ->. reflexivity.
    + intros e E. rewrite E. split; [reflexivity|].
      destruct (validateToken_throws _ _ _ E) as [[-> _] | ->]; reflexivity.
  - intros v. destruct token as [t|]; [|discriminate].
    destruct (String.eqb t ""); [discriminate|].
    destruct (validateToken clock (from_compact t)) as [v'|e] eqn:E;
      [|discriminate].
    cbn [body]. intros [= <-].
    apply validateToken_ok in E. destruct E as (c & T & L & ->).
    repeat split; try reflexivity. exists t, c. auto.
Qed.

End Routes.

(* ================================================================== *)
(** * The properties on the sample data *)

Lemma alice_store_schema_ok : schema_ok alice_store.
Proof. repeat split; repeat constructor. Defined.

Lemma alice_store_unique_accounts : unique_accounts alice_store.
Proof.
  repeat split; (constructor; [intros [] | constructor]).
Defined.

Lemma bob_keys_fresh : fresh_keys bob_draws alice_store.
Proof. repeat split; reflexivity. Defined.

Lemma validateToken_lifetime_witness :
  10 < 0 + @JWT_EXPIRY default_config /\
  @validateToken sample_primitives default_config 10
    (@generateAccessToken sample_primitives default_config 0
       alice_id "alice@example.com" "alice")
  = Ok (identity alice_id "alice@example.com" "alice").
Proof.
  assert (L : 10 < 0 + @JWT_EXPIRY default_config) by reflexivity.
  split; [exact L|].
  exact (proj1 (@validateToken_lifetime sample_primitives default_config
                  0 10 alice_id "alice@example.com" "alice") L).
Defined.

(** An expired refresh token of alice: issued at 0, presented at the
    instant its seven days are over. *)
Lemma refreshAccessToken_expired_token_witness :
  let c := {| claims_payload :=
                {| tp_userId := alice_id; tp_email := "alice@example.com";
                   tp_username := "alice"; tp_type := refresh |};
              iat := 0; exp := 604800 |} in
  exp c <= 604800 /\
  @refreshAccessToken sample_primitives default_config all_answered
    604800 604800
    (Jws c (@hs256 sample_primitives (@JWT_SECRET default_config) c))
    alice_store
  = (alice_store, Throw expired_token_error).
Proof.
  intros c.
  assert (L : exp c <= 604800) by (vm_compute; discriminate).
  split; [exact L|].
  exact (proj1 (@refreshAccessToken_expired_token sample_primitives
                  default_config all_answered 604800 604800 c alice_store L)).
Defined.

(** An access token of alice, presented where a refresh token is asked. *)
Lemma refreshAccessToken_ignores_type_witness :
  let c := {| claims_payload :=
                {| tp_userId := alice_id; tp_email := "alice@example.com";
                   tp_username := "alice"; tp_type := access |};
              iat := 0; exp := 86400 |} in
  let c' := {| claims_payload :=
                 {| tp_userId := alice_id; tp_email := "alice@example.com";
                    tp_username := "alice"; tp_type := access |};
               iat := 101; exp := 86501 |} in
  100 < 86400 /\ all_answered 0%nat = true /\
  find (has_user_id alice_id) (users alice_store) = Some alice /\
  @refreshAccessToken sample_primitives default_config all_answered 100 101
    (Jws c (@hs256 sample_primitives (@JWT_SECRET default_config) c))
    alice_store
  = (alice_store,
     Ok (Jws c' (@hs256 sample_primitives (@JWT_SECRET default_config) c'))).
Proof.
  intros c c'.
  assert (L : 100 < 86400) by reflexivity.
  assert (P : all_answered 0%nat = true) by reflexivity.
  assert (F : find (has_user_id alice_id) (users alice_store) = Some alice)
    by reflexivity.
  repeat (split; [assumption|]).
  exact (proj1 (@refreshAccessToken_ignores_type sample_primitives
                  default_config all_answered 100 101 access alice_id
                  "alice@example.com" "alice" 0 86400
                  alice_store alice L P F)).
Defined.

Lemma registerUser_succeeds_witness :
  validateEmail (reg_email bob_request) = true /\
  (8 <= String.length (reg_password bob_request))%nat /\
  (String.length (reg_email bob_request) <= 255)%nat /\
  (String.length (reg_username bob_request) <= 100)%nat /\
  existsb (has_email (reg_email bob_request)) (users alice_store) = false /\
  existsb (has_username (reg_username bob_request)) (users alice_store)
  = false /\
  schema_ok alice_store /\ fresh_keys bob_draws alice_store /\
  (forall n, (n < 5)%nat -> all_answered n = true) /\
  succeeded (snd (@registerUser sample_primitives default_config
                    all_answered bob_draws bob_request alice_store)) = true.
Proof.
  assert (V : validateEmail (reg_email bob_request) = true) by reflexivity.
  assert (L : (8 <= String.length (reg_password bob_request))%nat)
    by (simpl; lia).
  assert (We : (String.length (reg_email bob_request) <= 255)%nat)
    by (simpl; lia).
  assert (Wn : (String.length (reg_username bob_request) <= 100)%nat)
    by (simpl; lia).
  assert (E : existsb (has_email (reg_email bob_request)) (users alice_store)
              = false) by reflexivity.
  assert (U : existsb (has_username (reg_username bob_request))
                      (users alice_store) = false) by reflexivity.
  assert (P : forall n, (n < 5)%nat -> all_answered n = true)
    by (intros n _; reflexivity).
  repeat (split; [first [ assumption | exact alice_store_schema_ok
                        | exact bob_keys_fresh ]|]).
  rewrite (proj1 (@registerUser_succeeds sample_primitives default_config
                    all_answered bob_draws bob_request alice_store
                    V L We Wn E U alice_store_schema_ok bob_keys_fresh P)).
  reflexivity.
Defined.

(** C5, the counterexample.  A username of 101 characters that no account
    has, with a well-formed email no account has and a password of 14
    characters: every hypothesis of the claim holds, the database answers
    every statement, and [registerUser] fails with [DATABASE_ERROR], the
    INSERT into [users] being rejected for the width of the column.  An
    email of 256 characters ends the same way. *)
Lemma registerUser_rejects_long_values :
  let data := {| reg_email := "bob@example.com";
                 reg_password := "hunter2hunter2";
                 reg_username := long_username |} in
  let data' := {| reg_email := long_email;
                  reg_password := "hunter2hunter2";
                  reg_username := "bob" |} in
  validateEmail (reg_email data) = true /\
  (8 <= String.length (reg_password data))%nat /\
  existsb (has_email (reg_email data)) (users alice_store) = false /\
  existsb (has_username (reg_username data)) (users alice_store) = false /\
  String.length (reg_username data) = 101%nat /\
  @registerUser sample_primitives default_config all_answered bob_draws
    data alice_store
  = (alice_store, Throw database_error) /\
  validateEmail (reg_email data') = true /\
  existsb (has_email (reg_email data')) (users alice_store) = false /\
  existsb (has_username (reg_username data')) (users alice_store) = false /\
  String.length (reg_email data') = 256%nat /\
  @registerUser sample_primitives default_config all_answered bob_draws
    data' alice_store
  = (alice_store, Throw database_error).
Proof.
  intros data data'.
  split; [vm_compute; reflexivity|].
  split; [simpl; lia|].
  repeat (split; [vm_compute; reflexivity|]).
  vm_compute; reflexivity.
Qed.

(** Registering alice's email again, under a username nobody has. *)
Lemma registerUser_rejections_witness :
  let data := {| reg_email := "alice@example.com";
                 reg_password := "password123"; reg_username := "carol" |} in
  validateEmail (reg_email data) = true /\
  (8 <= String.length (reg_password data))%nat /\
  all_answered 0%nat = true /\
  existsb (has_email (reg_email data)) (users alice_store) = true /\
  @registerUser sample_primitives default_config all_answered bob_draws data
    alice_store
  = (alice_store, Throw email_taken_error) /\
  @registerUser sample_primitives default_config none_answered bob_draws
    {| reg_email := "not an email"; reg_password := "password123";
       reg_username := "carol" |} alice_store
  = (alice_store, Throw invalid_email_error).
Proof.
  intros data.
  assert (V : validateEmail (reg_email data) = true) by reflexivity.
  assert (L : (8 <= String.length (reg_password data))%nat) by (simpl; lia).
  assert (P : all_answered 0%nat = true) by reflexivity.
  assert (E : existsb (has_email (reg_email data)) (users alice_store) = true)
    by reflexivity.
  repeat (split; [assumption|]).
  split.
  - exact (proj1 (proj2 (proj2 (proj2 (@registerUser_rejections
                                         sample_primitives default_config
                                         all_answered bob_draws data
                                         alice_store))))
             V L P E).
  - exact (proj1 (@registerUser_rejections sample_primitives default_config
                    none_answered bob_draws
                    {| reg_email := "not an email";
                       reg_password := "password123";
                       reg_username := "carol" |} alice_store)
             eq_refl).
Defined.

(** A login for an email without account, and one for alice with a wrong
    password. *)
Lemma loginUser_failures_identical_witness :
  validateEmail "alice@example.com" = true /\
  all_answered 0%nat = true /\
  find (has_email "alice@example.com") (users empty_store) = None /\
  find (has_email "alice@example.com") (users alice_store) = Some alice /\
  @bcrypt_compare sample_primitives "wrongpassword" (password_hash alice)
  = false /\
  snd (@loginUser sample_primitives default_config all_answered 7 8
         {| login_email := "alice@example.com";
            login_password := "password123" |} empty_store)
  = snd (@loginUser sample_primitives default_config all_answered 7 8
           {| login_email := "alice@example.com";
              login_password := "wrongpassword" |} alice_store).
Proof.
  assert (V : validateEmail "alice@example.com" = true) by reflexivity.
  assert (P : all_answered 0%nat = true) by reflexivity.
  assert (N : find (has_email "alice@example.com") (users empty_store) = None)
    by reflexivity.
  assert (S : find (has_email "alice@example.com") (users alice_store)
              = Some alice) by reflexivity.
  assert (W : @bcrypt_compare sample_primitives "wrongpassword"
                (password_hash alice) = false) by reflexivity.
  repeat (split; [assumption|]).
  destruct (@loginUser_failures_identical sample_primitives default_config
              all_answered all_answered 7 8 7 8
              "alice@example.com" "password123" "wrongpassword"
              empty_store alice_store alice V P P N S W) as (A & B & _).
  rewrite A, B. reflexivity.
Defined.



Lemma requestPasswordReset_same_message_witness :
  all_answered 0%nat = true /\ all_answered 1%nat = true /\
  schema_ok alice_store /\
  find (has_email "alice@example.com") (users alice_store) = Some alice /\
  find (has_email "nobody@example.com") (users alice_store) = None /\
  existsb (fun t => String.eqb (prt_id t) (qd_ticket_id alice_reset_request))
          (password_reset_tokens alice_store) = false /\
  snd (@requestPasswordReset sample_primitives all_answered
         alice_reset_request {| prr_email := "alice@example.com" |}
         alice_store)
  = snd (@requestPasswordReset sample_primitives all_answered
           alice_reset_request {| prr_email := "nobody@example.com" |}
           alice_store) /\
  password_reset_tokens
    (fst (@requestPasswordReset sample_primitives all_answered
            alice_reset_request {| prr_email := "alice@example.com" |}
            alice_store))
  = [alice_ticket].
Proof.
  assert (P0 : all_answered 0%nat = true) by reflexivity.
  assert (P1 : all_answered 1%nat = true) by reflexivity.
  assert (K : find (has_email "alice@example.com") (users alice_store)
              = Some alice) by reflexivity.
  assert (U : find (has_email "nobody@example.com") (users alice_store) = None)
    by reflexivity.
  assert (F : existsb (fun t => String.eqb (prt_id t)
                                  (qd_ticket_id alice_reset_request))
                      (password_reset_tokens alice_store) = false)
    by reflexivity.
  repeat (split; [assumption || exact alice_store_schema_ok|]).
  destruct (@requestPasswordReset_same_message sample_primitives
              all_answered all_answered
              alice_reset_request alice_reset_request
              "alice@example.com" "nobody@example.com"
              alice_store alice_store alice P0 P1 P0
              alice_store_schema_ok K U F) as (_ & B & _ & T & _).
  split; [symmetry; exact B|]. rewrite T. reflexivity.
Defined.

(** The confirmation of alice's reset draws "salt-3"; her ticket was made
    with "salt-2". *)
Lemma resetPassword_misses_its_ticket_witness :
  all_answered 0%nat = true /\ all_answered 1%nat = true /\
  schema_ok alice_store /\
  find (has_email "alice@example.com") (users alice_store) = Some alice /\
  existsb (fun t => String.eqb (prt_id t) (qd_ticket_id alice_reset_request))
          (password_reset_tokens alice_store) = false /\
  (8 <= String.length (prc_newPassword alice_reset_confirm))%nat /\
  sd_token_salt (confirm_draws "salt-3") <> qd_salt alice_reset_request /\
  Forall (fun t => dg_salt (token_hash t)
                   <> sd_token_salt (confirm_draws "salt-3"))
         (password_reset_tokens alice_store) /\
  @resetPassword sample_primitives all_answered (confirm_draws "salt-3")
    alice_reset_confirm alice_store_with_ticket
  = (alice_store_with_ticket, Throw invalid_reset_token_error).
Proof.
  assert (P0 : all_answered 0%nat = true) by reflexivity.
  assert (P1 : all_answered 1%nat = true) by reflexivity.
  assert (K : find (has_email "alice@example.com") (users alice_store)
              = Some alice) by reflexivity.
  assert (F : existsb (fun t => String.eqb (prt_id t)
                                  (qd_ticket_id alice_reset_request))
                      (password_reset_tokens alice_store) = false)
    by reflexivity.
  assert (L : (8 <= String.length (prc_newPassword alice_reset_confirm))%nat)
    by (simpl; lia).
  assert (N : sd_token_salt (confirm_draws "salt-3")
              <> qd_salt alice_reset_request) by discriminate.
  assert (O : Forall (fun t => dg_salt (token_hash t)
                               <> sd_token_salt (confirm_draws "salt-3"))
                     (password_reset_tokens alice_store)) by constructor.
  repeat (split; [assumption || exact alice_store_schema_ok|]).
  exact (proj2 (@resetPassword_misses_its_ticket sample_primitives
                  all_answered all_answered
                  alice_reset_request (confirm_draws "salt-3")
                  "alice@example.com" "correct horse" alice_store alice
                  P0 P1 P0 alice_store_schema_ok K F L N O)).
Defined.


(* ------------------------------------------------------------------ *)
(** ** The further properties on the sample data *)


Lemma loginUser_succeeds_iff_witness :
  all_answered 0%nat = true /\
  validateEmail (login_email alice_login) = true /\
  find (has_email (login_email alice_login)) (users alice_store) = Some alice /\
  @bcrypt_compare sample_primitives (login_password alice_login)
    (password_hash alice) = true /\
  exists r,
    snd (@loginUser sample_primitives default_config all_answered 7 8
           alice_login alice_store)
    = Ok r /\ auth_user r = row_user alice.
Proof.
  assert (P : all_answered 0%nat = true) by reflexivity.
  assert (V : validateEmail (login_email alice_login) = true) by reflexivity.
  assert (F : find (has_email (login_email alice_login)) (users alice_store)
              = Some alice) by reflexivity.
  assert (C : @bcrypt_compare sample_primitives (login_password alice_login)
                (password_hash alice) = true) by reflexivity.
  repeat (split; [assumption|]).
  destruct (proj2 (@loginUser_succeeds_iff sample_primitives default_config
                     all_answered 7 8 alice_login alice_store) alice P V F C)
    as (r & R & U & _).
  exists r. split; assumption.
Defined.



Lemma getUserWithProfile_after_register_witness :
  let run := @registerUser sample_primitives default_config all_answered
               bob_draws bob_request alice_store in
  succeeded (snd run) = true /\
  all_answered 0%nat = true /\ all_answered 1%nat = true /\
  all_answered 2%nat = true /\
  exists u,
    getUserWithProfile all_answered (rd_user_id bob_draws) (fst run)
    = (fst run, Ok u) /\
    level (uwp_profile u) = 1 /\ theme (uwp_preferences u) = "light".
Proof.
  intros run.
  assert (S : succeeded (snd run) = true) by (vm_compute; reflexivity).
  assert (P0 : all_answered 0%nat = true) by reflexivity.
  assert (P1 : all_answered 1%nat = true) by reflexivity.
  assert (P2 : all_answered 2%nat = true) by reflexivity.
  repeat (split; [assumption|]).
  assert (R : exists registered,
             @registerUser sample_primitives default_config all_answered
               bob_draws bob_request alice_store = (fst run, Ok registered))
    by (eexists; vm_compute; reflexivity).
  destruct R as (registered & R).
  destruct (@getUserWithProfile_after_register sample_primitives
              default_config all_answered all_answered bob_draws bob_request
              alice_store (fst run) registered R P0 P1 P2)
    as (u & G & _ & _ & _ & _ & Lv & _ & _ & _ & _ & _ & _ & _ & Th).
  exists u. auto.
Defined.

(** A token signed for an id no account has. *)
Lemma refreshAccessToken_outcomes_witness :
  let c := {| claims_payload :=
                {| tp_userId := bob_id; tp_email := "bob@example.com";
                   tp_username := "bob"; tp_type := refresh |};
              iat := 0; exp := 604800 |} in
  100 < exp c /\ all_answered 0%nat = true /\
  is_uuid_text (tp_userId (claims_payload c)) = true /\
  find (has_user_id (tp_userId (claims_payload c))) (users alice_store)
  = None /\
  @refreshAccessToken sample_primitives default_config all_answered 100 101
    (Jws c (@hs256 sample_primitives (@JWT_SECRET default_config) c))
    alice_store
  = (alice_store, Throw user_not_found_error).
Proof.
  intros c.
  assert (L : 100 < exp c) by reflexivity.
  assert (P : all_answered 0%nat = true) by reflexivity.
  assert (T : is_uuid_text (tp_userId (claims_payload c)) = true)
    by reflexivity.
  assert (F : find (has_user_id (tp_userId (claims_payload c)))
                   (users alice_store) = None) by reflexivity.
  repeat (split; [assumption|]).
  exact (proj1 (proj2 (proj2 (proj2
           (@refreshAccessToken_outcomes sample_primitives default_config
              all_answered 100 101 c alice_store L)))) P T F).
Defined.

Lemma refresh_after_login_witness :
  let logged :=
    {| auth_user := row_user alice;
       auth_token := @generateAccessToken sample_primitives default_config 7
                       alice_id "alice@example.com" "alice";
       auth_refreshToken :=
         @generateRefreshToken sample_primitives default_config 8
           alice_id "alice@example.com" "alice" |} in
  schema_ok alice_store /\ unique_accounts alice_store /\
  @loginUser sample_primitives default_config all_answered 7 8 alice_login
    alice_store
  = (alice_store, Ok logged) /\
  1000 < 8 + @JWT_REFRESH_EXPIRY default_config /\
  all_answered 0%nat = true /\
  exists token,
    @refreshAccessToken sample_primitives default_config all_answered
      1000 1001 (auth_refreshToken logged) alice_store
    = (alice_store, Ok token).
Proof.
  intros logged.
  assert (R : @loginUser sample_primitives default_config all_answered 7 8
                alice_login alice_store = (alice_store, Ok logged))
    by reflexivity.
  assert (L : 1000 < 8 + @JWT_REFRESH_EXPIRY default_config) by reflexivity.
  assert (P : all_answered 0%nat = true) by reflexivity.
  split; [exact alice_store_schema_ok|].
  split; [exact alice_store_unique_accounts|].
  repeat (split; [assumption|]).
  destruct (@refresh_after_login sample_primitives default_config
              all_answered all_answered 7 8 1000 1001 alice_login alice_store
              logged alice_store_schema_ok alice_store_unique_accounts R L P)
    as (token & T & _).
  exists token. exact T.
Defined.

Lemma update_then_get_witness :
  all_answered 0%nat = true /\ all_answered 1%nat = true /\
  all_answered 2%nat = true /\
  exists db' r,
    updateProfile all_answered 9000 alice_id level_up alice_store
    = (db', Ok r) /\
    getUserWithProfile all_answered alice_id db' = (db', Ok r) /\
    level (uwp_profile r) = 5.
Proof.
  assert (P0 : all_answered 0%nat = true) by reflexivity.
  assert (P1 : all_answered 1%nat = true) by reflexivity.
  assert (P2 : all_answered 2%nat = true) by reflexivity.
  repeat (split; [assumption|]).
  eexists. eexists.
  assert (R : updateProfile all_answered 9000 alice_id level_up alice_store
              = (fst (updateProfile all_answered 9000 alice_id level_up
                        alice_store),
                 Ok {| uwp_user := row_user alice;
                       uwp_profile :=
                         set_profile_fields 9000 level_up alice_profile;
                       uwp_preferences := alice_preferences |}))
    by (vm_compute; reflexivity).
  split; [exact R|]. split; [|reflexivity].
  exact (proj1 (update_then_get all_answered all_answered 9000 alice_id
                  alice_store _ _ P0 P1 P2) level_up R).
Defined.

Lemma update_leaves_other_users_witness :
  uuid_eqb bob_id alice_id = false /\
  snd (getUserWithProfile all_answered bob_id
         (fst (updateProfile all_answered 9000 alice_id level_up
                 alice_store)))
  = snd (getUserWithProfile all_answered bob_id alice_store).
Proof.
  assert (N : uuid_eqb bob_id alice_id = false) by reflexivity.
  split; [exact N|].
  exact (proj1 (update_leaves_other_users all_answered all_answered 9000
                  alice_id bob_id alice_store N)
           level_up).
Defined.

Lemma update_written_before_failure_witness :
  all_answered 0%nat = true /\ all_answered 1%nat = true /\
  all_answered 2%nat = true /\
  find (has_user_id alice_id) (users alice_store_without_preferences)
  = Some alice /\
  profile_request_fits level_up = true /\
  find (of_user alice_id) (user_profiles alice_store_without_preferences)
  = Some alice_profile /\
  find (prefs_of_user alice_id)
       (user_preferences alice_store_without_preferences) = None /\
  snd (updateProfile all_answered 9000 alice_id level_up
         alice_store_without_preferences)
  = Throw preferences_not_found /\
  snd (findUserProfile true alice_id
         (fst (updateProfile all_answered 9000 alice_id level_up
                 alice_store_without_preferences)))
  = Ok (Some (set_profile_fields 9000 level_up alice_profile)).
Proof.
  assert (P0 : all_answered 0%nat = true) by reflexivity.
  assert (P1 : all_answered 1%nat = true) by reflexivity.
  assert (P2 : all_answered 2%nat = true) by reflexivity.
  assert (U : find (has_user_id alice_id)
                   (users alice_store_without_preferences) = Some alice)
    by reflexivity.
  assert (F : profile_request_fits level_up = true) by reflexivity.
  assert (P : find (of_user alice_id)
                   (user_profiles alice_store_without_preferences)
              = Some alice_profile) by reflexivity.
  assert (Q : find (prefs_of_user alice_id)
                   (user_preferences alice_store_without_preferences) = None)
    by reflexivity.
  repeat (split; [assumption|]).
  exact (proj1 (update_written_before_failure all_answered 9000 alice_id
                  alice_store_without_preferences alice P0 P1 P2 U)
           level_up alice_profile F P Q).
Defined.

Lemma resetPassword_outcomes_witness :
  let expired := {| sd_token_salt := "salt-2"; sd_lookup_now := 3604999;
                    sd_date_now := 3605001; sd_password_salt := "salt-4";
                    sd_update_now := 3605002 |} in
  (8 <= String.length (prc_newPassword alice_reset_confirm))%nat /\
  all_answered 0%nat = true /\
  snd (findPasswordResetToken true (sd_lookup_now expired)
         (@bcrypt_hash sample_primitives (prc_token alice_reset_confirm)
            SALT_ROUNDS (sd_token_salt expired)) alice_store_with_ticket)
  = Ok (Some alice_ticket) /\
  expires_at alice_ticket < sd_date_now expired /\
  @resetPassword sample_primitives all_answered expired alice_reset_confirm
    alice_store_with_ticket
  = (alice_store_with_ticket, Throw reset_token_expired_error).
Proof.
  intros expired.
  assert (L : (8 <= String.length (prc_newPassword alice_reset_confirm))%nat)
    by (simpl; lia).
  assert (P : all_answered 0%nat = true) by reflexivity.
  assert (F : snd (findPasswordResetToken true (sd_lookup_now expired)
                     (@bcrypt_hash sample_primitives
                        (prc_token alice_reset_confirm) SALT_ROUNDS
                        (sd_token_salt expired)) alice_store_with_ticket)
              = Ok (Some alice_ticket)) by reflexivity.
  assert (X : expires_at alice_ticket < sd_date_now expired) by reflexivity.
  repeat (split; [assumption|]).
  exact (proj1 (proj2 (proj2 (@resetPassword_outcomes sample_primitives
                                all_answered expired alice_reset_confirm
                                alice_store_with_ticket)))
           L P alice_ticket F X).
Defined.

Lemma login_after_reset_witness :
  let d := confirm_draws "salt-2" in
  let db' := fst (@resetPassword sample_primitives all_answered d
                    alice_reset_confirm alice_store_with_ticket) in
  let login := {| login_email := "alice@example.com";
                  login_password := "correct horse" |} in
  @resetPassword sample_primitives all_answered d alice_reset_confirm
    alice_store_with_ticket = (db', Ok reset_message_done) /\
  validateEmail (login_email login) = true /\
  find (has_email (login_email login)) (users alice_store_with_ticket)
  = Some alice /\
  exists logged,
    snd (@loginUser sample_primitives default_config all_answered 7000 7001
           login db')
    = Ok logged /\
    user_id (auth_user logged) = alice_id.
Proof.
  intros d db' login.
  assert (R : @resetPassword sample_primitives all_answered d
                alice_reset_confirm alice_store_with_ticket
              = (db', Ok reset_message_done))
    by (vm_compute; reflexivity).
  assert (V : validateEmail (login_email login) = true) by reflexivity.
  assert (F : find (has_email (login_email login))
                   (users alice_store_with_ticket) = Some alice)
    by reflexivity.
  repeat (split; [assumption|]).
  destruct (@login_after_reset sample_primitives default_config
              all_answered all_answered d
              alice_reset_confirm alice_store_with_ticket db'
              reset_message_done 7000 7001 login alice R V F)
    as (t & T & Same & _).
  injection T as T. subst t.
  destruct (Same eq_refl eq_refl eq_refl) as (logged & G & I & _).
  exists logged. split; [exact G | exact I].
Defined.

Lemma authenticate_outcomes_witness :
  @validateToken sample_primitives default_config 100
    (@from_compact sample_compact "alice.access.token")
  = Ok (identity alice_id "alice@example.com" "alice") /\
  @authenticate sample_primitives default_config sample_compact 100
    (Some (bearer "alice.access.token"))
  = inl {| au_userId := alice_id; au_email := "alice@example.com";
           au_username := "alice" |}.
Proof.
  assert (V : @validateToken sample_primitives default_config 100
                (@from_compact sample_compact "alice.access.token")
              = Ok (identity alice_id "alice@example.com" "alice"))
    by reflexivity.
  split; [exact V|].
  apply (proj1 (@authenticate_outcomes sample_primitives default_config
                  sample_compact 100 (Some (bearer "alice.access.token")))).
  exists "alice.access.token". split; [reflexivity | exact V].
Defined.

(** alice's token on bob's path. *)
Lemma protected_routes_guard_witness :
  @validateToken sample_primitives default_config 100
    (@from_compact sample_compact "alice.access.token")
  = Ok (identity alice_id "alice@example.com" "alice") /\
  alice_id <> bob_id /\
  @get_user sample_primitives default_config sample_compact none_answered 100
    (Some (bearer "alice.access.token")) bob_id alice_store
  = (alice_store, access_denied).
Proof.
  assert (V : @validateToken sample_primitives default_config 100
                (@from_compact sample_compact "alice.access.token")
              = Ok (identity alice_id "alice@example.com" "alice"))
    by reflexivity.
  assert (N : alice_id <> bob_id) by discriminate.
  repeat (split; [assumption|]).
  exact (proj1 (proj1 (proj2 (@protected_routes_guard sample_primitives
                                default_config sample_compact none_answered
                                100 9000
                                (Some (bearer "alice.access.token")) bob_id
                                level_up no_preference alice_store))
                      "alice.access.token" alice_id "alice@example.com"
                      "alice" eq_refl V N)).
Defined.
